(** * FormatNormalizer: resolution, command building and validation

    A shallow embedding of the three normalizer implementations of the
    repository and the properties of the design document that concern them:

    - [FN]  : [format_normalizer/normalizer.py]  (async pipeline, dict based)
    - [SN]  : [src/normalizer.py]                (preset table, try/except pipeline)
    - [FNN] : [formatnormalizer/normalizer.py]   (frame rate, settings, command)
    - [AI]  : [format_normalizer/ai_analyzer.py] (fallback recommendations)

    The Python code works on JSON-like dynamically typed data (the output of
    [json.loads] on ffprobe's report, the caller's target format, the
    recommender's payload).  The module [Py] gives that data and the builtins
    the code uses on it; an operation that raises in Python returns [Raise]. *)

From Stdlib Require Import ZArith QArith Qabs Bool List String Ascii Lia.
From Stdlib Require Import DecimalString DecimalZ.
Import ListNotations.

Local Open Scope string_scope.
Local Open Scope list_scope.
Local Open Scope Z_scope.

Set Warnings "-register-all".

(* ================================================================== *)
(** * Python values, exceptions and builtins                          *)
(* ================================================================== *)

Module Py.

(** JSON-like values.  A [dict] is an association list in insertion order
    (iteration order is observable: it fixes the order of encoder flags);
    keys are strings, as in JSON.  A [float] is idealised as an exact
    rational: rounding and the non-finite floats are outside the model. *)
Inductive value : Type :=
| VNone
| VBool (b : bool)
| VInt (n : Z)
| VFloat (q : Q)
| VStr (s : string)
| VList (l : list value)
| VDict (d : list (string * value)).

Definition dict := list (string * value).

(** The exceptions the modelled code can raise.  The carried text is
    indicative only (CPython's wording changes between versions). *)
Inductive exn : Type :=
| AttributeError (msg : string)
| KeyError (key : string)
| TypeError (msg : string)
| ValueError (msg : string)
| ZeroDivisionError (msg : string)
| RuntimeError (msg : string).

Inductive result (A : Type) : Type :=
| Ok (a : A)
| Raise (e : exn).
Arguments Ok {A} a.
Arguments Raise {A} e.

Definition bind {A B} (m : result A) (k : A -> result B) : result B :=
  match m with
  | Ok a => k a
  | Raise e => Raise e
  end.

Notation "x <- m ;; k" := (bind m (fun x => k))
  (at level 61, m at next level, right associativity).

Definition is_ok {A} (m : result A) : bool :=
  match m with Ok _ => true | Raise _ => false end.

(** [str(e)] of an exception. *)
Definition exn_str (e : exn) : string :=
  match e with
  | AttributeError m | TypeError m | ValueError m
  | ZeroDivisionError m | RuntimeError m => m
  | KeyError k => "'" ++ k ++ "'"
  end.

Definition type_name (v : value) : string :=
  match v with
  | VNone => "NoneType"
  | VBool _ => "bool"
  | VInt _ => "int"
  | VFloat _ => "float"
  | VStr _ => "str"
  | VList _ => "list"
  | VDict _ => "dict"
  end.

Definition no_attribute (v : value) (attr : string) : exn :=
  AttributeError ("'" ++ type_name v ++ "' object has no attribute '" ++ attr ++ "'").

(** ** Dictionaries *)

Fixpoint dict_get (k : string) (d : dict) : option value :=
  match d with
  | [] => None
  | (k', v) :: rest => if String.eqb k k' then Some v else dict_get k rest
  end.

Definition dict_mem (k : string) (d : dict) : bool :=
  match dict_get k d with Some _ => true | None => false end.

(** [d[k] = v]: an existing key keeps its position, a new key goes last. *)
Fixpoint dict_set (k : string) (v : value) (d : dict) : dict :=
  match d with
  | [] => [(k, v)]
  | (k', v') :: rest =>
      if String.eqb k k' then (k, v) :: rest else (k', v') :: dict_set k v rest
  end.

(** [d.update(other)] for a mapping [other]. *)
Definition dict_update (d other : dict) : dict :=
  fold_left (fun acc kv => dict_set (fst kv) (snd kv) acc) other d.

Definition dict_keys (d : dict) : list string := map fst d.

(** ** Truth value, equality with a string literal, [isinstance] *)

Definition truthy (v : value) : bool :=
  match v with
  | VNone => false
  | VBool b => b
  | VInt n => negb (n =? 0)
  | VFloat q => negb (Qnum q =? 0)
  | VStr s => negb (String.eqb s "")
  | VList l => match l with [] => false | _ => true end
  | VDict d => match d with [] => false | _ => true end
  end.

(** [v == "s"] *)
Definition eq_str (v : value) (s : string) : bool :=
  match v with
  | VStr s' => String.eqb s' s
  | _ => false
  end.

(** [v in ["s1", "s2", ...]] *)
Definition in_strs (v : value) (l : list string) : bool :=
  existsb (eq_str v) l.

Definition is_dict (v : value) : bool :=
  match v with VDict _ => true | _ => false end.

Definition is_list (v : value) : bool :=
  match v with VList _ => true | _ => false end.

Definition is_none (v : value) : bool :=
  match v with VNone => true | _ => false end.

(** ** Attribute-style access *)

(** [v.get(k, default)] *)
Definition get (v : value) (k : string) (default : value) : result value :=
  match v with
  | VDict d => Ok (match dict_get k d with Some x => x | None => default end)
  | _ => Raise (no_attribute v "get")
  end.

(** [v[k]] for a string key [k] *)
Definition getitem (v : value) (k : string) : result value :=
  match v with
  | VDict d =>
      match dict_get k d with
      | Some x => Ok x
      | None => Raise (KeyError k)
      end
  | VStr _ => Raise (TypeError "string indices must be integers")
  | VList _ => Raise (TypeError "list indices must be integers or slices, not str")
  | _ => Raise (TypeError ("'" ++ type_name v ++ "' object is not subscriptable"))
  end.

(** [v.items()] *)
Definition items (v : value) : result dict :=
  match v with
  | VDict d => Ok d
  | _ => Raise (no_attribute v "items")
  end.

Fixpoint chars (s : string) : list value :=
  match s with
  | EmptyString => []
  | String c rest => VStr (String c EmptyString) :: chars rest
  end.

(** The elements a [for] loop (or [any]) draws from [v]. *)
Definition iter (v : value) : result (list value) :=
  match v with
  | VList l => Ok l
  | VDict d => Ok (map (fun kv => VStr (fst kv)) d)
  | VStr s => Ok (chars s)
  | _ => Raise (TypeError ("'" ++ type_name v ++ "' object is not iterable"))
  end.

Fixpoint is_prefix (p s : string) : bool :=
  match p, s with
  | EmptyString, _ => true
  | String a p', String b s' => Ascii.eqb a b && is_prefix p' s'
  | String _ _, EmptyString => false
  end.

Fixpoint is_substring (p s : string) : bool :=
  is_prefix p s ||
  match s with
  | EmptyString => false
  | String _ s' => is_substring p s'
  end.

(** ["k" in v] *)
Definition contains (k : string) (v : value) : result bool :=
  match v with
  | VDict d => Ok (dict_mem k d)
  | VList l => Ok (existsb (fun x => eq_str x k) l)
  | VStr s => Ok (is_substring k s)
  | _ => Raise (TypeError ("argument of type '" ++ type_name v ++ "' is not iterable"))
  end.

(** ** Strings *)

Definition lower_ascii (c : ascii) : ascii :=
  let n := nat_of_ascii c in
  if (Nat.leb 65 n && Nat.leb n 90)%bool then ascii_of_nat (n + 32) else c.

Fixpoint lower_string (s : string) : string :=
  match s with
  | EmptyString => EmptyString
  | String c rest => String (lower_ascii c) (lower_string rest)
  end.

(** [v.lower()] (ASCII letters; other code points are left as they are) *)
Definition lower (v : value) : result string :=
  match v with
  | VStr s => Ok (lower_string s)
  | _ => Raise (no_attribute v "lower")
  end.

(** [s.replace(c, new)] for a one-character pattern [c] *)
Fixpoint replace_char (c : ascii) (new : string) (s : string) : string :=
  match s with
  | EmptyString => EmptyString
  | String a rest =>
      if Ascii.eqb a c then new ++ replace_char c new rest
      else String a (replace_char c new rest)
  end.

(** [v.replace("k", "000")]-style call on a value *)
Definition replace (v : value) (c : ascii) (new : string) : result string :=
  match v with
  | VStr s => Ok (replace_char c new s)
  | _ => Raise (no_attribute v "replace")
  end.

(** [s.split(sep)] for a one-character separator: never empty. *)
Fixpoint split_char (sep : ascii) (s : string) : list string :=
  match s with
  | EmptyString => [EmptyString]
  | String a rest =>
      if Ascii.eqb a sep then EmptyString :: split_char sep rest
      else match split_char sep rest with
           | [] => [String a EmptyString]
           | p :: ps => String a p :: ps
           end
  end.

Definition split (v : value) (sep : ascii) : result (list string) :=
  match v with
  | VStr s => Ok (split_char sep s)
  | _ => Raise (no_attribute v "split")
  end.

(** ** Numbers *)

Definition str_of_Z (n : Z) : string := NilZero.string_of_int (Z.to_int n).

(** White space as [str.strip] and [int] see it, within ASCII. *)
Definition is_space (c : ascii) : bool :=
  let n := nat_of_ascii c in
  (Nat.eqb n 32 || (Nat.leb 9 n && Nat.leb n 13)
   || (Nat.leb 28 n && Nat.leb n 31))%bool.

Fixpoint lstrip (s : string) : string :=
  match s with
  | String c rest => if is_space c then lstrip rest else s
  | EmptyString => EmptyString
  end.

Fixpoint rstrip (s : string) : string :=
  match s with
  | EmptyString => EmptyString
  | String c rest =>
      match rstrip rest with
      | EmptyString => if is_space c then EmptyString else String c EmptyString
      | r => String c r
      end
  end.

Definition strip (s : string) : string := rstrip (lstrip s).

(** A non-empty run of decimal digits. *)
Definition digits_to_Z (s : string) : option Z :=
  match NilZero.uint_of_string s with
  | Some d => Some (Z.of_uint d)
  | None => None
  end.

(** The integer literal [int(s)] accepts: surrounding white space, an
    optional sign, decimal digits (digit-group underscores are not
    modelled: such a literal is rejected here). *)
Definition parse_int (s : string) : option Z :=
  match strip s with
  | String "-" rest => option_map Z.opp (digits_to_Z rest)
  | String "+" rest => digits_to_Z rest
  | t => digits_to_Z t
  end.

Definition repr_quoted (s : string) : string := "'" ++ s ++ "'".

(** [int(v)] *)
Definition int (v : value) : result Z :=
  match v with
  | VInt n => Ok n
  | VBool b => Ok (if b then 1 else 0)
  | VFloat q => Ok (Z.quot (Qnum q) (Zpos (Qden q)))
  | VStr s =>
      match parse_int s with
      | Some n => Ok n
      | None =>
          Raise (ValueError ("invalid literal for int() with base 10: " ++ repr_quoted s))
      end
  | _ => Raise (TypeError ("int() argument must be a string, a bytes-like object or a real number, not '" ++ type_name v ++ "'"))
  end.

(** Decimal literal [digits[.digits]] or [.digits] as a rational. *)
Definition parse_decimal (s : string) : option Q :=
  match split_char "." s with
  | [i] => option_map inject_Z (digits_to_Z i)
  | [i; f] =>
      match (if String.eqb i "" then Some 0 else digits_to_Z i),
            (if String.eqb f "" then Some 0 else digits_to_Z f) with
      | Some a, Some b =>
          if (String.eqb i "" && String.eqb f "")%bool then None
          else Some (inject_Z a + inject_Z b / inject_Z (10 ^ Z.of_nat (String.length f)))%Q
      | _, _ => None
      end
  | _ => None
  end.

(** The literal [float(s)] accepts: surrounding white space, an optional
    sign and a decimal literal (exponents, underscores, [inf] and [nan] are
    not modelled: such a literal is rejected here). *)
Definition parse_float (s : string) : option Q :=
  match strip s with
  | String "-" rest => option_map Qopp (parse_decimal rest)
  | String "+" rest => parse_decimal rest
  | t => parse_decimal t
  end.

(** [v[k] = x] *)
Definition setitem (v : value) (k : string) (x : value) : result value :=
  match v with
  | VDict d => Ok (VDict (dict_set k x d))
  | _ => Raise (TypeError ("'" ++ type_name v ++ "' object does not support item assignment"))
  end.

(** [v.update(other)].  Python also accepts an iterable of key/value pairs
    for [other]; only mappings are modelled, any other argument is an
    error here. *)
Definition update (v other : value) : result value :=
  match v, other with
  | VDict d, VDict o => Ok (VDict (dict_update d o))
  | VDict _, _ => Raise (TypeError ("'" ++ type_name other ++ "' object is not a mapping"))
  | _, _ => Raise (no_attribute v "update")
  end.

(** [v.extend(other)] *)
Definition extend (v other : value) : result value :=
  match v with
  | VList l => xs <- iter other ;; Ok (VList (l ++ xs))
  | _ => Raise (no_attribute v "extend")
  end.

(** [float(v)] *)
Definition float (v : value) : result Q :=
  match v with
  | VInt n => Ok (inject_Z n)
  | VBool b => Ok (if b then 1 else 0)%Q
  | VFloat q => Ok q
  | VStr s =>
      match parse_float s with
      | Some q => Ok q
      | None => Raise (ValueError ("could not convert string to float: " ++ repr_quoted s))
      end
  | _ => Raise (TypeError ("float() argument must be a string or a real number, not '" ++ type_name v ++ "'"))
  end.

End Py.

Import Py.

Notation "x <- m ;; k" := (Py.bind m (fun x => k))
  (at level 61, m at next level, right associativity).

(* ================================================================== *)
(** * format_normalizer/normalizer.py                                  *)
(* ================================================================== *)

Module FN.

(** [_get_default_codec] *)
Definition format_codec_map : list (string * string) :=
  [ ("mp4", "h264"); ("mov", "prores"); ("mkv", "h265"); ("webm", "vp9");
    ("avi", "h264"); ("mxf", "dnxhd"); ("mp3", "mp3"); ("wav", "pcm_s16le");
    ("aac", "aac"); ("flac", "flac"); ("ogg", "vorbis"); ("m4a", "aac");
    ("jpg", "mjpeg"); ("png", "png"); ("tiff", "tiff"); ("webp", "webp");
    ("avif", "libaom-av1") ].

Fixpoint assoc (k : string) (l : list (string * string)) : option string :=
  match l with
  | [] => None
  | (k', v) :: rest => if String.eqb k k' then Some v else assoc k rest
  end.

Definition _get_default_codec (format_type : string) : string :=
  match assoc (lower_string format_type) format_codec_map with
  | Some c => c
  | None => "h264"
  end.

(** The preset table of [_prepare_format_parameters]: the value assigned to
    [params["parameters"]] for a preset name, codec and format. *)
Definition is_x264 (codec : value) : bool := in_strs codec ["h264"; "libx264"].

Definition preset_parameters (preset : string) (codec : value) (format_type : string) : dict :=
  if String.eqb preset "web" then
    [ ("video", VDict [ ("crf", VInt (if is_x264 codec then 23 else 28));
                        ("preset", VStr "medium");
                        ("movflags", VStr "+faststart") ]);
      ("audio", VDict [ ("codec", VStr "aac"); ("bitrate", VStr "128k") ]) ]
  else if String.eqb preset "social" then
    [ ("video", VDict [ ("crf", VInt (if is_x264 codec then 20 else 25));
                        ("preset", VStr "medium");
                        ("movflags", VStr "+faststart");
                        ("maxrate", VStr "4M");
                        ("bufsize", VStr "8M") ]);
      ("audio", VDict [ ("codec", VStr "aac"); ("bitrate", VStr "192k") ]) ]
  else if String.eqb preset "broadcast" then
    [ ("video", VDict [ ("profile", VStr (if eq_str codec "prores" then "3" else "high"));
                        ("level", if is_x264 codec then VStr "5.1" else VNone);
                        ("preset", if in_strs codec ["h264"; "libx264"; "h265"; "libx265"]
                                   then VStr "slow" else VNone);
                        ("pix_fmt", VStr (if eq_str codec "prores" then "yuv422p10le" else "yuv420p")) ]);
      ("audio", VDict [ ("codec", VStr (if existsb (String.eqb format_type) ["mov"; "mxf"]
                                        then "pcm_s24le" else "aac"));
                        ("sample_rate", VStr "48000") ]) ]
  else if String.eqb preset "archive" then
    [ ("video", VDict [ ("profile", VStr (if eq_str codec "prores" then "4444" else "high"));
                        ("pix_fmt", VStr (if eq_str codec "prores" then "yuv444p10le" else "yuv420p"));
                        ("qscale", if eq_str codec "mjpeg" then VStr "1" else VNone) ]);
      ("audio", VDict [ ("codec", VStr "pcm_s24le"); ("sample_rate", VStr "48000") ]) ]
  else if String.eqb preset "mobile" then
    [ ("video", VDict [ ("crf", VInt (if is_x264 codec then 26 else 30));
                        ("preset", VStr "medium");
                        ("movflags", VStr "+faststart");
                        ("maxrate", VStr "2M");
                        ("bufsize", VStr "4M") ]);
      ("audio", VDict [ ("codec", VStr "aac"); ("bitrate", VStr "96k") ]) ]
  else
    [ ("video", VDict [ ("crf", VInt (if is_x264 codec then 23 else 28));
                        ("preset", VStr "medium") ]);
      ("audio", VDict [ ("codec", VStr "aac"); ("bitrate", VStr "192k") ]) ].

(** One turn of the loop that merges the caller's [parameters] into the
    preset's: a section the preset has is updated key by key, a new one is
    stored. *)
Definition merge_section (acc : result dict) (kv : string * value) : result dict :=
  params <- acc ;;
  match dict_get (fst kv) params with
  | Some section =>
      section' <- update section (snd kv) ;;
      Ok (dict_set (fst kv) section' params)
  | None => Ok (dict_set (fst kv) (snd kv) params)
  end.

Definition merge_parameters (params : dict) (overrides : dict) : result dict :=
  fold_left merge_section overrides (Ok params).

(** [_prepare_format_parameters(target_format, preset)] *)
Definition _prepare_format_parameters (target_format : value) (preset : string)
  : result value :=
  f <- get target_format "format" (VStr "mp4") ;;
  format_type <- lower f ;;
  codec0 <- get target_format "codec" (VStr "") ;;
  let codec := if truthy codec0 then codec0 else VStr (_get_default_codec format_type) in
  let parameters := preset_parameters preset codec format_type in
  has <- contains "parameters" target_format ;;
  parameters' <-
    (if has then
       extra <- getitem target_format "parameters" ;;
       match extra with
       | VDict overrides => merge_parameters parameters overrides
       | _ => Ok parameters
       end
     else Ok parameters) ;;
  Ok (VDict [ ("format", VStr format_type);
              ("codec", codec);
              ("preset", VStr preset);
              ("parameters", VDict parameters') ]).

(** [format_params["parameters"]["video"][key] = value] *)
Definition set_video_param (format_params : value) (key : string) (v : value)
  : result value :=
  parameters <- getitem format_params "parameters" ;;
  video <- getitem parameters "video" ;;
  video' <- setitem video key v ;;
  parameters' <- setitem parameters "video" video' ;;
  setitem format_params "parameters" parameters'.

(** ["video" in format_params["parameters"]] *)
Definition has_section (format_params : value) (name : string) : result bool :=
  parameters <- getitem format_params "parameters" ;;
  contains name parameters.

(** One turn of the [codec_parameters] loop. *)
Definition apply_codec_parameter (acc : result value) (kv : string * value)
  : result value :=
  format_params <- acc ;;
  has <- has_section format_params "video" ;;
  if has then set_video_param format_params (fst kv) (snd kv) else Ok format_params.

Definition apply_codec_parameters (format_params recommendations : value)
  : result value :=
  has <- contains "codec_parameters" recommendations ;;
  if has then
    cp <- getitem recommendations "codec_parameters" ;;
    match cp with
    | VDict d => fold_left apply_codec_parameter d (Ok format_params)
    | _ => Ok format_params
    end
  else Ok format_params.

(** [f"{int(strategy_value.replace('k', '000')) * 2}k"] *)
Definition cbr_bufsize (strategy_value : value) : result value :=
  s <- replace strategy_value "k" "000" ;;
  n <- int (VStr s) ;;
  Ok (VStr (str_of_Z (n * 2) ++ "k")).

Definition apply_bitrate_strategy (format_params recommendations : value)
  : result value :=
  has <- contains "bitrate_strategy" recommendations ;;
  if has then
    strategy <- getitem recommendations "bitrate_strategy" ;;
    if is_dict strategy then
      strategy_type <- get strategy "type" VNone ;;
      strategy_value <- get strategy "value" VNone ;;
      if truthy strategy_type then
        if truthy strategy_value then
          has_video <- has_section format_params "video" ;;
          if has_video then
            if eq_str strategy_type "CRF" then
              set_video_param format_params "crf" strategy_value
            else if eq_str strategy_type "CBR" then
              fp1 <- set_video_param format_params "bitrate" strategy_value ;;
              fp2 <- set_video_param fp1 "minrate" strategy_value ;;
              fp3 <- set_video_param fp2 "maxrate" strategy_value ;;
              bufsize <- cbr_bufsize strategy_value ;;
              set_video_param fp3 "bufsize" bufsize
            else if eq_str strategy_type "VBR" then
              set_video_param format_params "bitrate" strategy_value
            else Ok format_params
          else Ok format_params
        else Ok format_params
      else Ok format_params
    else Ok format_params
  else Ok format_params.

Definition apply_ffmpeg_options (format_params recommendations : value)
  : result value :=
  has <- contains "ffmpeg_options" recommendations ;;
  if has then
    opts <- getitem recommendations "ffmpeg_options" ;;
    if is_list opts then
      present <- has_section format_params "ffmpeg_options" ;;
      parameters <- getitem format_params "parameters" ;;
      parameters1 <-
        (if present then Ok parameters
         else setitem parameters "ffmpeg_options" (VList [])) ;;
      current <- getitem parameters1 "ffmpeg_options" ;;
      extended <- extend current opts ;;
      parameters2 <- setitem parameters1 "ffmpeg_options" extended ;;
      setitem format_params "parameters" parameters2
    else Ok format_params
  else Ok format_params.

(** [_apply_ai_recommendations(format_params, ai_analysis)] *)
Definition _apply_ai_recommendations (format_params ai_analysis : value)
  : result value :=
  recommendations <- get ai_analysis "encoding_recommendations" (VDict []) ;;
  if negb (truthy recommendations) then Ok format_params
  else
    fp1 <- apply_codec_parameters format_params recommendations ;;
    fp2 <- apply_bitrate_strategy fp1 recommendations ;;
    apply_ffmpeg_options fp2 recommendations.

(** [format_params["parameters"]["video"][key]], the way the properties
    below read a resolved video parameter. *)
Definition video_param (format_params : value) (key : string) : result value :=
  parameters <- getitem format_params "parameters" ;;
  video <- getitem parameters "video" ;;
  getitem video key.

(** ** Streams of a probed descriptor *)

(** [any(stream.get("codec_type") == kind for stream in streams)]: stops at
    the first stream of that kind. *)
Fixpoint any_stream (kind : string) (streams : list value) : result bool :=
  match streams with
  | [] => Ok false
  | stream :: rest =>
      t <- get stream "codec_type" VNone ;;
      if eq_str t kind then Ok true else any_stream kind rest
  end.

(** [any(... for stream in metadata.get("streams", []))] *)
Definition has_stream (kind : string) (metadata : value) : result bool :=
  streams <- get metadata "streams" (VList []) ;;
  l <- iter streams ;;
  any_stream kind l.

(** [next((s for s in streams if s.get("codec_type") == kind), None)] *)
Fixpoint first_stream (kind : string) (streams : list value) : result value :=
  match streams with
  | [] => Ok VNone
  | stream :: rest =>
      t <- get stream "codec_type" VNone ;;
      if eq_str t kind then Ok stream else first_stream kind rest
  end.

Definition find_stream (kind : string) (metadata : value) : result value :=
  streams <- get metadata "streams" (VList []) ;;
  l <- iter streams ;;
  first_stream kind l.

(** ** The validation record and the monad of the validator's [try] body:
    the record is mutated in place, so what was recorded before an
    exception is still there when the handler runs. *)

Record validation : Type := { passed : bool; issues : list string }.

Definition VM (A : Type) : Type := validation -> validation * result A.

Definition vret {A} (a : A) : VM A := fun v => (v, Ok a).

Definition vbind {A B} (m : VM A) (k : A -> VM B) : VM B :=
  fun v =>
    match m v with
    | (v', Ok a) => k a v'
    | (v', Raise e) => (v', Raise e)
    end.

(** A computation that does not touch the record. *)
Definition lift {A} (r : result A) : VM A := fun v => (v, r).

(** [validation["passed"] = False; validation["issues"].append(msg)] *)
Definition fail (msg : string) : VM unit :=
  fun v => ({| passed := false; issues := issues v ++ [msg] |}, Ok tt).

(** [validation["issues"].append(msg)] *)
Definition note (msg : string) : VM unit :=
  fun v => ({| passed := passed v; issues := issues v ++ [msg] |}, Ok tt).

Notation "x <~ m ;; k" := (vbind m (fun x => k))
  (at level 61, m at next level, right associativity).
Notation "m ;;; k" := (vbind m (fun _ => k))
  (at level 61, right associativity).

(** The external world of one [normalize] call: what the prober, the
    recommender, the encoder, the file system and the clock answer. *)
Record env : Type := {
  probe_source : result value;
  recommend : value -> value -> result value;
  encoder_returncode : list string -> Z;
  encoder_stderr : list string -> string;
  source_exists : bool;
  output_exists : bool;
  probe_output : result value;
  source_getsize : Z;
  output_getsize : Z;
  processing_time : Q
}.

(** The record [normalize] returns. *)
Record job_result : Type := {
  uri : string;
  format : value;
  codec : string;
  duration : value;
  fileSize : Z;
  resolution : option (Z * Z);
  original : value;
  technical : value;
  transformations : list string;
  processingTime : Q;
  qualityMetrics : list (string * Q);
  compressionRatio : Q;
  validation_results : option validation;
  ai_analysis : option value
}.

(** ** Command building: the first half of [_convert_media] *)

Section Pipeline.

(** Python's [str()] on floats and containers, and the float format
    specifications [.Nf] and [.N%]: their text plays no role in any
    property below, so they are left abstract. *)
Variable repr : value -> string.
Variable format_f : nat -> Q -> string.
Variable format_pct : nat -> Q -> string.

(** [str(v)] *)
Definition str (v : value) : string :=
  match v with
  | VStr s => s
  | VInt n => str_of_Z n
  | VBool b => if b then "True" else "False"
  | VNone => "None"
  | _ => repr v
  end.

(** The encoder selected for [format_params["codec"]]. *)
Definition video_codec_args (codec : value) : list value :=
  if eq_str codec "h264" then [VStr "-c:v"; VStr "libx264"]
  else if (eq_str codec "h265" || eq_str codec "hevc")%bool then [VStr "-c:v"; VStr "libx265"]
  else if eq_str codec "prores" then [VStr "-c:v"; VStr "prores_ks"]
  else if eq_str codec "av1" then [VStr "-c:v"; VStr "libaom-av1"]
  else if eq_str codec "vp9" then [VStr "-c:v"; VStr "libvpx-vp9"]
  else [VStr "-c:v"; codec].

(** The arguments one entry of the video section adds. *)
Definition video_param_args (format_params codec : value) (key : string) (v : value)
  : result (list value) :=
  if is_none v then Ok []
  else if String.eqb key "crf" then Ok [VStr "-crf"; VStr (str v)]
  else if String.eqb key "preset" then Ok [VStr "-preset"; VStr (str v)]
  else if String.eqb key "profile" then Ok [VStr "-profile:v"; VStr (str v)]
  else if (String.eqb key "level"
           && in_strs codec ["h264"; "libx264"; "h265"; "libx265"])%bool
       then Ok [VStr "-level"; VStr (str v)]
  else if String.eqb key "pix_fmt" then Ok [VStr "-pix_fmt"; VStr (str v)]
  else if String.eqb key "maxrate" then Ok [VStr "-maxrate"; VStr (str v)]
  else if String.eqb key "minrate" then Ok [VStr "-minrate"; VStr (str v)]
  else if String.eqb key "bufsize" then Ok [VStr "-bufsize"; VStr (str v)]
  else if String.eqb key "qscale" then Ok [VStr "-qscale:v"; VStr (str v)]
  else if String.eqb key "bitrate" then Ok [VStr "-b:v"; VStr (str v)]
  else if String.eqb key "movflags" then
    f <- getitem format_params "format" ;;
    if in_strs f ["mp4"; "mov"] then Ok [VStr "-movflags"; VStr (str v)] else Ok []
  else Ok [].

Definition add_video_param (format_params codec : value)
  (acc : result (list value)) (kv : string * value) : result (list value) :=
  cmd <- acc ;;
  args <- video_param_args format_params codec (fst kv) (snd kv) ;;
  Ok (cmd ++ args).

(** The block guarded by [if has_video and "video" in ...]. *)
Definition add_video (format_params source_metadata : value) (cmd : list value)
  : result (list value) :=
  has_video <- has_stream "video" source_metadata ;;
  enabled <- (if has_video then has_section format_params "video" else Ok false) ;;
  if enabled then
    parameters <- getitem format_params "parameters" ;;
    video_params <- getitem parameters "video" ;;
    codec <- getitem format_params "codec" ;;
    entries <- items video_params ;;
    fold_left (add_video_param format_params codec) entries
              (Ok (cmd ++ video_codec_args codec))
  else Ok cmd.

(** The arguments one entry of the audio section adds. *)
Definition audio_param_args (key : string) (v : value) : list value :=
  if (negb (is_none v) && negb (String.eqb key "codec"))%bool then
    if String.eqb key "bitrate" then [VStr "-b:a"; VStr (str v)]
    else if String.eqb key "sample_rate" then [VStr "-ar"; VStr (str v)]
    else if String.eqb key "channels" then [VStr "-ac"; VStr (str v)]
    else []
  else [].

Definition add_audio_param (cmd : list value) (kv : string * value) : list value :=
  cmd ++ audio_param_args (fst kv) (snd kv).

(** The block guarded by [if has_audio and "audio" in ...]. *)
Definition add_audio (format_params source_metadata : value) (cmd : list value)
  : result (list value) :=
  has_audio <- has_stream "audio" source_metadata ;;
  enabled <- (if has_audio then has_section format_params "audio" else Ok false) ;;
  if enabled then
    parameters <- getitem format_params "parameters" ;;
    audio_params <- getitem parameters "audio" ;;
    has_codec <- contains "codec" audio_params ;;
    cmd1 <- (if has_codec then
               c <- getitem audio_params "codec" ;;
               Ok (cmd ++ [VStr "-c:a"; c])
             else Ok cmd) ;;
    entries <- items audio_params ;;
    Ok (fold_left add_audio_param entries cmd1)
  else Ok cmd.

(** The custom options, each through [str], in the order given. *)
Definition add_ffmpeg_options (format_params : value) (cmd : list value)
  : result (list value) :=
  present <- has_section format_params "ffmpeg_options" ;;
  if present then
    parameters <- getitem format_params "parameters" ;;
    opts <- getitem parameters "ffmpeg_options" ;;
    l <- iter opts ;;
    Ok (fold_left (fun c option => c ++ [VStr (str option)]) l cmd)
  else Ok cmd.

(** [if format_params["format"]: ffmpeg_cmd.extend(["-f", ...])] *)
Definition add_output_format (format_params : value) (cmd : list value)
  : result (list value) :=
  f <- getitem format_params "format" ;;
  if truthy f then Ok (cmd ++ [VStr "-f"; f]) else Ok cmd.

(** [' '.join(ffmpeg_cmd)] needs every argument to be a string. *)
Fixpoint all_strings (cmd : list value) : result (list string) :=
  match cmd with
  | [] => Ok []
  | VStr s :: rest => l <- all_strings rest ;; Ok (s :: l)
  | v :: _ =>
      Raise (TypeError ("sequence item: expected str instance, " ++ type_name v ++ " found"))
  end.

(** The argument list [_convert_media] hands to the encoder (the body of
    the function up to and including the logging of the joined command;
    creating the output directory is a file-system effect outside the
    model). *)
Definition build_ffmpeg_cmd (source_path output_path : string)
  (format_params source_metadata : value) : result (list string) :=
  let cmd0 := [VStr "ffmpeg"; VStr "-y"; VStr "-i"; VStr source_path] in
  cmd1 <- add_video format_params source_metadata cmd0 ;;
  cmd2 <- add_audio format_params source_metadata cmd1 ;;
  cmd3 <- add_ffmpeg_options format_params cmd2 ;;
  cmd4 <- add_output_format format_params cmd3 ;;
  all_strings (cmd4 ++ [VStr output_path]).

(** ** Output validation: [_validate_output] *)

Definition Qgt_bool (a b : Q) : bool := negb (Qle_bool a b).
Definition Qlt_bool (a b : Q) : bool := negb (Qle_bool b a).

(** [metadata.get("format", {}).get(field, default)] *)
Definition format_field (metadata : value) (field : string) (default : value)
  : result value :=
  f <- get metadata "format" (VDict []) ;;
  get f field default.

(** [stream.get("codec_name", "").lower()] *)
Definition codec_name_lower (stream : value) : result string :=
  c <- get stream "codec_name" (VStr "") ;;
  lower c.

Definition check_format (output_metadata target_format : value) : VM unit :=
  output_format <~ lift (n <- format_field output_metadata "format_name" (VStr "") ;; lower n) ;;
  expected_format <~ lift (f <- get target_format "format" (VStr "") ;; lower f) ;;
  if (negb (String.eqb expected_format "")
      && negb (String.eqb output_format expected_format))%bool
  then fail ("Expected format " ++ expected_format ++ ", got " ++ output_format)
  else vret tt.

Definition check_video_codec (has_video : bool) (output_metadata target_format : value)
  : VM unit :=
  if has_video then
    video_stream <~ lift (find_stream "video" output_metadata) ;;
    if truthy video_stream then
      output_codec <~ lift (codec_name_lower video_stream) ;;
      expected_codec <~ lift (c <- get target_format "codec" (VStr "") ;; lower c) ;;
      if (String.eqb expected_codec "h264"
          && negb (existsb (String.eqb output_codec) ["h264"; "libx264"]))%bool
      then fail ("Expected video codec h264, got " ++ output_codec)
      else if (String.eqb expected_codec "h265"
               && negb (existsb (String.eqb output_codec) ["h265"; "hevc"; "libx265"]))%bool
      then fail ("Expected video codec h265/hevc, got " ++ output_codec)
      else vret tt
    else vret tt
  else vret tt.

Definition check_audio_codec (output_metadata target_format : value) : VM unit :=
  has_audio <~ lift (has_stream "audio" output_metadata) ;;
  enabled <~ lift (if has_audio then has_section target_format "audio" else Ok false) ;;
  if enabled then
    audio_stream <~ lift (find_stream "audio" output_metadata) ;;
    if truthy audio_stream then
      output_codec <~ lift (codec_name_lower audio_stream) ;;
      expected_codec <~ lift (parameters <- getitem target_format "parameters" ;;
                              audio <- getitem parameters "audio" ;;
                              c <- get audio "codec" (VStr "") ;;
                              lower c) ;;
      if (negb (String.eqb expected_codec "")
          && negb (String.eqb output_codec expected_codec))%bool
      then
        if negb (String.eqb expected_codec "aac"
                 && existsb (String.eqb output_codec) ["aac"; "aac_lc"])%bool
        then fail ("Expected audio codec " ++ expected_codec ++ ", got " ++ output_codec)
        else vret tt
      else vret tt
    else vret tt
  else vret tt.

Definition check_resolution (has_video : bool) (source_metadata output_metadata : value)
  : VM unit :=
  if has_video then
    source_video <~ lift (find_stream "video" source_metadata) ;;
    output_video <~ lift (find_stream "video" output_metadata) ;;
    if (truthy source_video && truthy output_video)%bool then
      source_width <~ lift (w <- get source_video "width" (VInt 0) ;; int w) ;;
      source_height <~ lift (h <- get source_video "height" (VInt 0) ;; int h) ;;
      output_width <~ lift (w <- get output_video "width" (VInt 0) ;; int w) ;;
      output_height <~ lift (h <- get output_video "height" (VInt 0) ;; int h) ;;
      if ((0 <? source_width) && (0 <? source_height))%bool then
        let source_pixels := source_width * source_height in
        let output_pixels := output_width * output_height in
        let resolution_reduction :=
          (100 - (inject_Z output_pixels / inject_Z source_pixels * 100))%Q in
        if Qgt_bool resolution_reduction 10 then
          note ("Resolution reduced by " ++ format_f 1 resolution_reduction ++ "% ("
                ++ str_of_Z source_width ++ "x" ++ str_of_Z source_height ++ " -> "
                ++ str_of_Z output_width ++ "x" ++ str_of_Z output_height ++ ")")
        else vret tt
      else vret tt
    else vret tt
  else vret tt.

Definition check_size (source_metadata output_metadata : value) : VM unit :=
  source_size <~ lift (x <- format_field source_metadata "size" (VInt 0) ;; int x) ;;
  output_size <~ lift (x <- format_field output_metadata "size" (VInt 0) ;; int x) ;;
  if output_size <=? 0 then fail "Output file has zero size"
  else if ((0 <? source_size)
           && Qlt_bool (inject_Z output_size) (inject_Z source_size * (1 # 100)))%bool
  then note ("Output file is suspiciously small (" ++ str_of_Z output_size ++ " bytes, "
             ++ format_pct 1 (inject_Z output_size / inject_Z source_size) ++ " of source)")
  else vret tt.

Definition check_duration (source_metadata output_metadata : value) : VM unit :=
  source_duration <~ lift (x <- format_field source_metadata "duration" (VInt 0) ;; float x) ;;
  output_duration <~ lift (x <- format_field output_metadata "duration" (VInt 0) ;; float x) ;;
  if (Qgt_bool source_duration 0
      && Qgt_bool (Qabs (output_duration - source_duration)) 1)%bool
  then
    let duration_change_pct :=
      (Qabs (output_duration - source_duration) / source_duration * 100)%Q in
    if Qgt_bool duration_change_pct 1 then
      note ("Duration changed by " ++ format_f 1 duration_change_pct ++ "% ("
            ++ format_f 2 source_duration ++ "s -> " ++ format_f 2 output_duration ++ "s)")
    else vret tt
  else vret tt.

(** The body of the [try] block, in source order. *)
Definition validate_checks (source_metadata output_metadata target_format : value)
  : VM unit :=
  check_format output_metadata target_format ;;;
  has_video <~ lift (has_stream "video" output_metadata) ;;
  check_video_codec has_video output_metadata target_format ;;;
  check_audio_codec output_metadata target_format ;;;
  check_resolution has_video source_metadata output_metadata ;;;
  check_size source_metadata output_metadata ;;;
  check_duration source_metadata output_metadata.

(** [except Exception as e]: the verdict is failed and the error recorded. *)
Definition handle_validation_error (v : validation) (e : exn) : validation :=
  {| passed := false;
     issues := issues v ++ [("Validation error: " ++ exn_str e)%string] |}.

Definition _validate_output (source_metadata output_metadata target_format : value)
  : validation :=
  match validate_checks source_metadata output_metadata target_format
          {| passed := true; issues := [] |} with
  | (v, Ok _) => v
  | (v, Raise e) => handle_validation_error v e
  end.

(** ** Result assembly *)

Definition newline : ascii := ascii_of_nat 10.

Fixpoint join (sep : string) (l : list string) : string :=
  match l with
  | [] => ""
  | [x] => x
  | x :: rest => x ++ sep ++ join sep rest
  end.

(** [_parse_ffmpeg_output] *)
Definition _parse_ffmpeg_output (stderr_output : string) : list string :=
  let lines := split_char newline stderr_output in
  let mapping_lines :=
    filter (fun line => is_substring "Stream mapping:" line || is_substring "->" line)%bool
           lines in
  mapping_lines ++
  map strip
      (filter (fun line => is_prefix "Output" line || is_substring "encoder" line
                           || is_substring "bitrate" line)%bool
              lines).

Definition codec_entry (acc : result (list string)) (stream : value)
  : result (list string) :=
  codecs <- acc ;;
  codec_type <- get stream "codec_type" VNone ;;
  codec_name <- get stream "codec_name" VNone ;;
  if (truthy codec_type && truthy codec_name)%bool
  then Ok (codecs ++ [(str codec_type ++ ":" ++ str codec_name)%string])
  else Ok codecs.

(** [_get_codec_info] *)
Definition _get_codec_info (metadata : value) : result string :=
  streams <- get metadata "streams" (VList []) ;;
  l <- iter streams ;;
  codecs <- fold_left codec_entry l (Ok []) ;;
  Ok (match codecs with [] => "unknown" | _ => join ", " codecs end).

Fixpoint first_video_resolution (streams : list value) : result (option (Z * Z)) :=
  match streams with
  | [] => Ok None
  | stream :: rest =>
      t <- get stream "codec_type" VNone ;;
      if eq_str t "video" then
        w <- get stream "width" (VInt 0) ;;
        width <- int w ;;
        h <- get stream "height" (VInt 0) ;;
        height <- int h ;;
        Ok (Some (width, height))
      else first_video_resolution rest
  end.

(** [_get_resolution]: [None] stands for the empty dict. *)
Definition _get_resolution (metadata : value) : result (option (Z * Z)) :=
  streams <- get metadata "streams" (VList []) ;;
  l <- iter streams ;;
  first_video_resolution l.

Definition pixels (stream : value) : result Z :=
  w <- get stream "width" (VInt 0) ;;
  width <- int w ;;
  h <- get stream "height" (VInt 0) ;;
  height <- int h ;;
  Ok (width * height).

Definition stream_bit_rate (stream : value) : result Q :=
  b <- get stream "bit_rate" (VInt 0) ;;
  float b.

Definition Qmin (a b : Q) : Q := if Qle_bool a b then a else b.

Definition video_metrics (source_video output_video : value)
  : result (list (string * Q)) :=
  if (truthy source_video && truthy output_video)%bool then
    source_pixels <- pixels source_video ;;
    output_pixels <- pixels output_video ;;
    let m1 :=
      if 0 <? source_pixels
      then [("resolution_preservation",
             (Qmin 1 (inject_Z output_pixels / inject_Z source_pixels) * 100)%Q)]
      else [] in
    source_bitrate <- stream_bit_rate source_video ;;
    output_bitrate <- stream_bit_rate output_video ;;
    let m2 :=
      if (Qgt_bool source_bitrate 0 && Qgt_bool output_bitrate 0)%bool
      then [("bitrate_ratio", (output_bitrate / source_bitrate)%Q)]
      else [] in
    let m3 :=
      match m1, m2 with
      | [(_, rp)], [(_, br)] =>
          [("estimated_visual_quality",
            Qmin 100 ((6 # 10) * rp + (4 # 10) * Qmin 100 (br * 100))%Q)]
      | _, _ => []
      end in
    Ok (m1 ++ m2 ++ m3)
  else Ok [].

Definition audio_metrics (source_audio output_audio : value)
  : result (list (string * Q)) :=
  if (truthy source_audio && truthy output_audio)%bool then
    source_bitrate <- stream_bit_rate source_audio ;;
    output_bitrate <- stream_bit_rate output_audio ;;
    if (Qgt_bool source_bitrate 0 && Qgt_bool output_bitrate 0)%bool then
      let bitrate_ratio := (output_bitrate / source_bitrate)%Q in
      Ok [("audio_bitrate_ratio", bitrate_ratio);
          ("estimated_audio_quality", Qmin 100 (bitrate_ratio * 100)%Q)]
    else Ok []
  else Ok [].

(** [_calculate_quality_metrics] *)
Definition _calculate_quality_metrics (source_metadata output_metadata : value)
  : result (list (string * Q)) :=
  source_video <- find_stream "video" source_metadata ;;
  output_video <- find_stream "video" output_metadata ;;
  vm <- video_metrics source_video output_video ;;
  source_audio <- find_stream "audio" source_metadata ;;
  output_audio <- find_stream "audio" output_metadata ;;
  am <- audio_metrics source_audio output_audio ;;
  Ok (vm ++ am).

(** [_calculate_compression_ratio] *)
Definition _calculate_compression_ratio (w : env) : Q :=
  if negb (source_exists w && output_exists w) then 0
  else if output_getsize w <=? 0 then 0
  else (inject_Z (source_getsize w) / inject_Z (output_getsize w))%Q.

(** ** The pipeline: [_convert_media] and [normalize] *)

(** [_convert_media]: builds the command, runs the encoder, and turns a
    non-zero exit into an error carrying the encoder's diagnostics. *)
Definition _convert_media (w : env) (source_path output_path : string)
  (format_params source_metadata : value) : result (list string) :=
  ffmpeg_cmd <- build_ffmpeg_cmd source_path output_path format_params source_metadata ;;
  if encoder_returncode w ffmpeg_cmd =? 0
  then Ok (_parse_ffmpeg_output (encoder_stderr w ffmpeg_cmd))
  else Raise (RuntimeError
                ("Media conversion failed: FFmpeg failed with return code "
                 ++ str_of_Z (encoder_returncode w ffmpeg_cmd) ++ ": "
                 ++ encoder_stderr w ffmpeg_cmd)).

(** Steps 1 to 3 of [normalize]: probe, resolve, recommend. *)
Definition resolve (w : env) (target_format : value) (preset : string) (enable_ai : bool)
  : result (value * value * option value) :=
  source_metadata <- probe_source w ;;
  format_params <- _prepare_format_parameters target_format preset ;;
  if enable_ai then
    analysis <- recommend w source_metadata format_params ;;
    format_params' <- _apply_ai_recommendations format_params analysis ;;
    Ok (source_metadata, format_params', Some analysis)
  else Ok (source_metadata, format_params, None).

(** The record built at the end of [normalize]; the summary fields are
    computed from the output descriptor and can raise on a malformed one. *)
Definition assemble (w : env) (output_path : string)
  (source_metadata output_metadata : value) (conversion : list string)
  (validation : option validation) (analysis : option value)
  : result job_result :=
  fmt <- format_field output_metadata "format_name" (VStr "") ;;
  codec_info <- _get_codec_info output_metadata ;;
  dur <- format_field output_metadata "duration" (VInt 0) ;;
  res <- _get_resolution output_metadata ;;
  metrics <- _calculate_quality_metrics source_metadata output_metadata ;;
  Ok {| uri := output_path;
        format := fmt;
        codec := codec_info;
        duration := dur;
        fileSize := output_getsize w;
        resolution := res;
        original := source_metadata;
        technical := output_metadata;
        transformations := conversion;
        processingTime := processing_time w;
        qualityMetrics := metrics;
        compressionRatio := _calculate_compression_ratio w;
        validation_results := validation;
        ai_analysis :=
          match analysis with
          | Some a => if truthy a then Some a else None
          | None => None
          end |}.

(** [normalize] *)
Definition normalize (w : env) (source_path output_path : string)
  (target_format : value) (preset : string) (enable_ai validate_output : bool)
  : result job_result :=
  r <- resolve w target_format preset enable_ai ;;
  let source_metadata := fst (fst r) in
  let format_params := snd (fst r) in
  let analysis := snd r in
  conversion <- _convert_media w source_path output_path format_params source_metadata ;;
  output_metadata <-
    (if output_exists w then probe_output w
     else Raise (RuntimeError
                   ("Conversion failed: Output file not found at " ++ output_path))) ;;
  let validation :=
    if validate_output
    then Some (_validate_output source_metadata output_metadata format_params)
    else None in
  assemble w output_path source_metadata output_metadata conversion validation analysis.

End Pipeline.

End FN.

(* ================================================================== *)
(** * src/normalizer.py                                                *)
(* ================================================================== *)

Module SN.

(** The table [self.presets] of a fresh instance. *)
Definition presets : dict :=
  [ ("web", VDict [ ("video", VDict [("codec", VStr "h264"); ("crf", VInt 23); ("preset", VStr "medium")]);
                    ("audio", VDict [("codec", VStr "aac"); ("bitrate", VStr "128k")]) ]);
    ("social", VDict [ ("video", VDict [("codec", VStr "h264"); ("crf", VInt 20); ("preset", VStr "faster")]);
                       ("audio", VDict [("codec", VStr "aac"); ("bitrate", VStr "192k")]) ]);
    ("broadcast", VDict [ ("video", VDict [("codec", VStr "prores"); ("profile", VStr "standard")]);
                          ("audio", VDict [("codec", VStr "pcm_s24le")]) ]);
    ("hq", VDict [ ("video", VDict [("codec", VStr "h264"); ("crf", VInt 18); ("preset", VStr "slow")]);
                   ("audio", VDict [("codec", VStr "aac"); ("bitrate", VStr "256k")]) ]);
    ("archive", VDict [ ("video", VDict [("codec", VStr "ffv1"); ("level", VInt 3)]);
                        ("audio", VDict [("codec", VStr "flac")]) ]) ].

Definition profile_map : list (string * string) :=
  [ ("proxy", "0"); ("lt", "1"); ("standard", "2");
    ("hq", "3"); ("4444", "4"); ("4444xq", "5") ].

(** [profile_map.get(profile, "2")]: a list or dict is not hashable. *)
Definition profile_index (profile : value) : result string :=
  match profile with
  | VStr s => Ok (match FN.assoc s profile_map with Some i => i | None => "2" end)
  | VList _ | VDict _ =>
      Raise (TypeError ("unhashable type: '" ++ type_name profile ++ "'"))
  | _ => Ok "2"
  end.

Section Builder.

Variable repr : value -> string.

(** The arguments of the video section. *)
Definition video_args (video_params : value) : result (list value) :=
  if truthy video_params then
    video_codec <- get video_params "codec" VNone ;;
    let c := if truthy video_codec then [VStr "-c:v"; video_codec] else [] in
    if (eq_str video_codec "h264" || eq_str video_codec "h265")%bool then
      crf <- get video_params "crf" (VInt 23) ;;
      preset <- get video_params "preset" (VStr "medium") ;;
      Ok (c ++ [VStr "-crf"; VStr (FN.str repr crf); VStr "-preset"; preset])
    else if eq_str video_codec "prores" then
      profile <- get video_params "profile" (VStr "standard") ;;
      i <- profile_index profile ;;
      Ok (c ++ [VStr "-profile:v"; VStr i])
    else if eq_str video_codec "vp9" then
      crf <- get video_params "crf" (VInt 30) ;;
      Ok (c ++ [VStr "-crf"; VStr (FN.str repr crf); VStr "-b:v"; VStr "0"])
    else if eq_str video_codec "av1" then
      crf <- get video_params "crf" (VInt 30) ;;
      Ok (c ++ [VStr "-crf"; VStr (FN.str repr crf); VStr "-b:v"; VStr "0"])
    else Ok c
  else Ok [].

(** The arguments of the audio section. *)
Definition audio_args (audio_params : value) : result (list value) :=
  if truthy audio_params then
    audio_codec <- get audio_params "codec" VNone ;;
    let c := if truthy audio_codec then [VStr "-c:a"; audio_codec] else [] in
    if in_strs audio_codec ["aac"; "mp3"; "opus"] then
      bitrate <- get audio_params "bitrate" (VStr "128k") ;;
      Ok (c ++ [VStr "-b:a"; bitrate])
    else Ok c
  else Ok [].

(** [_build_ffmpeg_command]; [config] is [self.config]. *)
Definition _build_ffmpeg_command (config : value) (input_path output_path : string)
  (encoding_params : value) (preserve_metadata : bool) : result (list value) :=
  let cmd0 := [VStr "ffmpeg"; VStr "-y"; VStr "-i"; VStr input_path] in
  hw <- get config "use_hardware_acceleration" (VBool false) ;;
  let cmd1 := if truthy hw then cmd0 ++ [VStr "-hwaccel"; VStr "auto"] else cmd0 in
  video_params <- get encoding_params "video" (VDict []) ;;
  va <- video_args video_params ;;
  audio_params <- get encoding_params "audio" (VDict []) ;;
  aa <- audio_args audio_params ;;
  let cmd3 := cmd1 ++ va ++ aa in
  let cmd4 := if preserve_metadata then cmd3 ++ [VStr "-map_metadata"; VStr "0"] else cmd3 in
  Ok (cmd4 ++ [VStr output_path]).

End Builder.

(** ** [_validate_output] *)

(** Python's [==] on JSON values: numbers compare by value, containers
    element-wise (dicts regardless of order). *)
Definition number (v : value) : option Q :=
  match v with
  | VBool b => Some (if b then 1 else 0)%Q
  | VInt n => Some (inject_Z n)
  | VFloat q => Some q
  | _ => None
  end.

Fixpoint eqb (a b : value) {struct a} : bool :=
  match a, b with
  | VNone, VNone => true
  | VStr s, VStr t => String.eqb s t
  | VList l, VList m =>
      (fix all2 (l : list value) (m : list value) {struct l} : bool :=
         match l, m with
         | [], [] => true
         | x :: l', y :: m' => eqb x y && all2 l' m'
         | _, _ => false
         end) l m
  | VDict d, VDict e =>
      Nat.eqb (List.length d) (List.length e) &&
      (fix all1 (d : list (string * value)) {struct d} : bool :=
         match d with
         | [] => true
         | (k, x) :: d' =>
             match dict_get k e with
             | Some y => eqb x y
             | None => false
             end && all1 d'
         end) d
  | _, _ =>
      match number a, number b with
      | Some p, Some q => Qeq_bool p q
      | _, _ => false
      end
  end.

(** [v <= 0] *)
Definition le_zero (v : value) : result bool :=
  match number v with
  | Some q => Ok (Qle_bool q 0)
  | None =>
      Raise (TypeError ("'<=' not supported between instances of '"
                        ++ type_name v ++ "' and 'int'"))
  end.

(** The loop that finds the codec of the first stream of a kind. *)
Fixpoint actual_codec (kind : string) (streams : list value) : result value :=
  match streams with
  | [] => Ok VNone
  | stream :: rest =>
      t <- get stream "type" VNone ;;
      if eq_str t kind then get stream "codec" VNone else actual_codec kind rest
  end.

Section Validator.

Variable repr : value -> string.

Definition codec_issue (label kind : string) (output_info encoding_params : value)
  : result (list string) :=
  section <- get encoding_params kind (VDict []) ;;
  expected <- get section "codec" VNone ;;
  streams <- get output_info "streams" (VList []) ;;
  l <- iter streams ;;
  actual <- actual_codec kind l ;;
  if (truthy expected && truthy actual && negb (eqb expected actual))%bool
  then Ok [(label ++ " codec mismatch: expected " ++ FN.str repr expected
            ++ ", got " ++ FN.str repr actual)%string]
  else Ok [].

(** [_validate_output]; [exists] and [size] are what [os.path.exists] and
    [os.path.getsize] answer for the output path. *)
Definition _validate_output (exists_ : bool) (size : Z)
  (output_info encoding_params : value) : result FN.validation :=
  if negb exists_ then
    Ok {| FN.passed := false; FN.issues := ["Output file does not exist"] |}
  else if size =? 0 then
    Ok {| FN.passed := false; FN.issues := ["Output file is empty"] |}
  else
    d <- get output_info "duration" (VInt 0) ;;
    bad <- le_zero d ;;
    let issues1 := if bad then ["Output file has invalid duration"] else [] in
    vi <- codec_issue "Video" "video" output_info encoding_params ;;
    ai <- codec_issue "Audio" "audio" output_info encoding_params ;;
    let issues := issues1 ++ vi ++ ai in
    Ok {| FN.passed := match issues with [] => true | _ => false end;
          FN.issues := issues |}.

End Validator.

(** ** The frame rate in [_get_media_info] *)

Section MediaInfo.

(** Python's [eval] on a string: parses the text as an expression and runs
    it. *)
Variable eval : string -> result value.

(** [eval(stream.get("r_frame_rate", "0/1"))], the [fps] entry of a video
    stream. *)
Definition fps (stream : value) : result value :=
  r <- get stream "r_frame_rate" (VStr "0/1") ;;
  match r with
  | VStr text => eval text
  | _ => Raise (TypeError "eval() arg 1 must be a string, bytes or code object")
  end.

End MediaInfo.

(** ** The end of [normalize]: from the encoder's exit to the returned
    record (steps 6 to 10 and the [except] handler).

    The record's [result], [metadata] and [performance] entries are pure
    functions of the two descriptors ([_get_primary_codec],
    [_get_resolution], [_get_transformations], the size ratio);
    [_get_transformations] lists codec changes in the iteration order of a
    Python [set], which is not fixed, so these entries are taken from the
    environment as one [summary].  [_get_media_info] wraps the prober and
    Python's [eval] of the frame-rate string; what it answers for the output
    path is taken from the environment as well. *)

Record env : Type := {
  output_info : result value;
  output_exists : bool;
  output_getsize : Z;
  summary : value -> value -> result value
}.


Section Finish.

Variable repr : value -> string.



End Finish.

(** ** Step 3 of [normalize]: the encoding parameters

    [encoding_params = self.presets[preset]] binds the table's own entry,
    not a copy: what the statements after it store in [encoding_params] is
    stored in [self.presets] and is still there at the next call.  The table
    is therefore threaded through as state.  (When a step raises,
    [normalize] reports a failed job; the table such a call leaves behind is
    not described.) *)

(** [preset and preset in self.presets]: the name of the selected entry. *)
Definition preset_selected (table : dict) (preset : value) : result (option string) :=
  if truthy preset then
    match preset with
    | VStr s => Ok (if dict_mem s table then Some s else None)
    | VList _ | VDict _ =>
        Raise (TypeError ("unhashable type: '" ++ type_name preset ++ "'"))
    | _ => Ok None
    end
  else Ok None.

(** One turn of [for stream_type in encoding_params]. *)
Definition override_codec (codec : value) (acc : result value) (stream_type : string)
  : result value :=
  encoding_params <- acc ;;
  section <- getitem encoding_params stream_type ;;
  has <- contains "codec" section ;;
  if has then
    section' <- setitem section "codec" codec ;;
    setitem encoding_params stream_type section'
  else Ok encoding_params.

(** [if ai_recommendations and "recommended_codec" in ai_recommendations] *)
Definition apply_recommendation (ai_recommendations encoding_params : value)
  : result value :=
  recommended <- (if truthy ai_recommendations
                  then contains "recommended_codec" ai_recommendations
                  else Ok false) ;;
  if recommended then
    has_video <- contains "video" encoding_params ;;
    if has_video then
      c <- getitem ai_recommendations "recommended_codec" ;;
      video <- getitem encoding_params "video" ;;
      video1 <- setitem video "codec" c ;;
      has_crf <- contains "quality_optimized_crf" ai_recommendations ;;
      video2 <- (if has_crf then
                   crf <- getitem ai_recommendations "quality_optimized_crf" ;;
                   setitem video1 "crf" crf
                 else Ok video1) ;;
      setitem encoding_params "video" video2
    else Ok encoding_params
  else Ok encoding_params.

(** The statements between the choice of [encoding_params] and step 4.  The
    entries of [self.presets] are mappings from stream type to section (the
    constructor builds them so and nothing stores another kind of value);
    the loop over the keys of anything else is refused here. *)
Definition adjust (codec ai_recommendations encoding_params : value) : result value :=
  overridden <-
    (if truthy codec then
       entries <- items encoding_params ;;
       fold_left (override_codec codec) (dict_keys entries) (Ok encoding_params)
     else Ok encoding_params) ;;
  apply_recommendation ai_recommendations overridden.

(** The table after the call, and the parameters handed to the builder. *)
Definition encoding_parameters (table : dict) (preset codec ai_recommendations : value)
  : result (dict * value) :=
  selected <- preset_selected table preset ;;
  match selected with
  | Some name =>
      entry <- getitem (VDict table) name ;;
      encoding_params <- adjust codec ai_recommendations entry ;;
      Ok (dict_set name encoding_params table, encoding_params)
  | None =>
      encoding_params <- adjust codec ai_recommendations (VDict []) ;;
      Ok (table, encoding_params)
  end.

(** [_analyze_media_with_gemini]; [media_info] is what [_get_media_info]
    answers for the source. *)
Definition _analyze_media_with_gemini (gemini_api_key media_info : value)
  : result value :=
  if negb (truthy gemini_api_key) then Ok (VDict [])
  else
    c <- get media_info "video_codec" (VStr "h264") ;;
    motion <- get media_info "has_motion" (VBool true) ;;
    Ok (VDict [ ("recommended_codec", c);
                ("quality_optimized_crf", VInt (if truthy motion then 22 else 24));
                ("encoding_speed", VStr "medium");
                ("notes", VStr "AI optimization would provide specific recommendations based on content analysis") ]).

(** Steps 2 and 3 together; [enable_ai] is [options.get("enableAI", False)]. *)
Definition plan (table : dict) (gemini_api_key media_info : value)
  (preset codec enable_ai : value) : result (dict * value) :=
  ai_recommendations <-
    (if truthy enable_ai then _analyze_media_with_gemini gemini_api_key media_info
     else Ok (VDict [])) ;;
  encoding_parameters table preset codec ai_recommendations.

End SN.

(* ================================================================== *)
(** * formatnormalizer/normalizer.py                                   *)
(* ================================================================== *)

Module FNN.

(** [parts = v.split("/")] followed by the guarded division:
    [Some q] is the [return], [None] falls through to the next statement. *)
Definition rate_of (v : value) : result (option Q) :=
  parts <- split v "/" ;;
  match parts with
  | [n; d] =>
      den <- int (VStr d) ;;
      if 0 <? den then
        num <- int (VStr n) ;;
        den' <- int (VStr d) ;;
        Ok (Some (inject_Z num / inject_Z den')%Q)
      else Ok None
  | _ => Ok None
  end.

Definition rate_field (stream : value) (field : string) : result (option Q) :=
  has <- contains field stream ;;
  if has then
    v <- getitem stream field ;;
    rate_of v
  else Ok None.

(** [_calculate_frame_rate] *)
Definition _calculate_frame_rate (stream : value) : result Q :=
  r <- rate_field stream "r_frame_rate" ;;
  match r with
  | Some q => Ok q
  | None =>
      a <- rate_field stream "avg_frame_rate" ;;
      match a with
      | Some q => Ok q
      | None => Ok 0%Q
      end
  end.

(** ** The settings and the command of [normalize] *)

Definition default_settings : dict :=
  [ ("video_codec", VStr "libx264"); ("audio_codec", VStr "aac");
    ("video_bitrate", VStr "2M"); ("audio_bitrate", VStr "128k");
    ("preset", VStr "medium"); ("crf", VInt 23) ].

Section Settings.

(** The table [PRESETS] is imported from the module [.presets], which is not
    among the sources at hand: it is a parameter here. *)
Variable PRESETS : dict.

(** [_get_preset_settings]; [preset_name and preset_name in PRESETS] is the
    test [src/normalizer.py] makes on its own table. *)
Definition _get_preset_settings (preset_name output_format quality : value)
  : result value :=
  selected <- SN.preset_selected PRESETS preset_name ;;
  settings1 <-
    match selected with
    | Some name =>
        entry <- getitem (VDict PRESETS) name ;;
        update (VDict default_settings) entry
    | None => Ok (VDict default_settings)
    end ;;
  settings2 <-
    (if eq_str output_format "mp4" then
       update settings1 (VDict [("video_codec", VStr "libx264"); ("audio_codec", VStr "aac")])
     else if eq_str output_format "webm" then
       update settings1 (VDict [("video_codec", VStr "libvpx-vp9"); ("audio_codec", VStr "libopus")])
     else if eq_str output_format "wav" then
       update settings1 (VDict [("audio_codec", VStr "pcm_s16le")])
     else if eq_str output_format "mp3" then
       update settings1 (VDict [("audio_codec", VStr "libmp3lame")])
     else Ok settings1) ;;
  if eq_str quality "low" then
    update settings2 (VDict [("crf", VInt 28); ("audio_bitrate", VStr "96k");
                             ("preset", VStr "faster")])
  else if eq_str quality "high" then
    update settings2 (VDict [("crf", VInt 18); ("audio_bitrate", VStr "192k");
                             ("preset", VStr "slow")])
  else Ok settings2.

End Settings.

Section Command.

Variable repr : value -> string.

(** [_build_ffmpeg_command] *)
Definition _build_ffmpeg_command (input_path output_path : string)
  (settings : value) (preserve_metadata : bool) : result (list value) :=
  let cmd0 := [VStr "ffmpeg"; VStr "-i"; VStr input_path] in
  has_video <- contains "video_codec" settings ;;
  cmd1 <-
    (if has_video then
       video_codec <- getitem settings "video_codec" ;;
       let cmd := cmd0 ++ [VStr "-c:v"; video_codec] in
       if eq_str video_codec "libx264" then
         preset <- get settings "preset" (VStr "medium") ;;
         crf <- get settings "crf" (VInt 23) ;;
         Ok (cmd ++ [VStr "-preset"; preset] ++ [VStr "-crf"; VStr (FN.str repr crf)])
       else if eq_str video_codec "libvpx-vp9" then
         video_bitrate <- get settings "video_bitrate" (VStr "2M") ;;
         Ok (cmd ++ [VStr "-b:v"; video_bitrate] ++ [VStr "-deadline"; VStr "good"])
       else Ok cmd
     else Ok cmd0) ;;
  has_audio <- contains "audio_codec" settings ;;
  cmd2 <-
    (if has_audio then
       audio_codec <- getitem settings "audio_codec" ;;
       let cmd := cmd1 ++ [VStr "-c:a"; audio_codec] in
       if in_strs audio_codec ["aac"; "libmp3lame"; "libopus"] then
         audio_bitrate <- get settings "audio_bitrate" (VStr "128k") ;;
         Ok (cmd ++ [VStr "-b:a"; audio_bitrate])
       else Ok cmd
     else Ok cmd1) ;;
  let cmd3 :=
    if preserve_metadata then cmd2 ++ [VStr "-map_metadata"; VStr "0"] else cmd2 in
  has_scale <- contains "scale" settings ;;
  cmd4 <-
    (if has_scale then
       scale <- getitem settings "scale" ;;
       Ok (cmd3 ++ [VStr "-vf"; VStr ("scale=" ++ FN.str repr scale)])
     else Ok cmd3) ;;
  Ok (cmd4 ++ [VStr output_path]).

End Command.

End FNN.

(* ================================================================== *)
(** * format_normalizer/ai_analyzer.py                                 *)
(* ================================================================== *)

Module AI.

(** The dictionary [recommendations] of [_get_fallback_recommendations],
    by its entries. *)
Definition recommendations (codec_parameters : dict) (strategy : string)
  (strategy_value : value) (ffmpeg_options : list value) : value :=
  VDict [ ("codec_parameters", VDict codec_parameters);
          ("bitrate_strategy", VDict [("type", VStr strategy); ("value", strategy_value)]);
          ("ffmpeg_options", VList ffmpeg_options);
          ("optimizations", VDict []) ].

Definition default_recommendations : value :=
  recommendations [] "VBR" (VStr "medium") [].

(** [_get_fallback_recommendations]: what the recommender answers when the
    model's reply cannot be parsed. *)
Definition _get_fallback_recommendations (target_format : value) : result value :=
  f <- get target_format "format" (VStr "") ;;
  format_type <- lower f ;;
  c <- get target_format "codec" (VStr "") ;;
  codec <- lower c ;;
  Ok (if existsb (String.eqb format_type) ["mp4"; "mov"; "mkv"] then
        if String.eqb codec "h264" then
          recommendations [("preset", VStr "medium"); ("profile", VStr "high")]
                          "CRF" (VInt 23) [VStr "-movflags"; VStr "+faststart"]
        else if (String.eqb codec "h265" || String.eqb codec "hevc")%bool then
          recommendations [("preset", VStr "medium"); ("profile", VStr "main")]
                          "CRF" (VInt 28) []
        else if String.eqb codec "prores" then
          recommendations [("profile", VStr "standard")] "CBR" (VStr "45000k") []
        else if String.eqb codec "av1" then
          recommendations [("preset", VStr "medium"); ("tile-columns", VInt 2);
                           ("row-mt", VInt 1)]
                          "CRF" (VInt 30) []
        else default_recommendations
      else if existsb (String.eqb format_type) ["wav"; "mp3"; "aac"; "flac"] then
        if String.eqb codec "aac" then
          recommendations [("profile", VStr "aac_low")] "CBR" (VStr "192k") []
        else if String.eqb codec "mp3" then
          recommendations [] "CBR" (VStr "320k") []
        else if String.eqb codec "flac" then
          recommendations [("compression_level", VInt 8)] "VBR" (VStr "medium") []
        else default_recommendations
      else default_recommendations).

End AI.

(* ================================================================== *)
(** * Vocabulary of the properties                                     *)
(* ================================================================== *)

(** Observers and predicates the statements below are written with. *)

Module Statements.

Import FN.

Definition audio_flags : list string := ["-c:a"; "-b:a"; "-ar"; "-ac"].

(** The container flag of a format string. *)
Definition format_flag (fmt : string) : list string :=
  if String.eqb fmt "" then [] else ["-f"; fmt].

Definition zero_size_issue : string := "Output file has zero size".

Definition fresh : validation := {| passed := true; issues := [] |}.

(** A computation that, when it returns, leaves the verdict failed with the
    zero-size issue on record. *)
Definition records_zero_size (m : VM unit) : Prop :=
  forall v, match m v with
            | (v', Ok _) => passed v' = false /\ In zero_size_issue (issues v')
            | (_, Raise _) => True
            end.

(** A computation that never resets the verdict and only appends issues. *)
Definition only_appends {A} (m : VM A) : Prop :=
  forall v, exists extra,
    issues (fst (m v)) = issues v ++ extra /\
    (passed v = false -> passed (fst (m v)) = false).


Definition is_digit (c : ascii) : bool :=
  (Nat.leb 48 (nat_of_ascii c) && Nat.leb (nat_of_ascii c) 57)%bool.

Fixpoint all_chars (P : ascii -> bool) (s : string) : bool :=
  match s with
  | EmptyString => true
  | String c rest => (P c && all_chars P rest)%bool
  end.

Fixpoint thousandfold (d : Decimal.uint) : Decimal.uint :=
  match d with
  | Decimal.Nil => Decimal.D0 (Decimal.D0 (Decimal.D0 Decimal.Nil))
  | Decimal.D0 l => Decimal.D0 (thousandfold l)
  | Decimal.D1 l => Decimal.D1 (thousandfold l)
  | Decimal.D2 l => Decimal.D2 (thousandfold l)
  | Decimal.D3 l => Decimal.D3 (thousandfold l)
  | Decimal.D4 l => Decimal.D4 (thousandfold l)
  | Decimal.D5 l => Decimal.D5 (thousandfold l)
  | Decimal.D6 l => Decimal.D6 (thousandfold l)
  | Decimal.D7 l => Decimal.D7 (thousandfold l)
  | Decimal.D8 l => Decimal.D8 (thousandfold l)
  | Decimal.D9 l => Decimal.D9 (thousandfold l)
  end.

Section WithRepr.

Variable repr : value -> string.

(** The strings [ffmpeg_options] contributes. *)
Definition extra_flags (fp : value) : result (list string) :=
  present <- has_section fp "ffmpeg_options" ;;
  if present then
    parameters <- getitem fp "parameters" ;;
    opts <- getitem parameters "ffmpeg_options" ;;
    l <- iter opts ;;
    Ok (map (str repr) l)
  else Ok [].

End WithRepr.

(** *** Vocabulary of the further properties *)

(** The preset names [_prepare_format_parameters] tells apart. *)
Definition named_presets : list string :=
  ["web"; "social"; "broadcast"; "archive"; "mobile"].

(** An entry of a resolved specification, when the resolution succeeds. *)
Definition spec_field (r : result value) (k : string) : result value :=
  fp <- r ;; getitem fp k.

(** [format_params["parameters"][name]] *)
Definition section (format_params : value) (name : string) : result value :=
  parameters <- getitem format_params "parameters" ;;
  getitem parameters name.

(** A specification with a video section that is a mapping and extra
    options that, when present, are a list. *)
Definition well_formed_spec (fp : value) : Prop :=
  exists f p vd,
    fp = VDict f /\ dict_get "parameters" f = Some (VDict p) /\
    dict_get "video" p = Some (VDict vd) /\
    (forall o, dict_get "ffmpeg_options" p = Some o -> is_list o = true).

(** The extra options of a specification, as values. *)
Definition ffmpeg_options_of (fp : value) : result (list value) :=
  present <- has_section fp "ffmpeg_options" ;;
  if present then
    opts <- section fp "ffmpeg_options" ;;
    iter opts
  else Ok [].

(** An analysis whose recommendations are [recs]. *)
Definition analysis_with (recs : value) (others : dict) : value :=
  VDict (("encoding_recommendations", recs) :: others).

(** Everything but the video section and the extra options is the same in
    both specifications. *)
Definition untouched (fp fp' : value) : Prop :=
  (forall k, k <> "parameters" -> getitem fp' k = getitem fp k) /\
  (forall name, name <> "video" -> name <> "ffmpeg_options" ->
                section fp' name = section fp name).

(** An entry of a section whose value is not [None]. *)
Definition has_value (kv : string * value) : bool := negb (is_none (snd kv)).

(** The issues that fail a validation: a container or codec mismatch, an
    empty output, an exception inside the validator. *)
Definition fatal_issue (s : string) : bool :=
  (is_prefix "Expected format " s || is_prefix "Expected video codec " s
   || is_prefix "Expected audio codec " s || String.eqb s zero_size_issue
   || is_prefix "Validation error: " s)%bool.

(** A failed verdict has a fatal issue on record. *)
Definition justified (v : validation) : Prop :=
  passed v = false -> existsb fatal_issue (issues v) = true.

(** A computation that leaves a failed verdict explained. *)
Definition keeps_justified {A} (m : VM A) : Prop :=
  forall v, justified v -> justified (fst (m v)).

(** The estimates among the quality metrics (the two bitrate ratios are
    plain quotients). *)
Definition is_estimate (name : string) : bool :=
  existsb (String.eqb name)
          ["resolution_preservation"; "estimated_visual_quality";
           "estimated_audio_quality"].

(** The lines of the encoder's log that [_parse_ffmpeg_output] looks for. *)
Definition is_mapping_line (line : string) : bool :=
  (is_substring "Stream mapping:" line || is_substring "->" line)%bool.

Definition is_output_line (line : string) : bool :=
  (is_prefix "Output" line || is_substring "encoder" line
   || is_substring "bitrate" line)%bool.


(** A specification the command builder accepts: a string format and
    codec, sections that are mappings, an audio codec that is a string,
    extra options that can be iterated. *)
Definition buildable (fp : value) : Prop :=
  exists f fmt c p,
    fp = VDict f /\
    dict_get "format" f = Some (VStr fmt) /\
    dict_get "codec" f = Some (VStr c) /\
    dict_get "parameters" f = Some (VDict p) /\
    (forall s, dict_get "video" p = Some s -> is_dict s = true) /\
    (forall s, dict_get "audio" p = Some s ->
               exists a, s = VDict a /\
                         forall x, dict_get "codec" a = Some x -> exists n, x = VStr n) /\
    (forall o, dict_get "ffmpeg_options" p = Some o -> is_ok (iter o) = true).


End Statements.

(** Concrete requests, probes and runs. *)

Module Scenarios.

Import FN.

(** A recommendation that carries a bitrate strategy and nothing else. *)
Definition ai_strategy (ty : string) (v : value) : value :=
  VDict [("encoding_recommendations",
          VDict [("bitrate_strategy", VDict [("type", VStr ty); ("value", v)])])].

(** A caller's target format that sets [video.crf] to 18, and a
    recommendation that brings a CRF of 22 together with extra options
    (the repository's own fallback recommendation for h264 has the same
    three entries). *)
Definition target_crf18 : value :=
  VDict [("format", VStr "mp4"); ("codec", VStr "h264");
         ("parameters", VDict [("video", VDict [("crf", VInt 18)])])].

Definition ai_crf22_with_options : value :=
  VDict [("encoding_recommendations",
          VDict [("codec_parameters", VDict [("preset", VStr "medium")]);
                 ("bitrate_strategy", VDict [("type", VStr "CRF"); ("value", VInt 22)]);
                 ("ffmpeg_options", VList [VStr "-movflags"; VStr "+faststart"])])].

(** Stands for [str()] on floats and containers in runs whose inputs hold
    neither. *)
Definition no_repr : value -> string := fun _ => "".

(** A source with one video and one audio stream, one with video only. *)
Definition source_av : value :=
  VDict [("streams", VList [VDict [("codec_type", VStr "video")];
                            VDict [("codec_type", VStr "audio")]])].

Definition source_video_only : value :=
  VDict [("streams", VList [VDict [("codec_type", VStr "video")]])].

Definition spec_audio_only : value :=
  VDict [("format", VStr "mp3"); ("codec", VStr "mp3"); ("preset", VStr "web");
         ("parameters",
          VDict [("audio", VDict [("codec", VStr "libmp3lame");
                                  ("bitrate", VStr "192k")])])].

(** The caller asks for mp4 with two extra encoder options. *)
Definition target_with_extras : value :=
  VDict [("format", VStr "mp4");
         ("parameters",
          VDict [("ffmpeg_options", VList [VStr "-threads"; VStr "2"])])].

Definition spec_with_extras : value :=
  VDict [("format", VStr "mp4"); ("codec", VStr "h264"); ("preset", VStr "web");
         ("parameters",
          VDict [("video", VDict [("crf", VInt 23); ("preset", VStr "medium");
                                  ("movflags", VStr "+faststart")]);
                 ("audio", VDict [("codec", VStr "aac"); ("bitrate", VStr "128k")]);
                 ("ffmpeg_options", VList [VStr "-threads"; VStr "2"])])].

Definition cmd_with_extras : list string :=
  ["ffmpeg"; "-y"; "-i"; "in.mov";
   "-c:v"; "libx264"; "-crf"; "23"; "-preset"; "medium"; "-movflags"; "+faststart";
   "-c:a"; "aac"; "-b:a"; "128k";
   "-threads"; "2";
   "-f"; "mp4";
   "out.mp4"].

Definition target_vp9 : value :=
  VDict [("format", VStr "webm"); ("codec", VStr "vp9")].

Definition cmd_vp9 : list string :=
  ["ffmpeg"; "-y"; "-i"; "in.mov";
   "-c:v"; "libvpx-vp9"; "-crf"; "28"; "-preset"; "medium";
   "-c:a"; "aac"; "-b:a"; "128k";
   "-f"; "webm";
   "out.webm"].

Definition encoding_vp9 : value :=
  VDict [("video", VDict [("codec", VStr "vp9"); ("crf", VInt 31)]);
         ("audio", VDict [("codec", VStr "opus")])].

(** The float format specifications for the runs below: a rational in
    fixed notation with [digits] decimals, rounded half to even (what
    Python prints for the values of these runs, which are exact in binary
    floating point). *)
Fixpoint zeros (n : nat) : string :=
  match n with
  | O => ""
  | S m => String "0" (zeros m)
  end.

Definition fixed (digits : nat) (q : Q) : string :=
  let scale := 10 ^ Z.of_nat digits in
  let num := Z.abs (Qnum q) * scale in
  let den := Zpos (Qden q) in
  let a := num / den in
  let r := num mod den in
  let rounded :=
    if den <? 2 * r then a + 1
    else if 2 * r =? den then a + a mod 2
    else a in
  let whole := str_of_Z (rounded / scale) in
  let frac := str_of_Z (rounded mod scale) in
  let sign := if Qnum q <? 0 then "-" else "" in
  match digits with
  | O => sign ++ whole
  | _ => sign ++ whole ++ "."
         ++ zeros (digits - String.length frac) ++ frac
  end.

Definition percent (digits : nat) (q : Q) : string :=
  fixed digits (q * 100) ++ "%".

Definition source_probe : value :=
  VDict [("format", VDict [("format_name", VStr "mov,mp4,m4a,3gp,3g2,mj2");
                           ("size", VStr "1000000");
                           ("duration", VStr "100.0")]);
         ("streams",
          VList [VDict [("codec_type", VStr "video"); ("codec_name", VStr "h264");
                        ("width", VInt 1920); ("height", VInt 1080)]])].

(** An output that came out as vp8 where vp9 was requested. *)
Definition vp8_output_probe : value :=
  VDict [("format", VDict [("format_name", VStr "webm");
                           ("size", VStr "500000");
                           ("duration", VStr "100.0")]);
         ("streams",
          VList [VDict [("codec_type", VStr "video"); ("codec_name", VStr "vp8");
                        ("width", VInt 1920); ("height", VInt 1080)]])].

(** An output of size zero in another container and of another length. *)
Definition empty_output_probe : value :=
  VDict [("format", VDict [("format_name", VStr "webm");
                           ("size", VStr "0");
                           ("duration", VStr "0.0")]);
         ("streams", VList [])].

Definition spec_mp4 : value :=
  VDict [("format", VStr "mp4"); ("codec", VStr "h264"); ("preset", VStr "web");
         ("parameters",
          VDict [("video", VDict [("crf", VInt 23); ("preset", VStr "medium");
                                  ("movflags", VStr "+faststart")]);
                 ("audio", VDict [("codec", VStr "aac"); ("bitrate", VStr "128k")])])].

(** An audio-only output. *)
Definition audio_output_probe : value :=
  VDict [("format", VDict [("format_name", VStr "mp4"); ("size", VStr "500000")]);
         ("streams", VList [VDict [("codec_type", VStr "audio");
                                   ("codec_name", VStr "aac")]])].






(** *** Inputs of the further properties *)

(** The specification resolved for mov, prores and the broadcast preset. *)
Definition spec_prores_broadcast_fields : dict :=
  [("format", VStr "mov"); ("codec", VStr "prores"); ("preset", VStr "broadcast");
   ("parameters",
    VDict [("video", VDict [("profile", VStr "3"); ("level", VNone);
                            ("preset", VNone); ("pix_fmt", VStr "yuv422p10le")]);
           ("audio", VDict [("codec", VStr "pcm_s24le");
                            ("sample_rate", VStr "48000")])])].

(** An output scaled down to 1280x720. *)
Definition downscaled_output_probe : value :=
  VDict [("format", VDict [("format_name", VStr "mp4");
                           ("size", VStr "400000");
                           ("duration", VStr "100.0")]);
         ("streams",
          VList [VDict [("codec_type", VStr "video"); ("codec_name", VStr "h264");
                        ("width", VInt 1280); ("height", VInt 720)]])].

(** A run whose encoder exits with code 1, and one whose encoder exits with
    code 0 without leaving an output file. *)
Definition run_with_failed_encoder : env :=
  {| probe_source := Ok source_probe;
     recommend := fun _ _ => Raise (RuntimeError "recommender not available");
     encoder_returncode := fun _ => 1;
     encoder_stderr := fun _ => "Unknown encoder 'libx264'";
     source_exists := true;
     output_exists := false;
     probe_output := Raise (RuntimeError "Failed to analyze media: no such file");
     source_getsize := 1000000;
     output_getsize := 0;
     processing_time := 1 |}.

Definition run_without_output : env :=
  {| probe_source := Ok source_probe;
     recommend := fun _ _ => Raise (RuntimeError "recommender not available");
     encoder_returncode := fun _ => 0;
     encoder_stderr := fun _ => "";
     source_exists := true;
     output_exists := false;
     probe_output := Raise (RuntimeError "Failed to analyze media: no such file");
     source_getsize := 1000000;
     output_getsize := 0;
     processing_time := 1 |}.

(** The command built for [target_crf18], preset "web" and [source_probe]. *)
Definition cmd_crf18 : list string :=
  ["ffmpeg"; "-y"; "-i"; "in.mov";
   "-c:v"; "libx264"; "-crf"; "18"; "-preset"; "medium"; "-movflags"; "+faststart";
   "-f"; "mp4";
   "out.mp4"].

(** A few lines of an encoder's log. *)
Definition encoder_log : string :=
  "Stream mapping:" ++ String newline
  ("  Stream #0:0 -> #0:0 (h264 (native) -> h264 (libx264))" ++ String newline
   ("Output #0, mp4, to 'out.mp4':" ++ String newline
    "frame=  240 fps=0.0 q=-1.0 size=    1024kB time=00:00:10.00")).

(** A preset table for [formatnormalizer/normalizer.py] (the repository's
    own table is not among the sources), and the settings resolved from it
    for preset "web", format "mp4" and quality "high". *)
Definition sample_presets : dict :=
  [("web", VDict [("video_codec", VStr "mpeg4"); ("crf", VInt 30);
                  ("scale", VStr "1280:720")])].

Definition settings_web_mp4_high : value :=
  VDict [("video_codec", VStr "libx264"); ("audio_codec", VStr "aac");
         ("video_bitrate", VStr "2M"); ("audio_bitrate", VStr "192k");
         ("preset", VStr "slow"); ("crf", VInt 18);
         ("scale", VStr "1280:720")].

(** [spec_mp4] after a recommendation of CRF 22. *)
Definition spec_mp4_crf22 : value :=
  VDict [("format", VStr "mp4"); ("codec", VStr "h264"); ("preset", VStr "web");
         ("parameters",
          VDict [("video", VDict [("crf", VInt 22); ("preset", VStr "medium");
                                  ("movflags", VStr "+faststart")]);
                 ("audio", VDict [("codec", VStr "aac"); ("bitrate", VStr "128k")])])].

End Scenarios.

(* ================================================================== *)
(** * Properties                                                       *)
(* ================================================================== *)

#[local] Arguments String.eqb : simpl never.

(** ** Dictionaries *)

Module DictFacts.

Lemma dict_get_set_same k v d : dict_get k (dict_set k v d) = Some v.
Proof.
  induction d as [|[k' v'] d IH]; simpl.
  - now rewrite String.eqb_refl.
  - destruct (String.eqb k k') eqn:E; simpl.
    + now rewrite String.eqb_refl.
    + now rewrite E.
Qed.

Lemma dict_get_set_other k k' v d :
  k <> k' -> dict_get k (dict_set k' v d) = dict_get k d.
Proof.
  intros Hne. induction d as [|[k0 v0] d IH]; simpl.
  - destruct (String.eqb_spec k k'); [contradiction | reflexivity].
  - destruct (String.eqb_spec k' k0) as [->|Hk]; simpl.
    + destruct (String.eqb_spec k k0); [contradiction | reflexivity].
    + destruct (String.eqb_spec k k0); [reflexivity | exact IH].
Qed.

Lemma dict_mem_set k k' v d :
  dict_mem k (dict_set k' v d) = (String.eqb k k' || dict_mem k d)%bool.
Proof.
  unfold dict_mem. destruct (String.eqb_spec k k') as [->|Hne].
  - now rewrite dict_get_set_same.
  - now rewrite dict_get_set_other.
Qed.

Lemma dict_get_in_keys k d v : dict_get k d = Some v -> In k (dict_keys d).
Proof.
  induction d as [|[k' v'] d IH]; simpl; [discriminate|].
  destruct (String.eqb_spec k k') as [->|Hne]; auto.
Qed.

Lemma dict_get_not_in_keys k d : ~ In k (dict_keys d) -> dict_get k d = None.
Proof.
  induction d as [|[k' v'] d IH]; simpl; [reflexivity|].
  intros Hn. destruct (String.eqb_spec k k') as [->|Hne].
  - exfalso. apply Hn. now left.
  - apply IH. intro. apply Hn. now right.
Qed.

Lemma dict_update_cons d k v o :
  dict_update d ((k, v) :: o) = dict_update (dict_set k v d) o.
Proof. reflexivity. Qed.

(** Keys the update does not mention keep their value. *)
Lemma dict_get_update_absent k o : forall d,
  ~ In k (dict_keys o) -> dict_get k (dict_update d o) = dict_get k d.
Proof.
  induction o as [|[k' v'] o IH]; intros d Hn; [reflexivity|].
  rewrite dict_update_cons, IH.
  - apply dict_get_set_other. intros ->. apply Hn. now left.
  - intro. apply Hn. now right.
Qed.

(** A key the update mentions takes the update's value. *)
Lemma dict_get_update_present k v o : forall d,
  NoDup (dict_keys o) -> dict_get k o = Some v ->
  dict_get k (dict_update d o) = Some v.
Proof.
  induction o as [|[k' v'] o IH]; intros d Hnd Hget; [discriminate|].
  simpl in Hnd. inversion Hnd as [|? ? Hnotin Hnd']; subst.
  rewrite dict_update_cons. simpl in Hget.
  destruct (String.eqb_spec k k') as [->|Hne].
  - injection Hget as ->.
    rewrite dict_get_update_absent by exact Hnotin.
    apply dict_get_set_same.
  - now apply IH.
Qed.

End DictFacts.

(** ** The parameter resolver *)

Module ResolverProps.

Import Statements Scenarios.
Import DictFacts.
Import FN.

(** Splits a hypothesis [(x <- m ;; k) = Ok r] on the outcome of [m]. *)
Ltac bind_inv H :=
  match type of H with
  | bind ?m _ = Ok _ =>
      let E := fresh "E" in
      destruct m eqn:E; simpl in H; [|discriminate H]
  end.

Lemma getitem_ok_inv v k x :
  getitem v k = Ok x -> exists d, v = VDict d /\ dict_get k d = Some x.
Proof.
  destruct v; simpl; try discriminate.
  destruct (dict_get k d) eqn:E; [|discriminate].
  intros [= ->]. eauto.
Qed.

Lemma fold_merge_raise l e : fold_left merge_section l (Raise e) = Raise e.
Proof. induction l; simpl; auto. Qed.

Lemma merge_section_inv params k v p1 :
  merge_section (Ok params) (k, v) = Ok p1 ->
  exists x, p1 = dict_set k x params /\
            (dict_get k params = None -> x = v) /\
            (forall s, dict_get k params = Some s -> update s v = Ok x).
Proof.
  unfold merge_section; simpl.
  destruct (dict_get k params) as [s|] eqn:E.
  - intro H. bind_inv H. injection H as <-.
    exists a. split; [reflexivity|]. split; [discriminate|]. now intros s' [= <-].
  - intros [= <-]. exists v. split; [reflexivity|]. split; [reflexivity|discriminate].
Qed.

(** What the merge leaves in the video section: the preset's entries
    updated by the caller's, or the preset's alone. *)
Lemma merge_parameters_video overrides : forall params result pv,
  NoDup (dict_keys overrides) ->
  merge_parameters params overrides = Ok result ->
  dict_get "video" params = Some (VDict pv) ->
  (forall vo, dict_get "video" overrides = Some (VDict vo) ->
              dict_get "video" result = Some (VDict (dict_update pv vo))) /\
  (~ In "video" (dict_keys overrides) ->
   dict_get "video" result = Some (VDict pv)).
Proof.
  unfold merge_parameters.
  induction overrides as [|[k1 v1] rest IH]; intros params result pv Hnd Hm Hv.
  - simpl in Hm. injection Hm as <-. split; [discriminate | auto].
  - change (fold_left merge_section rest (merge_section (Ok params) (k1, v1))
            = Ok result) in Hm.
    simpl in Hnd. inversion Hnd as [|? ? Hnotin Hnd']; subst.
    destruct (merge_section (Ok params) (k1, v1)) as [p1|e] eqn:E1;
      [|rewrite fold_merge_raise in Hm; discriminate].
    destruct (merge_section_inv _ _ _ _ E1) as (x & -> & _ & Hupd).
    destruct (String.eqb_spec "video" k1) as [<-|Hne].
    + specialize (Hupd _ Hv).
      split.
      * intros vo Hvo. simpl in Hvo. injection Hvo as ->.
        simpl in Hupd. injection Hupd as <-.
        destruct (IH _ _ _ Hnd' Hm (dict_get_set_same _ _ _)) as [_ Habs].
        now apply Habs.
      * intros Hn. exfalso. apply Hn. now left.
    + assert (Hv1 : dict_get "video" (dict_set k1 x params) = Some (VDict pv))
        by (rewrite dict_get_set_other; auto).
      destruct (IH _ _ _ Hnd' Hm Hv1) as [Hp Ha].
      split.
      * intros vo Hvo. simpl in Hvo.
        destruct (String.eqb_spec "video" k1); [contradiction|]. auto.
      * intros Hn. apply Ha. intro. apply Hn. now right.
Qed.

(** The merge succeeds when the caller's sections that meet a section of
    the preset are mappings, like the preset's own. *)
Lemma merge_parameters_ok overrides : forall params,
  NoDup (dict_keys overrides) ->
  (forall k v s, In (k, v) overrides -> dict_get k params = Some s ->
                 is_dict s = true /\ is_dict v = true) ->
  exists result, merge_parameters params overrides = Ok result.
Proof.
  unfold merge_parameters.
  induction overrides as [|[k1 v1] rest IH]; intros params Hnd Hd.
  - simpl. eauto.
  - simpl in Hnd. inversion Hnd as [|? ? Hnotin Hnd']; subst.
    assert (Hstep : exists x, merge_section (Ok params) (k1, v1)
                              = Ok (dict_set k1 x params)).
    { unfold merge_section; simpl.
      destruct (dict_get k1 params) as [s|] eqn:E; [|eauto].
      destruct (Hd k1 v1 s (or_introl eq_refl) E) as [Hs Hv].
      destruct s; try discriminate. destruct v1; try discriminate.
      simpl. eauto. }
    destruct Hstep as [x Hx].
    change (exists result, fold_left merge_section rest
                             (merge_section (Ok params) (k1, v1)) = Ok result).
    rewrite Hx.
    apply IH; [exact Hnd'|].
    intros k v s Hin Hget.
    assert (k <> k1).
    { intros ->. apply Hnotin. unfold dict_keys.
      change k1 with (fst (k1, v)). now apply in_map. }
    rewrite dict_get_set_other in Hget by assumption.
    eapply Hd; eauto. now right.
Qed.

Lemma set_video_param_inv fp k v fp' :
  set_video_param fp k v = Ok fp' ->
  exists f p vd,
    fp = VDict f /\ dict_get "parameters" f = Some (VDict p) /\
    dict_get "video" p = Some (VDict vd) /\
    fp' = VDict (dict_set "parameters"
                   (VDict (dict_set "video" (VDict (dict_set k v vd)) p)) f).
Proof.
  unfold set_video_param. intro H.
  bind_inv H. bind_inv H. bind_inv H. bind_inv H.
  destruct (getitem_ok_inv _ _ _ E) as (f & -> & Hf).
  destruct (getitem_ok_inv _ _ _ E0) as (p & -> & Hp).
  destruct a0; try discriminate. simpl in E1, E2.
  injection E1 as <-. injection E2 as <-. simpl in H. injection H as <-.
  exists f, p, d. auto.
Qed.

Lemma set_video_param_ok f p vd k v :
  dict_get "parameters" f = Some (VDict p) ->
  dict_get "video" p = Some (VDict vd) ->
  set_video_param (VDict f) k v =
    Ok (VDict (dict_set "parameters"
                 (VDict (dict_set "video" (VDict (dict_set k v vd)) p)) f)).
Proof.
  intros Hf Hp. unfold set_video_param. simpl. rewrite Hf. simpl.
  rewrite Hp. reflexivity.
Qed.

(** Reading back the entry just written. *)
Lemma video_param_set fp k v fp' :
  set_video_param fp k v = Ok fp' -> video_param fp' k = Ok v.
Proof.
  intro H. destruct (set_video_param_inv _ _ _ _ H) as (f & p & vd & -> & Hf & Hp & ->).
  unfold video_param. simpl. rewrite dict_get_set_same. simpl.
  rewrite dict_get_set_same. simpl. now rewrite dict_get_set_same.
Qed.

Lemma video_param_set_other fp k k' v fp' :
  set_video_param fp k' v = Ok fp' -> k <> k' ->
  video_param fp' k = video_param fp k.
Proof.
  intros H Hne. destruct (set_video_param_inv _ _ _ _ H) as (f & p & vd & -> & Hf & Hp & ->).
  unfold video_param. simpl. rewrite dict_get_set_same, Hf. simpl.
  rewrite dict_get_set_same, Hp. simpl. now rewrite dict_get_set_other.
Qed.

(** Writing a video entry leaves the set of sections as it was. *)
Lemma set_video_param_sections fp k v fp' name :
  set_video_param fp k v = Ok fp' -> has_section fp' name = has_section fp name.
Proof.
  intro H. destruct (set_video_param_inv _ _ _ _ H) as (f & p & vd & -> & Hf & Hp & ->).
  unfold has_section. simpl. rewrite dict_get_set_same, Hf. simpl.
  rewrite dict_mem_set. f_equal.
  destruct (String.eqb_spec name "video") as [->|]; [|reflexivity].
  unfold dict_mem. now rewrite Hp.
Qed.

Lemma fold_codec_raise l e : fold_left apply_codec_parameter l (Raise e) = Raise e.
Proof. induction l; simpl; auto. Qed.

Lemma bind_ret {A} (m : result A) : (x <- m ;; Ok x) = m.
Proof. now destruct m. Qed.

Lemma in_dict_get k v d :
  NoDup (dict_keys d) -> In (k, v) d -> dict_get k d = Some v.
Proof.
  induction d as [|[k' v'] d IH]; simpl; [tauto|].
  intros Hnd [Heq|Hin]; inversion Hnd as [|? ? Hnotin Hnd']; subst.
  - injection Heq as -> ->. now rewrite String.eqb_refl.
  - destruct (String.eqb_spec k k') as [->|]; [|auto].
    exfalso. apply Hnotin. change k' with (fst (k', v)). now apply in_map.
Qed.

(** Repeatedly splits a successful computation into its successful steps. *)
Ltac crunch H :=
  repeat match type of H with
         | bind ?m _ = Ok _ => bind_inv H
         | (if ?b then _ else _) = Ok _ => destruct b eqn:?
         | match ?v with VDict _ => _ | _ => _ end = Ok _ => destruct v eqn:?
         end.

(** *** The three stages of [_apply_ai_recommendations] and the sections *)

Lemma codec_parameters_sections d : forall fp fp' name,
  fold_left apply_codec_parameter d (Ok fp) = Ok fp' ->
  has_section fp' name = has_section fp name.
Proof.
  induction d as [|[k v] d IH]; intros fp fp' name H.
  - simpl in H. now injection H as <-.
  - change (fold_left apply_codec_parameter d
              (apply_codec_parameter (Ok fp) (k, v)) = Ok fp') in H.
    destruct (apply_codec_parameter (Ok fp) (k, v)) as [fp1|e] eqn:E1;
      [|rewrite fold_codec_raise in H; discriminate].
    rewrite (IH _ _ _ H).
    unfold apply_codec_parameter in E1. simpl in E1. crunch E1.
    + eapply set_video_param_sections; eauto.
    + now injection E1 as <-.
Qed.

Lemma apply_codec_parameters_sections fp recs fp' name :
  apply_codec_parameters fp recs = Ok fp' ->
  has_section fp' name = has_section fp name.
Proof.
  unfold apply_codec_parameters. intro H. crunch H;
    try (injection H as <-; reflexivity).
  eapply codec_parameters_sections; eauto.
Qed.

Lemma apply_bitrate_strategy_sections fp recs fp' name :
  apply_bitrate_strategy fp recs = Ok fp' ->
  has_section fp' name = has_section fp name.
Proof.
  unfold apply_bitrate_strategy. intro H. crunch H;
    try (injection H as <-; reflexivity).
  - eapply set_video_param_sections; eauto.
  - rewrite (set_video_param_sections _ _ _ _ name H).
    rewrite (set_video_param_sections _ _ _ _ name E6).
    rewrite (set_video_param_sections _ _ _ _ name E5).
    eapply set_video_param_sections; eauto.
  - eapply set_video_param_sections; eauto.
Qed.

Lemma setitem_inv v k x v' :
  setitem v k x = Ok v' -> exists d, v = VDict d /\ v' = VDict (dict_set k x d).
Proof. destruct v; simpl; try discriminate. intros [= <-]. eauto. Qed.

(** The last stage is the only one that can add a section, and the only
    section it adds is [ffmpeg_options]. *)
Lemma apply_ffmpeg_options_sections fp recs fp' name :
  apply_ffmpeg_options fp recs = Ok fp' ->
  has_section fp' name = Ok true ->
  name = "ffmpeg_options" \/ has_section fp name = Ok true.
Proof.
  unfold apply_ffmpeg_options. intros H Hs. crunch H;
    try (injection H as <-; auto; fail).
  destruct (getitem_ok_inv _ _ _ E2) as (f & -> & Hf).
  destruct (setitem_inv _ _ _ _ E6) as (p3 & -> & ->).
  simpl in H. injection H as <-.
  assert (Hp : exists p, a2 = VDict p /\
                         forall n, dict_mem n p3 = true ->
                                   n = "ffmpeg_options" \/ dict_mem n p = true).
  { destruct a1.
    - injection E3 as ->. eauto.
    - destruct (setitem_inv _ _ _ _ E3) as (p & -> & Hp3).
      injection Hp3 as ->. exists p. split; [reflexivity|].
      intros n Hn. rewrite dict_mem_set in Hn.
      destruct (String.eqb_spec n "ffmpeg_options"); auto. }
  destruct Hp as (p & -> & Hp).
  unfold has_section in *. simpl in Hs. rewrite dict_get_set_same in Hs.
  simpl in Hs. rewrite dict_mem_set in Hs. injection Hs as Hs.
  simpl. rewrite Hf. simpl.
  destruct (String.eqb_spec name "ffmpeg_options"); [now left|].
  simpl in Hs. destruct (Hp _ Hs) as [|Hm]; [now left|]. right. now rewrite Hm.
Qed.

Lemma apply_ai_sections fp ai fp' name :
  _apply_ai_recommendations fp ai = Ok fp' ->
  has_section fp' name = Ok true ->
  name = "ffmpeg_options" \/ has_section fp name = Ok true.
Proof.
  unfold _apply_ai_recommendations. intros H Hs. crunch H.
  - injection H as <-. auto.
  - destruct (apply_ffmpeg_options_sections _ _ _ _ H Hs) as [|H2]; auto.
    right.
    rewrite (apply_bitrate_strategy_sections _ _ _ name E1) in H2.
    now rewrite (apply_codec_parameters_sections _ _ _ name E0) in H2.
Qed.

(** *** Precedence: preset, then the caller's overrides, then the recommender *)

Lemma apply_ai_strategy_unfold fp ty v :
  _apply_ai_recommendations fp (ai_strategy ty v) =
  apply_bitrate_strategy fp
    (VDict [("bitrate_strategy", VDict [("type", VStr ty); ("value", v)])]).
Proof.
  unfold _apply_ai_recommendations, ai_strategy.
  change (get _ "encoding_recommendations" (VDict []))
    with (Ok (VDict [("bitrate_strategy", VDict [("type", VStr ty); ("value", v)])])).
  cbn [bind truthy negb].
  change (apply_codec_parameters fp _) with (Ok fp). cbn [bind].
  rewrite <- bind_ret. reflexivity.
Qed.

Lemma apply_bitrate_strategy_unfold fp ty v :
  truthy v = true -> ty <> "" -> has_section fp "video" = Ok true ->
  apply_bitrate_strategy fp
    (VDict [("bitrate_strategy", VDict [("type", VStr ty); ("value", v)])]) =
  if String.eqb ty "CRF" then set_video_param fp "crf" v
  else if String.eqb ty "CBR" then
    fp1 <- set_video_param fp "bitrate" v ;;
    fp2 <- set_video_param fp1 "minrate" v ;;
    fp3 <- set_video_param fp2 "maxrate" v ;;
    bufsize <- cbr_bufsize v ;;
    set_video_param fp3 "bufsize" bufsize
  else if String.eqb ty "VBR" then set_video_param fp "bitrate" v
  else Ok fp.
Proof.
  intros Hv Hty Hs. unfold apply_bitrate_strategy.
  change (contains "bitrate_strategy" _) with (Ok true). cbn [bind].
  change (getitem _ "bitrate_strategy")
    with (Ok (VDict [("type", VStr ty); ("value", v)])).
  cbn [bind is_dict].
  change (get _ "type" VNone) with (Ok (VStr ty)).
  change (get _ "value" VNone) with (Ok v).
  cbn [bind truthy eq_str]. rewrite Hv, Hs.
  destruct (String.eqb_spec ty ""); [contradiction|]. reflexivity.
Qed.

Lemma prepared_video_param fmt c pr p k :
  video_param (VDict [("format", fmt); ("codec", c); ("preset", pr);
                      ("parameters", VDict p)]) k
  = (video <- getitem (VDict p) "video" ;; getitem video k).
Proof. reflexivity. Qed.

Lemma prepared_has_section fmt c pr p name :
  has_section (VDict [("format", fmt); ("codec", c); ("preset", pr);
                      ("parameters", VDict p)]) name
  = Ok (dict_mem name p).
Proof. reflexivity. Qed.

(** The resolver on a mapping whose [format] (if any) is a string and whose
    [parameters] override the video section: the resolved video section is
    the preset's, updated entry by entry. *)
Lemma preset_parameters_shape preset c ft :
  exists pv av, preset_parameters preset c ft
                = [("video", VDict pv); ("audio", VDict av)].
Proof.
  unfold preset_parameters.
  repeat match goal with |- context [String.eqb preset ?x] =>
                           destruct (String.eqb preset x) end; eauto.
Qed.

Lemma prepare_with_video_override t overrides vo preset :
  (forall f, dict_get "format" t = Some f -> exists s, f = VStr s) ->
  dict_get "parameters" t = Some (VDict overrides) ->
  NoDup (dict_keys overrides) ->
  dict_get "video" overrides = Some (VDict vo) ->
  (forall a, dict_get "audio" overrides = Some a -> is_dict a = true) ->
  exists ft c p pv,
    _prepare_format_parameters (VDict t) preset
    = Ok (VDict [("format", VStr ft); ("codec", c); ("preset", VStr preset);
                 ("parameters", VDict p)]) /\
    dict_get "video" (preset_parameters preset c ft) = Some (VDict pv) /\
    dict_get "video" p = Some (VDict (dict_update pv vo)).
Proof.
  intros Hfmt Hpar Hnd Hvideo Haudio.
  assert (Hf : exists s0, get (VDict t) "format" (VStr "mp4") = Ok (VStr s0)).
  { simpl. destruct (dict_get "format" t) as [f|] eqn:E;
      [destruct (Hfmt f eq_refl) as [s ->]|]; eauto. }
  destruct Hf as [s0 Hf].
  unfold _prepare_format_parameters. rewrite Hf. cbn [bind lower get].
  set (c := if truthy _ then _ else _).
  set (ft := lower_string s0).
  cbn [contains getitem]. unfold dict_mem. rewrite Hpar. cbn [bind].
  destruct (preset_parameters_shape preset c ft) as (pv & av & Hparams).
  destruct (merge_parameters_ok overrides (preset_parameters preset c ft) Hnd)
    as [p Hp].
  { intros k v sct Hin Hget. rewrite Hparams in Hget.
    pose proof (in_dict_get _ _ _ Hnd Hin) as Hkv.
    cbn [dict_get] in Hget.
    destruct (String.eqb_spec k "video") as [->|].
    - injection Hget as <-. rewrite Hvideo in Hkv. now injection Hkv as <-.
    - destruct (String.eqb_spec k "audio") as [->|]; [|discriminate].
      injection Hget as <-. split; [reflexivity|]. now apply Haudio. }
  rewrite Hp. cbn [bind].
  assert (Hgv : dict_get "video" (preset_parameters preset c ft) = Some (VDict pv))
    by (rewrite Hparams; reflexivity).
  exists ft, c, p, pv. split; [reflexivity|]. split; [exact Hgv|].
  destruct (merge_parameters_video _ _ _ _ Hnd Hp Hgv) as [Hm _]. auto.
Qed.

(** The recommender's CRF replaces whatever CRF the spec had. *)
Lemma ai_crf_beats_resolved fp v :
  truthy v = true -> has_section fp "video" = Ok true ->
  _apply_ai_recommendations fp (ai_strategy "CRF" v)
  = set_video_param fp "crf" v.
Proof.
  intros Hv Hs. rewrite apply_ai_strategy_unfold.
  rewrite apply_bitrate_strategy_unfold by (auto; discriminate). reflexivity.
Qed.

(** C1, as stated, fails on its last part: the resolved spec has no
    [ffmpeg_options] section, and the spec after the recommendation has
    one. *)
Lemma ai_recommendation_adds_ffmpeg_options_section :
  (fp <- _prepare_format_parameters target_crf18 "web" ;;
   fp' <- _apply_ai_recommendations fp ai_crf22_with_options ;;
   before <- has_section fp "ffmpeg_options" ;;
   after <- has_section fp' "ffmpeg_options" ;;
   crf <- video_param fp' "crf" ;;
   Ok (before, after, crf))
  = Ok (false, true, VInt 22).
Proof. vm_compute. reflexivity. Qed.

(** C1 (amended).  Precedence is field by field with the later layer
    winning: with preset "web" and a caller's override that sets
    [video.crf] to 18 the resolved CRF is 18, and after a recommendation of
    strategy "CRF" with value 22 it is 22.  A recommendation never adds a
    section other than [ffmpeg_options]: every other section of the result
    (video and audio among them) was in the spec before. *)
Theorem resolve_precedence_preset_override_ai :
  (forall t overrides vo,
      (forall f, dict_get "format" t = Some f -> exists s, f = VStr s) ->
      dict_get "parameters" t = Some (VDict overrides) ->
      NoDup (dict_keys overrides) ->
      dict_get "video" overrides = Some (VDict vo) ->
      (forall a, dict_get "audio" overrides = Some a -> is_dict a = true) ->
      NoDup (dict_keys vo) ->
      dict_get "crf" vo = Some (VInt 18) ->
      exists fp fp',
        _prepare_format_parameters (VDict t) "web" = Ok fp /\
        video_param fp "crf" = Ok (VInt 18) /\
        _apply_ai_recommendations fp (ai_strategy "CRF" (VInt 22)) = Ok fp' /\
        video_param fp' "crf" = Ok (VInt 22))
  /\
  (forall fp ai fp' name,
      _apply_ai_recommendations fp ai = Ok fp' ->
      has_section fp' name = Ok true ->
      name = "ffmpeg_options" \/ has_section fp name = Ok true).
Proof.
  split; [|exact apply_ai_sections].
  intros t overrides vo Hfmt Hpar Hnd Hvideo Haudio Hndv Hcrf.
  destruct (prepare_with_video_override t overrides vo "web"
              Hfmt Hpar Hnd Hvideo Haudio) as (ft & c & p & pv & Hprep & Hpv & Hp).
  set (fp := VDict [("format", VStr ft); ("codec", c); ("preset", VStr "web");
                    ("parameters", VDict p)]) in *.
  assert (Hsec : has_section fp "video" = Ok true).
  { unfold fp. rewrite prepared_has_section. unfold dict_mem. now rewrite Hp. }
  assert (Hset : exists fp', set_video_param fp "crf" (VInt 22) = Ok fp').
  { unfold fp. erewrite set_video_param_ok; [eauto|reflexivity|exact Hp]. }
  destruct Hset as [fp' Hset].
  exists fp, fp'. split; [exact Hprep|]. split.
  - unfold fp. rewrite prepared_video_param. cbn [getitem]. rewrite Hp.
    cbn [bind getitem].
    now rewrite (dict_get_update_present "crf" (VInt 18) vo pv Hndv Hcrf).
  - rewrite ai_crf_beats_resolved by auto. split; [exact Hset|].
    eapply video_param_set; eauto.
Qed.

Lemma resolve_precedence_witness :
  exists fp fp',
    _prepare_format_parameters target_crf18 "web" = Ok fp /\
    video_param fp "crf" = Ok (VInt 18) /\
    _apply_ai_recommendations fp (ai_strategy "CRF" (VInt 22)) = Ok fp' /\
    video_param fp' "crf" = Ok (VInt 22).
Proof.
  apply (proj1 resolve_precedence_preset_override_ai)
    with (overrides := [("video", VDict [("crf", VInt 18)])])
         (vo := [("crf", VInt 18)]).
  - intros f Hf. vm_compute in Hf. injection Hf as <-. eauto.
  - reflexivity.
  - repeat constructor. simpl. tauto.
  - reflexivity.
  - intros a Ha. vm_compute in Ha. discriminate.
  - repeat constructor. simpl. tauto.
  - reflexivity.
Defined.

(** *** Rate control *)

(** The other two parts of the rate-control merge. *)
Lemma ai_vbr_sets_bitrate_only fp v :
  truthy v = true -> has_section fp "video" = Ok true ->
  _apply_ai_recommendations fp (ai_strategy "VBR" v)
  = set_video_param fp "bitrate" v.
Proof.
  intros Hv Hs. rewrite apply_ai_strategy_unfold.
  rewrite apply_bitrate_strategy_unfold by (auto; discriminate). reflexivity.
Qed.

Lemma ai_unrecognized_strategy_ignored fp ty v :
  ty <> "CRF" -> ty <> "CBR" -> ty <> "VBR" ->
  is_ok (has_section fp "video") = true ->
  _apply_ai_recommendations fp (ai_strategy ty v) = Ok fp.
Proof.
  intros H1 H2 H3 Hs. rewrite apply_ai_strategy_unfold.
  unfold apply_bitrate_strategy.
  change (contains "bitrate_strategy" _) with (Ok true). cbn [bind].
  change (getitem _ "bitrate_strategy")
    with (Ok (VDict [("type", VStr ty); ("value", v)])).
  cbn [bind is_dict].
  change (get _ "type" VNone) with (Ok (VStr ty)).
  change (get _ "value" VNone) with (Ok v).
  cbn [bind eq_str].
  destruct (truthy (VStr ty)); [|reflexivity].
  destruct (truthy v); [|reflexivity].
  destruct (has_section fp "video") as [[|]|]; try discriminate; cbn [bind];
    [|reflexivity].
  destruct (String.eqb_spec ty "CRF"); [contradiction|].
  destruct (String.eqb_spec ty "CBR"); [contradiction|].
  destruct (String.eqb_spec ty "VBR"); [contradiction|]. reflexivity.
Qed.

(** On any spec with a video section, strategy "CBR" with value "5000k"
    sets the three rates to "5000k" and the buffer size to "10000000k". *)
Lemma cbr_5000k_on_video_spec f p vd :
  dict_get "parameters" f = Some (VDict p) ->
  dict_get "video" p = Some (VDict vd) ->
  exists fp',
    _apply_ai_recommendations (VDict f) (ai_strategy "CBR" (VStr "5000k")) = Ok fp' /\
    video_param fp' "bitrate" = Ok (VStr "5000k") /\
    video_param fp' "minrate" = Ok (VStr "5000k") /\
    video_param fp' "maxrate" = Ok (VStr "5000k") /\
    video_param fp' "bufsize" = Ok (VStr "10000000k").
Proof.
  intros Hf Hp.
  assert (Hs : has_section (VDict f) "video" = Ok true).
  { unfold has_section. cbn [getitem]. rewrite Hf. cbn [bind contains].
    unfold dict_mem. now rewrite Hp. }
  rewrite apply_ai_strategy_unfold.
  rewrite apply_bitrate_strategy_unfold by (auto; discriminate).
  change (String.eqb "CBR" "CRF") with false.
  change (String.eqb "CBR" "CBR") with true. cbv iota.
  change (cbr_bufsize (VStr "5000k")) with (Ok (VStr "10000000k")).
  destruct (set_video_param (VDict f) "bitrate" (VStr "5000k")) as [fp1|] eqn:E1;
    [|erewrite set_video_param_ok in E1 by eauto; discriminate].
  destruct (set_video_param_inv _ _ _ _ E1) as (f0 & p0 & vd0 & _ & _ & _ & Hfp1).
  cbn [bind].
  destruct (set_video_param fp1 "minrate" (VStr "5000k")) as [fp2|] eqn:E2;
    [|subst fp1; erewrite set_video_param_ok in E2
        by (apply dict_get_set_same); discriminate].
  destruct (set_video_param_inv _ _ _ _ E2) as (f1 & p1 & vd1 & _ & _ & _ & Hfp2).
  cbn [bind].
  destruct (set_video_param fp2 "maxrate" (VStr "5000k")) as [fp3|] eqn:E3;
    [|subst fp2; erewrite set_video_param_ok in E3
        by (apply dict_get_set_same); discriminate].
  destruct (set_video_param_inv _ _ _ _ E3) as (f2 & p2 & vd2 & _ & _ & _ & Hfp3).
  cbn [bind].
  destruct (set_video_param fp3 "bufsize" (VStr "10000000k")) as [fp4|] eqn:E4;
    [|subst fp3; erewrite set_video_param_ok in E4
        by (apply dict_get_set_same); discriminate].
  exists fp4. split; [reflexivity|].
  repeat split.
  - rewrite (video_param_set_other _ _ _ _ _ E4) by discriminate.
    rewrite (video_param_set_other _ _ _ _ _ E3) by discriminate.
    rewrite (video_param_set_other _ _ _ _ _ E2) by discriminate.
    eapply video_param_set; eauto.
  - rewrite (video_param_set_other _ _ _ _ _ E4) by discriminate.
    rewrite (video_param_set_other _ _ _ _ _ E3) by discriminate.
    eapply video_param_set; eauto.
  - rewrite (video_param_set_other _ _ _ _ _ E4) by discriminate.
    eapply video_param_set; eauto.
  - eapply video_param_set; eauto.
Qed.

(** C2 (the code at the claim's example).  On the spec resolved for preset
    "web", a recommendation of strategy "CBR" with value "5000k" sets
    bitrate, minrate and maxrate to "5000k" and bufsize to "10000000k": the
    unit suffix is expanded to three zeros before doubling and a "k" is
    appended again, a thousand times the "10000k" of the rate-control
    rule. *)
Theorem cbr_5000k_bufsize_on_web_preset :
  (fp <- _prepare_format_parameters (VDict []) "web" ;;
   fp' <- _apply_ai_recommendations fp (ai_strategy "CBR" (VStr "5000k")) ;;
   bitrate <- video_param fp' "bitrate" ;;
   minrate <- video_param fp' "minrate" ;;
   maxrate <- video_param fp' "maxrate" ;;
   bufsize <- video_param fp' "bufsize" ;;
   Ok [bitrate; minrate; maxrate; bufsize])
  = Ok [VStr "5000k"; VStr "5000k"; VStr "5000k"; VStr "10000000k"].
Proof. vm_compute. reflexivity. Qed.

End ResolverProps.

(** ** The command builder *)

Module BuilderProps.

Import Statements Scenarios.
Import DictFacts.
Import FN.
Import ResolverProps.

Section WithRepr.

Variable repr : value -> string.

(** *** Every block only appends to the command *)

Lemma fold_video_raise fp codec l e :
  fold_left (add_video_param repr fp codec) l (Raise e) = Raise e.
Proof. induction l; simpl; auto. Qed.

Lemma fold_video_shift fp codec entries : forall cmd acc,
  fold_left (add_video_param repr fp codec) entries (Ok (cmd ++ acc))
  = (V <- fold_left (add_video_param repr fp codec) entries (Ok acc) ;;
     Ok (cmd ++ V)).
Proof.
  induction entries as [|kv rest IH]; intros cmd acc; [reflexivity|].
  cbn [fold_left]. unfold add_video_param at 2 4. cbn [bind].
  destruct (video_param_args repr fp codec (fst kv) (snd kv)) as [args|e];
    cbn [bind].
  - rewrite <- app_assoc. apply IH.
  - now rewrite !fold_video_raise.
Qed.

Lemma add_video_shift fp sm cmd :
  add_video repr fp sm cmd = (V <- add_video repr fp sm [] ;; Ok (cmd ++ V)).
Proof.
  unfold add_video.
  destruct (has_stream "video" sm) as [hv|]; [|reflexivity]. cbn [bind].
  destruct (if hv then has_section fp "video" else Ok false) as [[|]|];
    cbn [bind]; [| now rewrite app_nil_r | reflexivity].
  destruct (getitem fp "parameters"); [|reflexivity]. cbn [bind].
  destruct (getitem a "video"); [|reflexivity]. cbn [bind].
  destruct (getitem fp "codec"); [|reflexivity]. cbn [bind].
  destruct (items a0); [|reflexivity]. cbn [bind].
  rewrite fold_video_shift. reflexivity.
Qed.

Lemma fold_audio_shift entries : forall cmd acc,
  fold_left (add_audio_param repr) entries (cmd ++ acc)
  = cmd ++ fold_left (add_audio_param repr) entries acc.
Proof.
  induction entries as [|kv rest IH]; intros cmd acc; [reflexivity|].
  cbn [fold_left]. unfold add_audio_param at 2 4.
  rewrite <- app_assoc. apply IH.
Qed.

Lemma add_audio_shift fp sm cmd :
  add_audio repr fp sm cmd = (A <- add_audio repr fp sm [] ;; Ok (cmd ++ A)).
Proof.
  unfold add_audio.
  destruct (has_stream "audio" sm) as [ha|]; [|reflexivity]. cbn [bind].
  destruct (if ha then has_section fp "audio" else Ok false) as [[|]|];
    cbn [bind]; [| now rewrite app_nil_r | reflexivity].
  destruct (getitem fp "parameters"); [|reflexivity]. cbn [bind].
  destruct (getitem a "audio"); [|reflexivity]. cbn [bind].
  destruct (contains "codec" a0) as [[|]|]; [| |reflexivity]; cbn [bind].
  - destruct (getitem a0 "codec"); [|reflexivity]. cbn [bind].
    destruct (items a0); [|reflexivity]. cbn [bind].
    now rewrite fold_audio_shift.
  - destruct (items a0); [|reflexivity]. cbn [bind].
    rewrite <- (app_nil_r cmd) at 1. now rewrite fold_audio_shift.
Qed.

(** The custom options go through [str] one by one, in the order given. *)
Lemma fold_options l : forall cmd,
  fold_left (fun c option => c ++ [VStr (str repr option)]) l cmd
  = cmd ++ map (fun option => VStr (str repr option)) l.
Proof.
  induction l as [|o l IH]; intro cmd; simpl.
  - now rewrite app_nil_r.
  - rewrite IH, <- app_assoc. reflexivity.
Qed.

Lemma add_ffmpeg_options_shift fp cmd :
  add_ffmpeg_options repr fp cmd
  = (E <- extra_flags repr fp ;; Ok (cmd ++ map VStr E)).
Proof.
  unfold add_ffmpeg_options, extra_flags.
  destruct (has_section fp "ffmpeg_options") as [[|]|]; cbn [bind];
    [| now rewrite app_nil_r | reflexivity].
  destruct (getitem fp "parameters"); [|reflexivity]. cbn [bind].
  destruct (getitem a "ffmpeg_options"); [|reflexivity]. cbn [bind].
  destruct (iter a0); [|reflexivity]. cbn [bind].
  now rewrite fold_options, map_map.
Qed.

(** *** Joining *)

Lemma all_strings_map l : all_strings (map VStr l) = Ok l.
Proof. induction l; simpl; [reflexivity|]. now rewrite IHl. Qed.

Lemma all_strings_inv l : forall s, all_strings l = Ok s -> l = map VStr s.
Proof.
  induction l as [|v l IH]; intros s H; simpl in H.
  - now injection H as <-.
  - destruct v; try discriminate. bind_inv H. injection H as <-.
    simpl. f_equal. now apply IH.
Qed.

Lemma map_VStr_app_inv (a b : list value) : forall s,
  a ++ b = map VStr s ->
  exists sa sb, a = map VStr sa /\ b = map VStr sb /\ s = sa ++ sb.
Proof.
  induction a as [|x a IH]; intros s H; simpl in H.
  - exists [], s. auto.
  - destruct s as [|y s]; [discriminate|]. simpl in H. injection H as -> H.
    destruct (IH _ H) as (sa & sb & -> & -> & ->).
    exists (y :: sa), sb. auto.
Qed.

(** *** Gating on the source's streams *)

Lemma any_stream_total kind kind' l :
  any_stream kind l = Ok false -> exists b, any_stream kind' l = Ok b.
Proof.
  induction l as [|stream l IH]; simpl; intro H; [eauto|].
  bind_inv H. destruct (eq_str a kind); [discriminate|]. cbn [bind].
  destruct (eq_str a kind'); eauto.
Qed.

Lemma has_stream_total kind kind' sm :
  has_stream kind sm = Ok false -> exists b, has_stream kind' sm = Ok b.
Proof.
  unfold has_stream. intro H. bind_inv H. bind_inv H. cbn [bind].
  rewrite E0. cbn [bind]. eapply any_stream_total; eauto.
Qed.

Lemma add_video_gate fp sm cmd cmd' :
  add_video repr fp sm cmd = Ok cmd' ->
  (has_stream "video" sm = Ok true /\ has_section fp "video" = Ok true)
  \/ cmd' = cmd.
Proof.
  unfold add_video. intro H. bind_inv H. bind_inv H.
  destruct a0.
  - left. destruct a; [auto | discriminate].
  - right. now injection H as <-.
Qed.

Lemma add_audio_gate fp sm cmd cmd' :
  add_audio repr fp sm cmd = Ok cmd' ->
  (has_stream "audio" sm = Ok true /\ has_section fp "audio" = Ok true)
  \/ cmd' = cmd.
Proof.
  unfold add_audio. intro H. bind_inv H. bind_inv H.
  destruct a0.
  - left. destruct a; [auto | discriminate].
  - right. now injection H as <-.
Qed.

(** C3.  The video block adds arguments only when the source has a video
    stream and the spec has a video section, the audio block only when the
    source has an audio stream and the spec has an audio section.  For a
    spec without a video section and a source without an audio stream the
    builder succeeds, and the command is the input, the caller's extra
    options, the container flag and the output: an audio flag
    (-c:a, -b:a, -ar, -ac) occurs in it only if the caller's own strings
    (paths, format, extra options) contain it. *)
Theorem audio_flags_need_audio_stream_and_section :
  (forall fp sm cmd cmd',
      add_video repr fp sm cmd = Ok cmd' -> cmd' <> cmd ->
      has_stream "video" sm = Ok true /\ has_section fp "video" = Ok true)
  /\
  (forall fp sm cmd cmd',
      add_audio repr fp sm cmd = Ok cmd' -> cmd' <> cmd ->
      has_stream "audio" sm = Ok true /\ has_section fp "audio" = Ok true)
  /\
  (forall src out fp sm P fmt,
      getitem fp "parameters" = Ok (VDict P) ->
      dict_mem "video" P = false ->
      has_stream "audio" sm = Ok false ->
      getitem fp "format" = Ok (VStr fmt) ->
      (forall opts, dict_get "ffmpeg_options" P = Some opts -> is_list opts = true) ->
      exists E cmd,
        extra_flags repr fp = Ok E /\
        build_ffmpeg_cmd repr src out fp sm = Ok cmd /\
        cmd = ["ffmpeg"; "-y"; "-i"; src] ++ E ++ format_flag fmt ++ [out] /\
        forall flag, In flag audio_flags -> In flag cmd ->
                     In flag (src :: fmt :: out :: E)).
Proof.
  split; [|split].
  - intros fp sm cmd cmd' H Hne.
    destruct (add_video_gate _ _ _ _ H); [assumption | contradiction].
  - intros fp sm cmd cmd' H Hne.
    destruct (add_audio_gate _ _ _ _ H); [assumption | contradiction].
  - intros src out fp sm P fmt Hpar Hnov Hnoa Hfmt Hopts.
    destruct (has_stream_total "audio" "video" sm Hnoa) as [hv Hhv].
    assert (HE : exists E, extra_flags repr fp = Ok E).
    { unfold extra_flags, has_section. rewrite Hpar. cbn [bind contains].
      unfold dict_mem. destruct (dict_get "ffmpeg_options" P) as [opts|] eqn:Eo;
        cbn [bind getitem]; [|eauto].
      rewrite Eo. cbn [bind]. specialize (Hopts _ eq_refl).
      destruct opts; try discriminate. cbn [iter bind]. eauto. }
    destruct HE as [E HE].
    exists E, (["ffmpeg"; "-y"; "-i"; src] ++ E ++ format_flag fmt ++ [out]).
    split; [exact HE|].
    assert (Hb : build_ffmpeg_cmd repr src out fp sm
                 = Ok (["ffmpeg"; "-y"; "-i"; src] ++ E ++ format_flag fmt ++ [out])).
    { unfold build_ffmpeg_cmd, add_video, add_audio.
      rewrite Hhv, Hnoa. cbn [bind].
      assert (Hv : (if hv then has_section fp "video" else Ok false) = Ok false).
      { destruct hv; [|reflexivity]. unfold has_section. rewrite Hpar.
        cbn [bind contains]. now rewrite Hnov. }
      rewrite Hv. cbn [bind].
      rewrite add_ffmpeg_options_shift, HE. cbn [bind].
      unfold add_output_format. rewrite Hfmt. cbn [bind truthy].
      unfold format_flag. destruct (String.eqb fmt ""); cbn [negb bind].
      - rewrite <- app_assoc.
        change ([VStr "ffmpeg"; VStr "-y"; VStr "-i"; VStr src]
                ++ map VStr E ++ [VStr out])
          with (map VStr ["ffmpeg"; "-y"; "-i"; src]
                ++ map VStr E ++ map VStr [out]).
        rewrite <- !map_app. apply all_strings_map.
      - rewrite <- !app_assoc.
        change ([VStr "ffmpeg"; VStr "-y"; VStr "-i"; VStr src]
                ++ map VStr E ++ [VStr "-f"; VStr fmt] ++ [VStr out])
          with (map VStr ["ffmpeg"; "-y"; "-i"; src]
                ++ map VStr E ++ map VStr ["-f"; fmt] ++ map VStr [out]).
        rewrite <- !map_app. apply all_strings_map. }
    split; [exact Hb|]. split; [reflexivity|].
    intros flag Hflag Hin.
    assert (Hnot : flag <> "ffmpeg" /\ flag <> "-y" /\ flag <> "-i" /\ flag <> "-f")
      by (unfold audio_flags in Hflag; simpl in Hflag;
          repeat split; intros ->; intuition discriminate).
    destruct Hnot as (N1 & N2 & N3 & N4).
    simpl in Hin. destruct Hin as [H|[H|[H|[H|Hin]]]];
      try (symmetry in H; contradiction); [simpl; auto|].
    apply in_app_or in Hin. destruct Hin as [Hin|Hin]; [simpl; auto|].
    apply in_app_or in Hin. destruct Hin as [Hin|Hin].
    + unfold format_flag in Hin. destruct (String.eqb fmt ""); simpl in Hin;
        [tauto|]. destruct Hin as [H|[H|[]]];
        [symmetry in H; contradiction | simpl; auto].
    + simpl in Hin. destruct Hin as [H|[]]. simpl; auto.
Qed.

(** *** Order of the blocks *)

(** C4 (amended).  The command is, in this order: the input, the video
    block, the audio block, the caller's extra options through [str] in
    the order given, then the container flag [-f format] when the format is
    not empty, then the output path.  The output path is the final
    argument; the extra options are the last flags only when the format is
    empty. *)
Theorem build_order_container_flag_after_extras src out fp sm cmd :
  build_ffmpeg_cmd repr src out fp sm = Ok cmd ->
  exists V A E F,
    cmd = ["ffmpeg"; "-y"; "-i"; src] ++ V ++ A ++ E ++ F ++ [out] /\
    add_video repr fp sm [] = Ok (map VStr V) /\
    add_audio repr fp sm [] = Ok (map VStr A) /\
    extra_flags repr fp = Ok E /\
    ((exists f, getitem fp "format" = Ok f /\ truthy f = false /\ F = [])
     \/ (exists fmt, getitem fp "format" = Ok (VStr fmt) /\ fmt <> ""
                     /\ F = ["-f"; fmt])).
Proof.
  unfold build_ffmpeg_cmd. cbv zeta. intro H.
  rewrite add_video_shift in H.
  destruct (add_video repr fp sm []) as [Vv|] eqn:EV; [|discriminate].
  cbn [bind] in H. rewrite add_audio_shift in H.
  destruct (add_audio repr fp sm []) as [Av|] eqn:EA; [|discriminate].
  cbn [bind] in H. rewrite add_ffmpeg_options_shift in H.
  destruct (extra_flags repr fp) as [E|] eqn:EE; [|discriminate].
  cbn [bind] in H. unfold add_output_format in H.
  destruct (getitem fp "format") as [f|] eqn:EF; [|discriminate].
  cbn [bind] in H.
  assert (Hsame : forall (x y : list string), map VStr x = map VStr y -> x = y).
  { induction x as [|x0 x IH]; intros [|y0 y] Hxy; try discriminate;
      [reflexivity|]. simpl in Hxy. injection Hxy as -> Hxy. f_equal. auto. }
  destruct (truthy f) eqn:Ht; cbn [bind] in H; apply all_strings_inv in H;
    rewrite <- !app_assoc in H;
    destruct cmd as [|c0 [|c1 [|c2 [|c3 cmd]]]]; try discriminate;
    cbn [map app] in H; injection H as <- <- <- <- H;
    destruct (map_VStr_app_inv _ _ _ H) as (V & r1 & -> & H1 & ->);
    destruct (map_VStr_app_inv _ _ _ H1) as (A & r2 & -> & H2 & ->);
    destruct (map_VStr_app_inv _ _ _ H2) as (E' & r3 & HE & H3 & ->);
    apply Hsame in HE; subst E'.
  - destruct r3 as [|f0 [|f1 [|o [|? ?]]]]; try discriminate.
    cbn [map app] in H3. injection H3 as <- Hf <-.
    exists V, A, E, ["-f"; f1]. repeat split; auto.
    right. exists f1. subst f. repeat split; auto.
    intros ->. discriminate.
  - destruct r3 as [|o [|? ?]]; try discriminate.
    cbn [map app] in H3. injection H3 as <-.
    exists V, A, E, []. repeat split; auto.
    left. exists f. auto.
Qed.

End WithRepr.

(** *** Concrete runs *)

Lemma audio_flags_witness :
  exists E cmd,
    extra_flags no_repr spec_audio_only = Ok E /\
    build_ffmpeg_cmd no_repr "in.mov" "out.mp3" spec_audio_only source_video_only
    = Ok cmd /\
    cmd = ["ffmpeg"; "-y"; "-i"; "in.mov"] ++ E ++ format_flag "mp3" ++ ["out.mp3"] /\
    forall flag, In flag audio_flags -> In flag cmd ->
                 In flag ("in.mov" :: "mp3" :: "out.mp3" :: E).
Proof.
  apply (proj2 (proj2 (audio_flags_need_audio_stream_and_section no_repr)))
    with (P := [("audio", VDict [("codec", VStr "libmp3lame");
                                 ("bitrate", VStr "192k")])]).
  - reflexivity.
  - reflexivity.
  - reflexivity.
  - reflexivity.
  - intros opts H. vm_compute in H. discriminate.
Defined.

Lemma spec_with_extras_resolved :
  _prepare_format_parameters target_with_extras "web" = Ok spec_with_extras.
Proof. vm_compute. reflexivity. Qed.

(** C4, as stated, fails: the builder's own [-f mp4] comes after the
    caller's extra flags, which therefore are not the last flags before the
    output path. *)
Lemma container_flag_follows_extra_flags :
  build_ffmpeg_cmd no_repr "in.mov" "out.mp4" spec_with_extras source_av
  = Ok cmd_with_extras
  /\ ~ (exists pre, cmd_with_extras = pre ++ ["-threads"; "2"] ++ ["out.mp4"]).
Proof.
  split; [vm_compute; reflexivity|].
  intros [pre H]. apply (f_equal (@rev string)) in H.
  rewrite rev_app_distr in H. vm_compute in H. discriminate.
Qed.

Lemma build_order_witness :
  exists V A E F,
    cmd_with_extras = ["ffmpeg"; "-y"; "-i"; "in.mov"] ++ V ++ A ++ E ++ F ++ ["out.mp4"] /\
    add_video no_repr spec_with_extras source_av [] = Ok (map VStr V) /\
    add_audio no_repr spec_with_extras source_av [] = Ok (map VStr A) /\
    extra_flags no_repr spec_with_extras = Ok E /\
    ((exists f, getitem spec_with_extras "format" = Ok f /\ truthy f = false /\ F = [])
     \/ (exists fmt, getitem spec_with_extras "format" = Ok (VStr fmt) /\ fmt <> ""
                     /\ F = ["-f"; fmt])).
Proof.
  apply (build_order_container_flag_after_extras no_repr).
  vm_compute. reflexivity.
Defined.

(** *** vp9 and av1 *)

(** C5, as stated, fails on this builder: for codec vp9 and a source with a
    video stream the command has the CRF flags and no [-b:v] at all. *)
Lemma vp9_command_has_no_forced_bitrate :
  (fp <- _prepare_format_parameters target_vp9 "web" ;;
   build_ffmpeg_cmd no_repr "in.mov" "out.webm" fp source_av) = Ok cmd_vp9
  /\ ~ In "-b:v" cmd_vp9.
Proof.
  split; [vm_compute; reflexivity|].
  unfold cmd_vp9. simpl. intuition discriminate.
Qed.

Section ForcedBitrate.

Variable repr : value -> string.

Lemma video_param_args_bitrate fp codec key v rest :
  video_param_args repr fp codec key v = Ok (VStr "-b:v" :: rest) ->
  key = "bitrate" /\ rest = [VStr (str repr v)].
Proof.
  unfold video_param_args. intro H.
  repeat match type of H with
         | (if ?b then _ else _) = Ok _ =>
             let E := fresh "E" in
             destruct b eqn:E; [try discriminate H|]
         end; try discriminate H.
  - injection H as <-. split; [now apply String.eqb_eq | reflexivity].
  - bind_inv H.
    destruct (eq_str a "mp4" || (eq_str a "mov" || false))%bool; discriminate.
Qed.

(** C5 (amended).  In [src/normalizer.py] a video section whose codec is
    "vp9" or "av1" puts the CRF flags (the section's [crf], 30 when it has
    none) and the forced pair [-b:v 0] in the command.  In
    [format_normalizer/normalizer.py] the codecs select the encoders
    libvpx-vp9 and libaom-av1, and an entry of the video section yields
    [-b:v] only when its key is "bitrate", with that entry's value: no
    pair is forced. *)
Theorem forced_zero_bitrate_for_vp9_av1 :
  (forall config input out ep pm cmd vp c,
      SN._build_ffmpeg_command repr config input out ep pm = Ok cmd ->
      get ep "video" (VDict []) = Ok vp ->
      get vp "codec" VNone = Ok (VStr c) ->
      c = "vp9" \/ c = "av1" ->
      exists crf pre post,
        get vp "crf" (VInt 30) = Ok crf /\
        cmd = pre ++ [VStr "-crf"; VStr (str repr crf); VStr "-b:v"; VStr "0"] ++ post)
  /\
  video_codec_args (VStr "vp9") = [VStr "-c:v"; VStr "libvpx-vp9"] /\
  video_codec_args (VStr "av1") = [VStr "-c:v"; VStr "libaom-av1"] /\
  (forall fp codec key v rest,
      video_param_args repr fp codec key v = Ok (VStr "-b:v" :: rest) ->
      key = "bitrate" /\ rest = [VStr (str repr v)]).
Proof.
  split; [|split; [reflexivity|split; [reflexivity|]]].
  - intros config input out ep pm cmd vp c H Hvp Hc Hcodec.
    unfold SN._build_ffmpeg_command in H. cbv zeta in H.
    bind_inv H. rewrite Hvp in H. cbn [bind] in H.
    destruct (SN.video_args repr vp) as [va|] eqn:Eva; [|discriminate].
    cbn [bind] in H. bind_inv H. bind_inv H. injection H as <-.
    assert (Hva : exists crf, get vp "crf" (VInt 30) = Ok crf /\
              va = [VStr "-c:v"; VStr c]
                   ++ [VStr "-crf"; VStr (str repr crf); VStr "-b:v"; VStr "0"]).
    { unfold SN.video_args in Eva.
      destruct (truthy vp) eqn:Etr.
      - rewrite Hc in Eva. cbn [bind] in Eva.
        destruct Hcodec as [-> | ->].
        + change (eq_str (VStr "vp9") "h264") with false in Eva.
          change (eq_str (VStr "vp9") "h265") with false in Eva.
          change (eq_str (VStr "vp9") "prores") with false in Eva.
          change (eq_str (VStr "vp9") "vp9") with true in Eva.
          cbn [orb truthy] in Eva.
          bind_inv Eva. exists a2. split; [reflexivity|].
          now injection Eva as <-.
        + change (eq_str (VStr "av1") "h264") with false in Eva.
          change (eq_str (VStr "av1") "h265") with false in Eva.
          change (eq_str (VStr "av1") "prores") with false in Eva.
          change (eq_str (VStr "av1") "vp9") with false in Eva.
          change (eq_str (VStr "av1") "av1") with true in Eva.
          cbn [orb truthy] in Eva.
          bind_inv Eva. exists a2. split; [reflexivity|].
          now injection Eva as <-.
      - destruct vp; try discriminate. destruct d; [|discriminate].
        simpl in Hc. discriminate. }
    destruct Hva as (crf & Hcrf & ->).
    exists crf.
    exists ((if truthy a
             then [VStr "ffmpeg"; VStr "-y"; VStr "-i"; VStr input]
                  ++ [VStr "-hwaccel"; VStr "auto"]
             else [VStr "ffmpeg"; VStr "-y"; VStr "-i"; VStr input])
            ++ [VStr "-c:v"; VStr c]).
    exists (a1 ++ (if pm then [VStr "-map_metadata"; VStr "0"] else [])
            ++ [VStr out]).
    split; [exact Hcrf|].
    destruct pm; rewrite <- ?app_assoc; [reflexivity|].
    cbn [app]. reflexivity.
  - exact video_param_args_bitrate.
Qed.

End ForcedBitrate.

Lemma forced_zero_bitrate_witness :
  exists crf pre post,
    get (VDict [("codec", VStr "vp9"); ("crf", VInt 31)]) "crf" (VInt 30) = Ok crf /\
    [VStr "ffmpeg"; VStr "-y"; VStr "-i"; VStr "in.mov";
     VStr "-c:v"; VStr "vp9"; VStr "-crf"; VStr "31"; VStr "-b:v"; VStr "0";
     VStr "-c:a"; VStr "opus"; VStr "-b:a"; VStr "128k";
     VStr "-map_metadata"; VStr "0"; VStr "out.webm"]
    = pre ++ [VStr "-crf"; VStr (str no_repr crf); VStr "-b:v"; VStr "0"] ++ post.
Proof.
  apply (proj1 (forced_zero_bitrate_for_vp9_av1 no_repr))
    with (config := VDict []) (input := "in.mov") (out := "out.webm")
         (ep := encoding_vp9) (pm := true) (c := "vp9").
  - vm_compute. reflexivity.
  - reflexivity.
  - reflexivity.
  - now left.
Defined.

End BuilderProps.

(** ** The output validator *)

Module ValidatorProps.

Import Statements Scenarios.
Import DictFacts.
Import FN.
Import ResolverProps.

Lemma records_zero_size_bind {A} (m : VM A) (k : A -> VM unit) :
  (forall a, records_zero_size (k a)) -> records_zero_size (vbind m k).
Proof.
  intros Hk v. unfold vbind. destruct (m v) as [v' [a|e]]; [|exact I].
  apply Hk.
Qed.

Lemma only_appends_lift {A} (r : result A) : only_appends (lift r).
Proof. intro v. exists []. simpl. now rewrite app_nil_r. Qed.

Lemma only_appends_ret {A} (a : A) : only_appends (vret a).
Proof. intro v. exists []. simpl. now rewrite app_nil_r. Qed.

Lemma only_appends_note msg : only_appends (note msg).
Proof. intro v. exists [msg]. simpl. auto. Qed.

Lemma only_appends_fail msg : only_appends (fail msg).
Proof. intro v. exists [msg]. simpl. auto. Qed.

Lemma only_appends_bind {A B} (m : VM A) (k : A -> VM B) :
  only_appends m -> (forall a, only_appends (k a)) -> only_appends (vbind m k).
Proof.
  intros Hm Hk v. unfold vbind. destruct (Hm v) as (e1 & Hi1 & Hp1).
  destruct (m v) as [v' [a|e]]; simpl in *.
  - destruct (Hk a v') as (e2 & Hi2 & Hp2).
    exists (e1 ++ e2). rewrite Hi2, Hi1, app_assoc. auto.
  - exists e1. auto.
Qed.

Lemma only_appends_if {A} (b : bool) (m1 m2 : VM A) :
  only_appends m1 -> only_appends m2 -> only_appends (if b then m1 else m2).
Proof. now destruct b. Qed.

Ltac appends :=
  repeat first
    [ apply only_appends_bind; [|intro]
    | apply only_appends_if
    | apply only_appends_lift
    | apply only_appends_ret
    | apply only_appends_note
    | apply only_appends_fail ].

Section WithFormats.

Variable format_f : nat -> Q -> string.
Variable format_pct : nat -> Q -> string.

Lemma check_duration_only_appends sm om :
  only_appends (check_duration format_f sm om).
Proof. unfold check_duration. appends. Qed.

Lemma check_size_only_appends sm om :
  only_appends (check_size format_pct sm om).
Proof. unfold check_size. appends. Qed.

Lemma check_format_only_appends om tf : only_appends (check_format om tf).
Proof. unfold check_format. appends. Qed.

Lemma check_video_codec_only_appends hv om tf :
  only_appends (check_video_codec hv om tf).
Proof. unfold check_video_codec. appends. Qed.

Lemma check_audio_codec_only_appends om tf :
  only_appends (check_audio_codec om tf).
Proof. unfold check_audio_codec. appends. Qed.

Lemma check_resolution_only_appends hv sm om :
  only_appends (check_resolution format_f hv sm om).
Proof. unfold check_resolution. appends. Qed.

(** Issues are append-only and a failed verdict stays failed through the
    whole [try] body. *)
Lemma validate_checks_only_appends sm om tf :
  only_appends (validate_checks format_f format_pct sm om tf).
Proof.
  unfold validate_checks.
  apply only_appends_bind; [apply check_format_only_appends|intro].
  apply only_appends_bind; [apply only_appends_lift|intro].
  apply only_appends_bind; [apply check_video_codec_only_appends|intro].
  apply only_appends_bind; [apply check_audio_codec_only_appends|intro].
  apply only_appends_bind; [apply check_resolution_only_appends|intro].
  apply only_appends_bind; [apply check_size_only_appends|intro].
  apply check_duration_only_appends.
Qed.

(** *** Zero-size output in [format_normalizer] *)

Lemma size_then_duration_records_zero_size sm om x n :
  format_field om "size" (VInt 0) = Ok x -> int x = Ok n -> n <= 0 ->
  records_zero_size (check_size format_pct sm om ;;; check_duration format_f sm om).
Proof.
  intros Hx Hn Hle v. unfold vbind, check_size at 1. unfold vbind at 1, lift at 1.
  destruct (x0 <- format_field sm "size" (VInt 0) ;; int x0) as [ss|e]; [|exact I].
  unfold vbind at 1, lift at 1. rewrite Hx. cbn [bind]. rewrite Hn.
  destruct (Z.leb_spec n 0) as [_|Hgt]; [|lia].
  unfold fail.
  destruct (check_duration_only_appends sm om
              {| passed := false; issues := issues v ++ [zero_size_issue] |})
    as (extra & Hi & Hp).
  fold zero_size_issue.
  destruct (check_duration format_f sm om _) as [v' [u|e]]; [|exact I].
  simpl in Hi, Hp. split; [auto|].
  rewrite Hi. apply in_or_app. left. apply in_or_app. right. now left.
Qed.

Lemma validate_checks_records_zero_size sm om tf x n :
  format_field om "size" (VInt 0) = Ok x -> int x = Ok n -> n <= 0 ->
  records_zero_size (validate_checks format_f format_pct sm om tf).
Proof.
  intros Hx Hn Hle. unfold validate_checks.
  do 5 (apply records_zero_size_bind; intro).
  eapply size_then_duration_records_zero_size; eauto.
Qed.

Lemma zero_size_fails_validation sm om tf x n :
  format_field om "size" (VInt 0) = Ok x -> int x = Ok n -> n <= 0 ->
  passed (_validate_output format_f format_pct sm om tf) = false /\
  (In zero_size_issue (issues (_validate_output format_f format_pct sm om tf))
   \/ exists e, In ("Validation error: " ++ exn_str e)%string
                   (issues (_validate_output format_f format_pct sm om tf))).
Proof.
  intros Hx Hn Hle. unfold _validate_output.
  pose proof (validate_checks_records_zero_size sm om tf x n Hx Hn Hle fresh) as H.
  unfold fresh in H.
  destruct (validate_checks format_f format_pct sm om tf _) as [v [u|e]].
  - destruct H. auto.
  - split; [reflexivity|]. right. exists e. simpl.
    apply in_or_app. right. now left.
Qed.

(** C7 (amended).  In [src/normalizer.py] a missing output file, and an
    existing one of size zero, make the validator return at once with
    passed=false and that single issue, whatever the descriptor and the
    parameters are.  In [format_normalizer/normalizer.py] an output size
    that reads as zero or less always ends in passed=false, with the
    zero-size issue on record or else a validation error; the check is not
    a short circuit: the container, codec and resolution checks run before
    it and the duration check after it. *)
Theorem zero_size_output_fails_validation :
  (forall repr size output_info encoding_params,
      SN._validate_output repr false size output_info encoding_params
      = Ok {| passed := false; issues := ["Output file does not exist"] |})
  /\
  (forall repr output_info encoding_params,
      SN._validate_output repr true 0 output_info encoding_params
      = Ok {| passed := false; issues := ["Output file is empty"] |})
  /\
  (forall sm om tf x n,
      format_field om "size" (VInt 0) = Ok x -> int x = Ok n -> n <= 0 ->
      passed (_validate_output format_f format_pct sm om tf) = false /\
      (In zero_size_issue (issues (_validate_output format_f format_pct sm om tf))
       \/ exists e, In ("Validation error: " ++ exn_str e)%string
                       (issues (_validate_output format_f format_pct sm om tf)))).
Proof.
  split; [reflexivity|]. split; [reflexivity|].
  exact zero_size_fails_validation.
Qed.

(** *** Exceptions inside the checks *)

(** C10.  The validator returns a record for every source descriptor,
    output descriptor and target mapping.  When nothing raises inside the
    checks the record is the one the checks built; when a check raises, the
    record keeps what was noted before, its verdict is failed, and its last
    issue is "Validation error: " followed by the text of the exception. *)
Theorem validate_output_catches_every_exception sm om tf :
  exists v r,
    validate_checks format_f format_pct sm om tf fresh = (v, r) /\
    match r with
    | Ok _ => _validate_output format_f format_pct sm om tf = v
    | Raise e =>
        _validate_output format_f format_pct sm om tf
        = {| passed := false;
             issues := issues v ++ [("Validation error: " ++ exn_str e)%string] |}
    end.
Proof.
  unfold _validate_output, fresh.
  destruct (validate_checks format_f format_pct sm om tf _) as [v [u|e]];
    eexists _, _; split; reflexivity.
Qed.

(** *** Codec names *)

(** The video check knows the requested codecs h264 and h265 only: for any
    other request it records nothing, whatever the output's codec is. *)
Lemma video_codec_check_ignores_other_requests hv om tf expected v :
  (c <- get tf "codec" (VStr "") ;; lower c) = Ok expected ->
  expected <> "h264" -> expected <> "h265" ->
  fst (check_video_codec hv om tf v) = v.
Proof.
  intros He H4 H5. unfold check_video_codec.
  destruct hv; [|reflexivity].
  unfold vbind at 1, lift at 1.
  destruct (find_stream "video" om) as [vs|]; [|reflexivity].
  destruct (truthy vs); [|reflexivity].
  unfold vbind at 1, lift at 1.
  destruct (codec_name_lower vs) as [oc|]; [|reflexivity].
  unfold vbind at 1, lift at 1. rewrite He.
  destruct (String.eqb_spec expected "h264"); [contradiction|].
  destruct (String.eqb_spec expected "h265"); [contradiction|].
  reflexivity.
Qed.

(** The aliases the checks do know. *)
Lemma libx264_matches_h264 om tf stream v :
  find_stream "video" om = Ok stream -> truthy stream = true ->
  codec_name_lower stream = Ok "libx264" ->
  (c <- get tf "codec" (VStr "") ;; lower c) = Ok "h264" ->
  check_video_codec true om tf v = (v, Ok tt).
Proof.
  intros Hs Ht Hc He. unfold check_video_codec, vbind, lift.
  rewrite Hs, Ht, Hc, He. reflexivity.
Qed.

Lemma aac_lc_matches_aac om tf stream v :
  has_stream "audio" om = Ok true -> has_section tf "audio" = Ok true ->
  find_stream "audio" om = Ok stream -> truthy stream = true ->
  codec_name_lower stream = Ok "aac_lc" ->
  (parameters <- getitem tf "parameters" ;;
   audio <- getitem parameters "audio" ;;
   c <- get audio "codec" (VStr "") ;;
   lower c) = Ok "aac" ->
  check_audio_codec om tf v = (v, Ok tt).
Proof.
  intros Ha Hsec Hs Ht Hc He. unfold check_audio_codec, vbind, lift.
  rewrite Ha, Hsec, Hs, Ht, Hc, He. reflexivity.
Qed.

End WithFormats.

(** *** Concrete runs *)

(** C6 (the code at the claim's mismatch).  For a spec that requests vp9
    and an output whose video stream is vp8 the validator records no issue
    and the verdict stays passed. *)
Theorem vp8_output_passes_vp9_request :
  (fp <- _prepare_format_parameters target_vp9 "web" ;;
   Ok (_validate_output fixed percent source_probe vp8_output_probe fp))
  = Ok {| passed := true; issues := [] |}.
Proof. vm_compute. reflexivity. Qed.

(** C7, as stated, fails on this validator: the container check has run
    before the zero-size check and the duration check runs after it, so the
    fatal issue is neither the only one nor the last. *)
Lemma zero_size_check_is_no_short_circuit :
  _validate_output fixed percent source_probe empty_output_probe spec_mp4
  = {| passed := false;
       issues := ["Expected format mp4, got webm";
                  "Output file has zero size";
                  "Duration changed by 100.0% (100.00s -> 0.00s)"] |}.
Proof. vm_compute. reflexivity. Qed.

Lemma zero_size_output_witness :
  passed (_validate_output fixed percent source_probe empty_output_probe spec_mp4)
  = false /\
  (In zero_size_issue
      (issues (_validate_output fixed percent source_probe
                 empty_output_probe spec_mp4))
   \/ exists e, In ("Validation error: " ++ exn_str e)%string
                   (issues (_validate_output fixed percent source_probe
                              empty_output_probe spec_mp4))).
Proof.
  apply (proj2 (proj2 (zero_size_output_fails_validation fixed percent)))
    with (x := VStr "0") (n := 0).
  - reflexivity.
  - reflexivity.
  - lia.
Defined.

Example missing_parameters_key_is_reported :
  _validate_output fixed percent source_probe audio_output_probe
    (VDict [("format", VStr "mp4")])
  = {| passed := false; issues := ["Validation error: 'parameters'"] |}.
Proof. vm_compute. reflexivity. Qed.

Example non_numeric_size_is_reported :
  _validate_output fixed percent source_probe
    (VDict [("format", VDict [("format_name", VStr "webm"); ("size", VStr "N/A")])])
    spec_mp4
  = {| passed := false;
       issues := ["Expected format mp4, got webm";
                  "Validation error: invalid literal for int() with base 10: 'N/A'"] |}.
Proof. vm_compute. reflexivity. Qed.

End ValidatorProps.

(** ** The pipeline *)

Module PipelineProps.

Import Statements Scenarios.
Import FN.
Import ResolverProps.

Section WithText.

Variable repr : value -> string.
Variable format_f : nat -> Q -> string.
Variable format_pct : nat -> Q -> string.





End WithText.



End PipelineProps.

(** ** Decimal numerals *)

Module NumberFacts.

Import Statements Scenarios.

Lemma uint_chars_are_digits d :
  all_chars is_digit (NilEmpty.string_of_uint d) = true.
Proof. induction d; simpl; auto. Qed.

(** The numeral of a non-negative integer is a non-empty run of digits
    that reads back as the integer. *)
Lemma str_of_Z_nonneg n :
  0 <= n ->
  exists c rest,
    str_of_Z n = String c rest /\
    all_chars is_digit (String c rest) = true /\
    digits_to_Z (String c rest) = Some n.
Proof.
  intro Hn. unfold str_of_Z. destruct n as [|p|p]; [| |lia].
  - exists "0"%char, "". repeat split.
  - cbn [Z.to_int NilZero.string_of_int].
    pose proof (DecimalPos.Unsigned.to_uint_nonnil p) as Hnil.
    pose proof (DecimalPos.Unsigned.of_to p) as Hof.
    set (d := Pos.to_uint p) in *. clearbody d.
    assert (Hs : NilZero.string_of_uint d = NilEmpty.string_of_uint d)
      by (destruct d; [contradiction|..]; reflexivity).
    rewrite Hs.
    destruct (NilEmpty.string_of_uint d) as [|c rest] eqn:Es.
    + destruct d; simpl in Es; try discriminate; try contradiction.
    + exists c, rest. split; [reflexivity|]. split.
      * rewrite <- Es. apply uint_chars_are_digits.
      * unfold digits_to_Z. rewrite <- Hs, NilZero.usu by assumption.
        unfold Z.of_uint. now rewrite Hof.
Qed.

Lemma digit_facts c :
  is_digit c = true ->
  is_space c = false /\ Ascii.eqb c "/" = false /\ Ascii.eqb c "k" = false /\
  Ascii.eqb c "-" = false /\ Ascii.eqb c "+" = false.
Proof.
  destruct c as [[|] [|] [|] [|] [|] [|] [|] [|]]; vm_compute; intro H;
    try discriminate H; repeat split.
Qed.

Lemma split_digits s :
  all_chars is_digit s = true -> split_char "/" s = [s].
Proof.
  induction s as [|c s IH]; [reflexivity|]. simpl. intro H.
  apply andb_prop in H. destruct H as [Hc Hs].
  destruct (digit_facts c Hc) as (_ & -> & _). now rewrite IH.
Qed.

Lemma split_fraction a b :
  all_chars is_digit a = true -> all_chars is_digit b = true ->
  split_char "/" (a ++ String "/" b) = [a; b].
Proof.
  intros Ha Hb. induction a as [|c a IH].
  - simpl. now rewrite split_digits.
  - simpl in Ha. apply andb_prop in Ha. destruct Ha as [Hc Ha].
    simpl. destruct (digit_facts c Hc) as (_ & -> & _). now rewrite IH.
Qed.

Lemma rstrip_digits s : all_chars is_digit s = true -> rstrip s = s.
Proof.
  induction s as [|c s IH]; [reflexivity|]. simpl. intro H.
  apply andb_prop in H. destruct H as [Hc Hs].
  rewrite IH by assumption. destruct (digit_facts c Hc) as (-> & _).
  now destruct s.
Qed.

Lemma strip_digits s : all_chars is_digit s = true -> strip s = s.
Proof.
  intro H. unfold strip.
  assert (Hl : lstrip s = s).
  { destruct s as [|c s]; [reflexivity|]. simpl in *.
    apply andb_prop in H. destruct H as [Hc _].
    now destruct (digit_facts c Hc) as (-> & _). }
  rewrite Hl. now apply rstrip_digits.
Qed.

(** [int] reads back the numeral of a non-negative integer. *)
Lemma int_of_numeral n : 0 <= n -> int (VStr (str_of_Z n)) = Ok n.
Proof.
  intro Hn. destruct (str_of_Z_nonneg n Hn) as (c & rest & Hs & Hd & Hz).
  unfold int, parse_int. rewrite Hs, (strip_digits _ Hd).
  simpl in Hd. apply andb_prop in Hd. destruct Hd as [Hc _].
  assert (Hm : c <> "-"%char /\ c <> "+"%char).
  { destruct (digit_facts c Hc) as (_ & _ & _ & Hminus & Hplus).
    split; intros ->; discriminate. }
  destruct Hm as [Hminus Hplus].
  assert (Hp : match String c rest with
               | String "-" r => option_map Z.opp (digits_to_Z r)
               | String "+" r => digits_to_Z r
               | t => digits_to_Z t
               end = digits_to_Z (String c rest)).
  { destruct c as [[|] [|] [|] [|] [|] [|] [|] [|]]; try reflexivity;
      exfalso; auto. }
  rewrite Hp, Hz. reflexivity.
Qed.

(** *** A numeral followed by three zeros *)

Lemma of_uint_acc_thousandfold d : forall acc,
  Pos.of_uint_acc (thousandfold d) acc = (1000 * Pos.of_uint_acc d acc)%positive.
Proof.
  induction d; intro acc; simpl; try apply IHd. lia.
Qed.

Lemma of_uint_thousandfold d :
  Z.of_uint (thousandfold d) = Z.of_uint d * 1000.
Proof.
  unfold Z.of_uint.
  induction d; simpl; try rewrite of_uint_acc_thousandfold;
    try reflexivity; try lia.
Qed.

Lemma uint_of_string_thousandfold s : forall d,
  NilEmpty.uint_of_string s = Some d ->
  NilEmpty.uint_of_string (s ++ "000")%string = Some (thousandfold d).
Proof.
  induction s as [|c s IH]; intros d H.
  - simpl in H. injection H as <-. reflexivity.
  - simpl in H. simpl.
    destruct (NilEmpty.uint_of_string s) as [d0|]; [|discriminate].
    rewrite (IH d0 eq_refl).
    destruct (uint_of_char_spec _ _ _ H) as
      [[-> ->]|[[-> ->]|[[-> ->]|[[-> ->]|[[-> ->]|[[-> ->]|[[-> ->]|[[-> ->]|
       [[-> ->]|[-> ->]]]]]]]]]]; reflexivity.
Qed.

Lemma all_chars_app P a b :
  all_chars P (a ++ b)%string = (all_chars P a && all_chars P b)%bool.
Proof.
  induction a as [|c a IH]; simpl; [reflexivity|].
  now rewrite IH, andb_assoc.
Qed.

Lemma replace_unit_suffix s :
  all_chars is_digit s = true ->
  replace_char "k" "000" (s ++ "k")%string = (s ++ "000")%string.
Proof.
  induction s as [|c s IH]; [reflexivity|]. simpl. intro H.
  apply andb_prop in H. destruct H as [Hc Hs].
  destruct (digit_facts c Hc) as (_ & _ & -> & _). now rewrite IH.
Qed.

(** [int] on a non-negative numeral followed by three zeros. *)
Lemma int_of_numeral_000 n :
  0 <= n -> int (VStr (str_of_Z n ++ "000")%string) = Ok (n * 1000).
Proof.
  intro Hn. destruct (str_of_Z_nonneg n Hn) as (c & rest & Hs & Hd & Hz).
  assert (Hd' : all_chars is_digit (String c rest ++ "000")%string = true)
    by (rewrite all_chars_app, Hd; reflexivity).
  unfold int, parse_int. rewrite Hs, (strip_digits _ Hd').
  simpl in Hd. apply andb_prop in Hd. destruct Hd as [Hc _].
  assert (Hm : c <> "-"%char /\ c <> "+"%char).
  { destruct (digit_facts c Hc) as (_ & _ & _ & Hminus & Hplus).
    split; intros ->; discriminate. }
  destruct Hm as [Hminus Hplus].
  assert (Hp : match (String c rest ++ "000")%string with
               | String "-" r => option_map Z.opp (digits_to_Z r)
               | String "+" r => digits_to_Z r
               | t => digits_to_Z t
               end = digits_to_Z (String c rest ++ "000")%string).
  { cbn [append].
    destruct c as [[|] [|] [|] [|] [|] [|] [|] [|]]; try reflexivity;
      exfalso; auto. }
  rewrite Hp.
  unfold digits_to_Z in *. cbn [append NilZero.uint_of_string] in *.
  destruct (NilEmpty.uint_of_string (String c rest)) as [d|] eqn:Ed;
    [|discriminate].
  injection Hz as Hz.
  change (String c (rest ++ "000")) with (String c rest ++ "000")%string.
  rewrite (uint_of_string_thousandfold _ _ Ed), of_uint_thousandfold, Hz.
  reflexivity.
Qed.

End NumberFacts.

(** ** The buffer size of strategy "CBR" *)

Module RateControlProps.

Import Statements Scenarios.
Import NumberFacts.
Import FN.

(** For every bitrate of [n] thousand, written with the unit suffix, the
    derived buffer size is [2000 n] thousand: the suffix is counted twice. *)
Lemma cbr_bufsize_counts_unit_twice n :
  0 <= n ->
  cbr_bufsize (VStr (str_of_Z n ++ "k")%string)
  = Ok (VStr (str_of_Z (n * 1000 * 2) ++ "k")%string).
Proof.
  intro Hn. destruct (str_of_Z_nonneg n Hn) as (c & rest & Hs & Hd & _).
  unfold cbr_bufsize, replace. cbn [bind].
  rewrite Hs, (replace_unit_suffix _ Hd), <- Hs.
  rewrite (int_of_numeral_000 n Hn). reflexivity.
Qed.

End RateControlProps.

(** ** Frame rates *)

Module FrameRateProps.

Import Statements Scenarios.
Import NumberFacts.
Import FNN.

(** On a well-formed fraction of a non-negative numerator and a positive
    denominator the frame rate is their quotient. *)
Lemma frame_rate_of_fraction stream n d :
  dict_get "r_frame_rate" stream
  = Some (VStr (str_of_Z n ++ String "/" (str_of_Z d))) ->
  0 <= n -> 0 < d ->
  _calculate_frame_rate (VDict stream) = Ok (inject_Z n / inject_Z d)%Q.
Proof.
  intros Hget Hn Hd.
  destruct (str_of_Z_nonneg n Hn) as (c1 & r1 & Hs1 & Hd1 & _).
  destruct (str_of_Z_nonneg d (Z.lt_le_incl _ _ Hd)) as (c2 & r2 & Hs2 & Hd2 & _).
  unfold _calculate_frame_rate, rate_field. cbn [contains bind getitem].
  unfold dict_mem. rewrite Hget. cbn [bind].
  unfold rate_of, split. cbn [bind].
  rewrite split_fraction by (rewrite ?Hs1, ?Hs2; assumption).
  rewrite !int_of_numeral by lia. cbn [bind].
  destruct (Z.ltb_spec 0 d); [|lia]. reflexivity.
Qed.

(** A fraction without a slash, or with a zero denominator, falls through
    to [avg_frame_rate] and, without one, to 0. *)
Example frame_rate_missing_slash :
  _calculate_frame_rate (VDict [("r_frame_rate", VStr "30")]) = Ok 0%Q.
Proof. reflexivity. Qed.

Example frame_rate_zero_denominator :
  _calculate_frame_rate (VDict [("r_frame_rate", VStr "30/0")]) = Ok 0%Q.
Proof. reflexivity. Qed.

Example frame_rate_falls_back_to_average :
  _calculate_frame_rate (VDict [("r_frame_rate", VStr "0/0");
                                ("avg_frame_rate", VStr "25/1")])
  = Ok (25 # 1)%Q.
Proof. reflexivity. Qed.

(** In [src/normalizer.py] the probe's frame-rate text is handed to [eval]
    as it is: the entry is whatever running that text yields or raises. *)
Lemma fps_is_eval_of_probe_text eval stream text :
  dict_get "r_frame_rate" stream = Some (VStr text) ->
  SN.fps eval (VDict stream) = eval text.
Proof. intro H. unfold SN.fps. cbn [get bind]. now rewrite H. Qed.

(** C9 (the code on malformed parts).  A fraction whose denominator or
    numerator is not a number makes the calculation raise [ValueError]: the
    conversions by [int] are not guarded, so the result is not 0. *)
Theorem frame_rate_raises_on_non_numeric_parts :
  _calculate_frame_rate (VDict [("r_frame_rate", VStr "30/x")])
  = Raise (ValueError "invalid literal for int() with base 10: 'x'")
  /\
  _calculate_frame_rate (VDict [("r_frame_rate", VStr "abc/1")])
  = Raise (ValueError "invalid literal for int() with base 10: 'abc'")
  /\
  _calculate_frame_rate (VDict [("r_frame_rate", VInt 30)])
  = Raise (AttributeError "'int' object has no attribute 'split'").
Proof. repeat split. Qed.

End FrameRateProps.

(* ================================================================== *)
(** * Further properties of the code                                   *)
(* ================================================================== *)

(** ** The resolver: [_prepare_format_parameters] *)

Module ResolutionProps.
Import Statements Scenarios.
Import DictFacts.
Import FN.
Import ResolverProps.

Lemma lower_ascii_idem c : lower_ascii (lower_ascii c) = lower_ascii c.
Proof. destruct c as [[] [] [] [] [] [] [] []]; reflexivity. Qed.

Lemma lower_string_idem s : lower_string (lower_string s) = lower_string s.
Proof.
  induction s as [|c s IH]; simpl; [reflexivity|].
  now rewrite lower_ascii_idem, IH.
Qed.

Lemma assoc_in k l c : assoc k l = Some c -> In c (map snd l).
Proof.
  induction l as [|[k' v] l IH]; simpl; [discriminate|].
  destruct (String.eqb k k'); [intros [= ->]; now left | auto].
Qed.

Lemma default_codec_nonempty ft : _get_default_codec ft <> "".
Proof.
  unfold _get_default_codec.
  destruct (assoc (lower_string ft) format_codec_map) as [c|] eqn:E; [|discriminate].
  apply assoc_in in E. simpl in E.
  repeat (destruct E as [<-|E]; [discriminate|]). destruct E.
Qed.

Lemma merge_keeps_mapping name overrides : forall params result x,
  merge_parameters params overrides = Ok result ->
  dict_get name params = Some (VDict x) ->
  exists y, dict_get name result = Some (VDict y).
Proof.
  unfold merge_parameters.
  induction overrides as [|[k v] rest IH]; intros params result x H Hx.
  - simpl in H. injection H as <-. eauto.
  - change (fold_left merge_section rest (merge_section (Ok params) (k, v)) = Ok result) in H.
    destruct (merge_section (Ok params) (k, v)) as [p1|e] eqn:E;
      [|rewrite fold_merge_raise in H; discriminate].
    apply merge_section_inv in E. destruct E as (x1 & -> & Hnew & Hold).
    destruct (String.eqb name k) eqn:Ek.
    + apply String.eqb_eq in Ek. subst k.
      specialize (Hold _ Hx). destruct v; simpl in Hold; try discriminate.
      injection Hold as <-.
      eapply (IH _ _ _ H). apply dict_get_set_same.
    + apply String.eqb_neq in Ek.
      eapply (IH _ _ x H). rewrite dict_get_set_other; assumption.
Qed.

Lemma prepared_shape tf preset fp :
  _prepare_format_parameters tf preset = Ok fp ->
  exists ft c0 c p pv av,
    fp = VDict [("format", VStr ft); ("codec", c); ("preset", VStr preset);
                ("parameters", VDict p)] /\
    (f <- get tf "format" (VStr "mp4") ;; lower f) = Ok ft /\
    lower_string ft = ft /\
    get tf "codec" (VStr "") = Ok c0 /\
    c = (if truthy c0 then c0 else VStr (_get_default_codec ft)) /\
    truthy c = true /\
    dict_get "video" p = Some (VDict pv) /\
    dict_get "audio" p = Some (VDict av).
Proof.
  unfold _prepare_format_parameters. intro H.
  bind_inv H. bind_inv H. bind_inv H. bind_inv H.
  set (c := if truthy a1 then a1 else VStr (_get_default_codec a0)) in *.
  assert (Hc : truthy c = true).
  { subst c. destruct (truthy a1) eqn:T; [exact T|].
    simpl. destruct (String.eqb_spec (_get_default_codec a0) ""); [|reflexivity].
    exfalso. now apply (default_codec_nonempty a0). }
  assert (Hl : lower_string a0 = a0).
  { destruct a; simpl in E0; try discriminate. injection E0 as <-.
    apply lower_string_idem. }
  destruct (preset_parameters_shape preset c a0) as (pv & av & Hs).
  bind_inv H. injection H as <-.
  assert (exists pv' av', dict_get "video" a3 = Some (VDict pv') /\
                          dict_get "audio" a3 = Some (VDict av')) as (pv' & av' & Hv & Ha).
  { destruct a2.
    - bind_inv E3. destruct a2; try (injection E3 as <-; rewrite Hs; eexists _, _; split; reflexivity).
      rewrite Hs in E3.
      destruct (merge_keeps_mapping "video" _ _ _ pv E3 eq_refl) as (y1 & H1).
      destruct (merge_keeps_mapping "audio" _ _ _ av E3 eq_refl) as (y2 & H2).
      eauto.
    - injection E3 as <-. rewrite Hs. eexists _, _; split; reflexivity. }
  exists a0, a1, c, a3, pv', av'.
  split; [reflexivity|]. split; [exact E0|]. split; [exact Hl|].
  split; [reflexivity|]. split; [reflexivity|]. auto.
Qed.

(** X1.  Whatever the target format and the preset name, a specification
    that [_prepare_format_parameters] returns has the caller's format (mp4
    without one) in lower case, a codec that is the caller's when that is
    truthy and otherwise the default [_get_default_codec] gives for the
    format, and in both cases not empty, the preset name as given, and a
    video and an audio section that are both mappings. *)
Theorem resolved_spec_is_complete tf preset fp :
  _prepare_format_parameters tf preset = Ok fp ->
  exists ft c0 c p pv av,
    fp = VDict [("format", VStr ft); ("codec", c); ("preset", VStr preset);
                ("parameters", VDict p)] /\
    (f <- get tf "format" (VStr "mp4") ;; lower f) = Ok ft /\
    lower_string ft = ft /\
    get tf "codec" (VStr "") = Ok c0 /\
    c = (if truthy c0 then c0 else VStr (_get_default_codec ft)) /\
    truthy c = true /\
    dict_get "video" p = Some (VDict pv) /\
    dict_get "audio" p = Some (VDict av).
Proof. exact (prepared_shape tf preset fp). Qed.


Lemma preset_parameters_unknown p c ft :
  ~ In p named_presets ->
  preset_parameters p c ft = preset_parameters "standard" c ft.
Proof.
  intro H. unfold preset_parameters.
  repeat match goal with
         | |- context [String.eqb p ?x] =>
             destruct (String.eqb_spec p x);
             [exfalso; apply H; subst p; simpl; tauto|]
         end.
  reflexivity.
Qed.

(** X2.  A preset name outside the five the function knows ("web",
    "social", "broadcast", "archive", "mobile") is resolved exactly as
    "standard": apart from the recorded name, every entry of the result is
    the same, and so is a failure. *)
Theorem unknown_preset_resolves_as_standard tf p k :
  ~ In p named_presets -> k <> "preset" ->
  spec_field (_prepare_format_parameters tf p) k
  = spec_field (_prepare_format_parameters tf "standard") k.
Proof.
  intros Hp Hk. unfold spec_field, _prepare_format_parameters.
  destruct (get tf "format" (VStr "mp4")) as [f|]; [|reflexivity]. cbn [bind].
  destruct (lower f) as [ft|]; [|reflexivity]. cbn [bind].
  destruct (get tf "codec" (VStr "")) as [c0|]; [|reflexivity]. cbn [bind].
  rewrite (preset_parameters_unknown p _ ft Hp).
  destruct (contains "parameters" tf) as [has|]; [|reflexivity]. cbn [bind].
  match goal with |- bind (bind ?m _) _ = _ => destruct m as [p'|] end;
    [|reflexivity].
  cbn [bind getitem dict_get].
  destruct (String.eqb k "format"); [reflexivity|].
  destruct (String.eqb k "codec"); [reflexivity|].
  destruct (String.eqb_spec k "preset"); [contradiction|].
  reflexivity.
Qed.

Lemma unknown_preset_witness :
  spec_field (_prepare_format_parameters target_crf18 "hq") "parameters"
  = spec_field (_prepare_format_parameters target_crf18 "standard") "parameters".
Proof.
  apply unknown_preset_resolves_as_standard; [|discriminate].
  simpl. intros [H|[H|[H|[H|[H|[]]]]]]; discriminate H.
Defined.

Lemma dict_get_none_not_in k d : dict_get k d = None -> ~ In k (dict_keys d).
Proof.
  induction d as [|[k' v] d IH]; simpl; [tauto|].
  destruct (String.eqb_spec k k'); [discriminate|].
  intros H [E|E]; [congruence|]. now apply IH.
Qed.

(** X3.  The caller's video section is merged entry by entry, for every
    preset: a key the caller sets has the caller's value, every other key
    keeps the value of the preset's table. *)
Theorem override_wins_entry_by_entry t overrides vo preset k :
  (forall f, dict_get "format" t = Some f -> exists s, f = VStr s) ->
  dict_get "parameters" t = Some (VDict overrides) ->
  NoDup (dict_keys overrides) ->
  dict_get "video" overrides = Some (VDict vo) ->
  (forall a, dict_get "audio" overrides = Some a -> is_dict a = true) ->
  NoDup (dict_keys vo) ->
  exists fp ft c pv,
    _prepare_format_parameters (VDict t) preset = Ok fp /\
    getitem fp "format" = Ok (VStr ft) /\
    getitem fp "codec" = Ok c /\
    dict_get "video" (preset_parameters preset c ft) = Some (VDict pv) /\
    video_param fp k = match dict_get k vo with
                       | Some v => Ok v
                       | None => getitem (VDict pv) k
                       end.
Proof.
  intros Hfmt Hpar Hnd Hvideo Haudio Hndv.
  destruct (prepare_with_video_override t overrides vo preset
              Hfmt Hpar Hnd Hvideo Haudio) as (ft & c & p & pv & Hprep & Hpv & Hp).
  eexists _, ft, c, pv. split; [exact Hprep|].
  split; [reflexivity|]. split; [reflexivity|]. split; [exact Hpv|].
  rewrite prepared_video_param. cbn [getitem]. rewrite Hp. cbn [bind].
  destruct (dict_get k vo) as [v|] eqn:E.
  - cbn [getitem]. now rewrite (dict_get_update_present k v vo pv Hndv E).
  - cbn [getitem].
    rewrite dict_get_update_absent by (now apply dict_get_none_not_in).
    reflexivity.
Qed.

Lemma override_wins_witness :
  exists fp ft c pv,
    _prepare_format_parameters target_crf18 "web" = Ok fp /\
    getitem fp "format" = Ok (VStr ft) /\
    getitem fp "codec" = Ok c /\
    dict_get "video" (preset_parameters "web" c ft) = Some (VDict pv) /\
    video_param fp "preset" = match dict_get "preset" [("crf", VInt 18)] with
                              | Some v => Ok v
                              | None => getitem (VDict pv) "preset"
                              end.
Proof.
  apply (override_wins_entry_by_entry
           [("format", VStr "mp4"); ("codec", VStr "h264");
            ("parameters", VDict [("video", VDict [("crf", VInt 18)])])]
           [("video", VDict [("crf", VInt 18)])] [("crf", VInt 18)] "web" "preset").
  - intros f [= <-]. eauto.
  - reflexivity.
  - repeat constructor; simpl; tauto.
  - reflexivity.
  - intros a [=].
  - repeat constructor; simpl; tauto.
Defined.

Lemma resolved_spec_witness :
  exists ft c0 c p pv av,
    spec_with_extras
    = VDict [("format", VStr ft); ("codec", c); ("preset", VStr "web");
             ("parameters", VDict p)] /\
    (f <- get target_with_extras "format" (VStr "mp4") ;; lower f) = Ok ft /\
    lower_string ft = ft /\
    get target_with_extras "codec" (VStr "") = Ok c0 /\
    c = (if truthy c0 then c0 else VStr (_get_default_codec ft)) /\
    truthy c = true /\
    dict_get "video" p = Some (VDict pv) /\
    dict_get "audio" p = Some (VDict av).
Proof.
  exact (resolved_spec_is_complete _ _ _ BuilderProps.spec_with_extras_resolved).
Defined.

End ResolutionProps.

(** ** What the recommendations leave alone *)

Module RecommendationProps.
Import Statements Scenarios.
Import DictFacts.
Import FN.
Import ResolverProps.


Lemma untouched_refl fp : untouched fp fp.
Proof. split; reflexivity. Qed.

Lemma untouched_trans a b c : untouched a b -> untouched b c -> untouched a c.
Proof.
  intros [H1 H2] [H3 H4]. split; intros.
  - now rewrite H3, H1.
  - now rewrite H4, H2.
Qed.

Lemma set_video_param_untouched fp k v fp' :
  set_video_param fp k v = Ok fp' -> untouched fp fp'.
Proof.
  intro H. destruct (set_video_param_inv _ _ _ _ H) as (f & p & vd & -> & Hf & Hp & ->).
  split.
  - intros k0 Hk. cbn [getitem]. now rewrite dict_get_set_other.
  - intros name H1 H2. unfold section. cbn [getitem].
    rewrite dict_get_set_same, Hf. cbn [bind getitem].
    now rewrite dict_get_set_other.
Qed.

Lemma codec_parameters_untouched d : forall fp fp',
  fold_left apply_codec_parameter d (Ok fp) = Ok fp' -> untouched fp fp'.
Proof.
  induction d as [|[k v] d IH]; intros fp fp' H.
  - simpl in H. injection H as <-. apply untouched_refl.
  - change (fold_left apply_codec_parameter d (apply_codec_parameter (Ok fp) (k, v)) = Ok fp') in H.
    destruct (apply_codec_parameter (Ok fp) (k, v)) as [fp1|e] eqn:E;
      [|rewrite fold_codec_raise in H; discriminate].
    eapply untouched_trans; [|apply (IH _ _ H)].
    unfold apply_codec_parameter in E. cbn [bind fst snd] in E.
    destruct (has_section fp "video") as [[|]|]; cbn [bind] in E; try discriminate.
    + now apply set_video_param_untouched in E.
    + injection E as <-. apply untouched_refl.
Qed.

Lemma apply_codec_parameters_untouched fp recs fp' :
  apply_codec_parameters fp recs = Ok fp' -> untouched fp fp'.
Proof.
  unfold apply_codec_parameters. intro H. crunch H;
    try (injection H as <-; apply untouched_refl).
  now apply codec_parameters_untouched in H.
Qed.

Lemma apply_bitrate_strategy_untouched fp recs fp' :
  apply_bitrate_strategy fp recs = Ok fp' -> untouched fp fp'.
Proof.
  unfold apply_bitrate_strategy. intro H. crunch H;
    try (injection H as <-; apply untouched_refl);
    try (now apply set_video_param_untouched in H).
  repeat match goal with
         | S : set_video_param _ _ _ = Ok _ |- _ =>
             apply set_video_param_untouched in S
         end.
  eauto 10 using untouched_trans.
Qed.

Lemma apply_ffmpeg_options_untouched fp recs fp' :
  apply_ffmpeg_options fp recs = Ok fp' -> untouched fp fp'.
Proof.
  unfold apply_ffmpeg_options. intro H. crunch H;
    try (injection H as <-; apply untouched_refl).
  destruct (getitem_ok_inv _ _ _ E2) as (f & -> & Hf).
  destruct (setitem_inv _ _ _ _ E6) as (p3 & -> & ->).
  simpl in H. injection H as <-.
  split.
  - intros k Hk. cbn [getitem]. now rewrite dict_get_set_other.
  - intros name H1 H2. unfold section. cbn [getitem].
    rewrite dict_get_set_same, Hf. cbn [bind getitem].
    rewrite dict_get_set_other by assumption.
    destruct a1.
    + now injection E3 as ->.
    + destruct (setitem_inv _ _ _ _ E3) as (p & -> & [= ->]).
      cbn [getitem]. now rewrite dict_get_set_other.
Qed.

(** X4.  Applying recommendations changes nothing but the video section
    and the extra options: the format, codec and preset entries and every
    other section (the audio section among them) are as before. *)
Theorem recommendations_touch_only_video_and_options fp ai fp' :
  _apply_ai_recommendations fp ai = Ok fp' ->
  (forall k, k <> "parameters" -> getitem fp' k = getitem fp k) /\
  (forall name, name <> "video" -> name <> "ffmpeg_options" ->
                section fp' name = section fp name).
Proof.
  unfold _apply_ai_recommendations. intro H. crunch H;
    try (injection H as <-; apply untouched_refl).
  repeat match goal with
         | S : apply_codec_parameters _ _ = Ok _ |- _ =>
             apply apply_codec_parameters_untouched in S
         | S : apply_bitrate_strategy _ _ = Ok _ |- _ =>
             apply apply_bitrate_strategy_untouched in S
         | S : apply_ffmpeg_options _ _ = Ok _ |- _ =>
             apply apply_ffmpeg_options_untouched in S
         end.
  change (untouched fp fp'). eauto using untouched_trans.
Qed.

Lemma recommendations_touch_witness :
  (forall k, k <> "parameters" -> getitem spec_mp4_crf22 k = getitem spec_mp4 k) /\
  (forall name, name <> "video" -> name <> "ffmpeg_options" ->
                section spec_mp4_crf22 name = section spec_mp4 name).
Proof.
  apply (recommendations_touch_only_video_and_options
           spec_mp4 (ai_strategy "CRF" (VInt 22))).
  reflexivity.
Defined.

End RecommendationProps.

(** ** Applying a recommendation; the fallback table *)

Module AdviceProps.
Import Statements Scenarios.
Import DictFacts.
Import FN.
Import ResolverProps.
Import NumberFacts.
Import ResolutionProps.

Lemma has_section_of_parameters f p name :
  dict_get "parameters" f = Some (VDict p) ->
  has_section (VDict f) name = Ok (dict_mem name p).
Proof. intro Hf. unfold has_section. cbn [getitem]. now rewrite Hf. Qed.

Lemma section_of_parameters f p name :
  dict_get "parameters" f = Some (VDict p) ->
  section (VDict f) name = getitem (VDict p) name.
Proof. intro Hf. unfold section. cbn [getitem]. now rewrite Hf. Qed.

Lemma ffmpeg_options_of_parameters f p :
  dict_get "parameters" f = Some (VDict p) ->
  ffmpeg_options_of (VDict f)
  = match dict_get "ffmpeg_options" p with
    | Some o => iter o
    | None => Ok []
    end.
Proof.
  intro Hf. unfold ffmpeg_options_of.
  rewrite (has_section_of_parameters f p _ Hf). cbn [bind]. unfold dict_mem.
  destruct (dict_get "ffmpeg_options" p) as [o|] eqn:E; [|reflexivity].
  rewrite (section_of_parameters f p _ Hf). cbn [getitem]. now rewrite E.
Qed.

Lemma set_video_param_well_formed fp k v :
  well_formed_spec fp ->
  exists fp', set_video_param fp k v = Ok fp' /\ well_formed_spec fp' /\
              ffmpeg_options_of fp' = ffmpeg_options_of fp.
Proof.
  intros (f & p & vd & -> & Hf & Hp & Ho).
  rewrite (set_video_param_ok f p vd k v Hf Hp).
  eexists. split; [reflexivity|]. split.
  - eexists _, _, _. split; [reflexivity|].
    split; [apply dict_get_set_same|]. split; [apply dict_get_set_same|].
    intro o. rewrite dict_get_set_other by discriminate. apply Ho.
  - rewrite (ffmpeg_options_of_parameters _ _ (dict_get_set_same _ _ _)).
    rewrite (ffmpeg_options_of_parameters _ _ Hf).
    now rewrite dict_get_set_other by discriminate.
Qed.

Lemma well_formed_has_video fp :
  well_formed_spec fp -> has_section fp "video" = Ok true.
Proof.
  intros (f & p & vd & -> & Hf & Hp & _).
  rewrite (has_section_of_parameters f p _ Hf). unfold dict_mem. now rewrite Hp.
Qed.

Lemma codec_parameters_well_formed cp : forall fp,
  well_formed_spec fp ->
  exists fp', fold_left apply_codec_parameter cp (Ok fp) = Ok fp' /\
              well_formed_spec fp' /\
              ffmpeg_options_of fp' = ffmpeg_options_of fp.
Proof.
  induction cp as [|[k v] cp IH]; intros fp W.
  - exists fp. auto.
  - change (fold_left apply_codec_parameter ((k, v) :: cp) (Ok fp))
      with (fold_left apply_codec_parameter cp (apply_codec_parameter (Ok fp) (k, v))).
    unfold apply_codec_parameter at 2. cbn [bind fst snd].
    rewrite (well_formed_has_video fp W). cbn [bind].
    destruct (set_video_param_well_formed fp k v W) as (fp1 & -> & W1 & O1).
    destruct (IH fp1 W1) as (fp' & E & W' & O'). exists fp'.
    split; [exact E|]. split; [exact W'|]. congruence.
Qed.

Lemma bitrate_strategy_well_formed fp cp ty v opts :
  well_formed_spec fp ->
  (ty = "CBR" -> truthy v = true -> is_ok (cbr_bufsize v) = true) ->
  exists fp', apply_bitrate_strategy fp (AI.recommendations cp ty v opts) = Ok fp' /\
              well_formed_spec fp' /\
              ffmpeg_options_of fp' = ffmpeg_options_of fp.
Proof.
  intros W Hcbr. unfold apply_bitrate_strategy.
  change (contains "bitrate_strategy" _) with (Ok true). cbn [bind].
  change (getitem _ "bitrate_strategy")
    with (Ok (VDict [("type", VStr ty); ("value", v)])).
  cbn [bind is_dict].
  change (get _ "type" VNone) with (Ok (VStr ty)).
  change (get _ "value" VNone) with (Ok v).
  cbn [bind eq_str].
  destruct (truthy (VStr ty)); [|exists fp; auto].
  destruct (truthy v) eqn:Tv; [|exists fp; auto].
  rewrite (well_formed_has_video fp W). cbn [bind].
  destruct (String.eqb ty "CRF"); [apply set_video_param_well_formed; exact W|].
  destruct (String.eqb_spec ty "CBR") as [Ety|].
  - destruct (set_video_param_well_formed fp "bitrate" v W) as (fp1 & -> & W1 & O1).
    cbn [bind].
    destruct (set_video_param_well_formed fp1 "minrate" v W1) as (fp2 & -> & W2 & O2).
    cbn [bind].
    destruct (set_video_param_well_formed fp2 "maxrate" v W2) as (fp3 & -> & W3 & O3).
    cbn [bind].
    specialize (Hcbr Ety eq_refl).
    destruct (cbr_bufsize v) as [b|]; [|discriminate]. cbn [bind].
    destruct (set_video_param_well_formed fp3 "bufsize" b W3) as (fp4 & -> & W4 & O4).
    exists fp4. split; [reflexivity|]. split; [exact W4|]. congruence.
  - destruct (String.eqb ty "VBR"); [apply set_video_param_well_formed; exact W|].
    exists fp; auto.
Qed.

Lemma ffmpeg_options_well_formed fp cp ty v opts :
  well_formed_spec fp ->
  exists fp' l,
    apply_ffmpeg_options fp (AI.recommendations cp ty v opts) = Ok fp' /\
    ffmpeg_options_of fp = Ok l /\
    ffmpeg_options_of fp' = Ok (l ++ opts) /\
    well_formed_spec fp'.
Proof.
  intros (f & p & vd & -> & Hf & Hp & Ho). unfold apply_ffmpeg_options.
  change (contains "ffmpeg_options" _) with (Ok true). cbn [bind].
  change (getitem (AI.recommendations cp ty v opts) "ffmpeg_options")
    with (Ok (VList opts)).
  cbn [bind is_list].
  rewrite (has_section_of_parameters f p _ Hf). cbn [bind getitem].
  rewrite Hf. cbn [bind].
  rewrite (ffmpeg_options_of_parameters f p Hf).
  unfold dict_mem.
  destruct (dict_get "ffmpeg_options" p) as [o|] eqn:E.
  - pose proof (Ho o eq_refl) as L. destruct o as [| | | | |l|]; try discriminate.
    cbn [bind getitem]. rewrite E. cbn [bind extend iter setitem].
    eexists _, l. split; [reflexivity|]. split; [reflexivity|]. split.
    + rewrite (ffmpeg_options_of_parameters _ _ (dict_get_set_same _ _ _)).
      now rewrite dict_get_set_same.
    + eexists _, _, vd. split; [reflexivity|].
      split; [apply dict_get_set_same|].
      split; [now rewrite dict_get_set_other by discriminate|].
      intro o. rewrite dict_get_set_same. now intros [= <-].
  - cbn [bind setitem getitem]. rewrite dict_get_set_same.
    cbn [bind extend iter setitem].
    eexists _, []. split; [reflexivity|]. split; [reflexivity|]. split.
    + rewrite (ffmpeg_options_of_parameters _ _ (dict_get_set_same _ _ _)).
      now rewrite dict_get_set_same.
    + eexists _, _, vd. split; [reflexivity|].
      split; [apply dict_get_set_same|].
      split; [now rewrite !dict_get_set_other by discriminate|].
      intro o. rewrite dict_get_set_same. now intros [= <-].
Qed.

Lemma recommendations_applied fp cp ty v opts others :
  well_formed_spec fp ->
  (ty = "CBR" -> truthy v = true -> is_ok (cbr_bufsize v) = true) ->
  exists fp' l,
    _apply_ai_recommendations fp (analysis_with (AI.recommendations cp ty v opts) others)
    = Ok fp' /\
    ffmpeg_options_of fp = Ok l /\
    ffmpeg_options_of fp' = Ok (l ++ opts) /\
    well_formed_spec fp'.
Proof.
  intros W Hcbr. unfold _apply_ai_recommendations, analysis_with.
  change (get _ "encoding_recommendations" (VDict []))
    with (Ok (AI.recommendations cp ty v opts)).
  cbn [bind]. change (truthy (AI.recommendations cp ty v opts)) with true.
  cbn [negb].
  unfold apply_codec_parameters.
  change (contains "codec_parameters" _) with (Ok true). cbn [bind].
  change (getitem _ "codec_parameters") with (Ok (VDict cp)). cbn [bind].
  destruct (codec_parameters_well_formed cp fp W) as (fp1 & -> & W1 & O1).
  cbn [bind].
  destruct (bitrate_strategy_well_formed fp1 cp ty v opts W1 Hcbr)
    as (fp2 & -> & W2 & O2).
  cbn [bind].
  destruct (ffmpeg_options_well_formed fp2 cp ty v opts W2)
    as (fp3 & l & -> & Hl & Hl' & W3).
  exists fp3, l. split; [reflexivity|]. split; [congruence|]. auto.
Qed.




(** The refused case on two values: a rate in megabits and a number. *)
Example cbr_values_without_buffer_size :
  _apply_ai_recommendations spec_mp4
    (analysis_with (AI.recommendations [] "CBR" (VStr "5M") []) [])
  = Raise (ValueError "invalid literal for int() with base 10: '5M'")
  /\
  _apply_ai_recommendations spec_mp4
    (analysis_with (AI.recommendations [] "CBR" (VInt 5000) []) [])
  = Raise (AttributeError "'int' object has no attribute 'replace'").
Proof. split; reflexivity. Qed.

Lemma fallback_shape tf recs :
  AI._get_fallback_recommendations tf = Ok recs ->
  exists cp ty v opts,
    recs = AI.recommendations cp ty v opts /\
    (ty = "CBR" -> is_ok (cbr_bufsize v) = true).
Proof.
  unfold AI._get_fallback_recommendations, AI.default_recommendations. intro H.
  bind_inv H. bind_inv H. bind_inv H. bind_inv H. injection H as <-.
  repeat match goal with |- context [if ?b then _ else _] => destruct b end;
    eexists _, _, _, _;
    (split; [reflexivity | intro; try discriminate; reflexivity]).
Qed.

(** X6.  The fallback table composes with the resolver: for every
    specification the resolver returns whose codec is a string and whose
    extra options, if any, are a list, [_get_fallback_recommendations]
    returns a recommendation and [_apply_ai_recommendations] accepts it. *)
Theorem fallback_recommendation_always_applies tf preset fp c others :
  _prepare_format_parameters tf preset = Ok fp ->
  getitem fp "codec" = Ok (VStr c) ->
  (forall o, section fp "ffmpeg_options" = Ok o -> is_list o = true) ->
  exists recs fp',
    AI._get_fallback_recommendations fp = Ok recs /\
    _apply_ai_recommendations fp (analysis_with recs others) = Ok fp'.
Proof.
  intros Hprep Hc Ho.
  destruct (prepared_shape _ _ _ Hprep)
    as (ft & c00 & c0 & p & pv & av & -> & _ & _ & _ & _ & _ & Hv & _).
  cbn [getitem dict_get] in Hc.
  change (String.eqb "codec" "format") with false in Hc.
  change (String.eqb "codec" "codec") with true in Hc. cbv iota in Hc.
  injection Hc as ->.
  assert (W : well_formed_spec
                (VDict [("format", VStr ft); ("codec", VStr c);
                        ("preset", VStr preset); ("parameters", VDict p)])).
  { eexists _, p, pv. split; [reflexivity|]. split; [reflexivity|].
    split; [exact Hv|]. intros o Hget. apply Ho.
    rewrite (section_of_parameters _ p) by reflexivity. cbn [getitem].
    now rewrite Hget. }
  destruct (AI._get_fallback_recommendations _) as [recs|] eqn:E; [|discriminate E].
  destruct (fallback_shape _ _ E) as (cp & ty & v & opts & -> & Hcbr).
  destruct (recommendations_applied _ cp ty v opts others W) as (fp' & l & H' & _);
    [auto|].
  eauto.
Qed.

Lemma fallback_recommendation_witness :
  exists recs fp',
    AI._get_fallback_recommendations spec_with_extras = Ok recs /\
    _apply_ai_recommendations spec_with_extras (analysis_with recs []) = Ok fp'.
Proof.
  apply (fallback_recommendation_always_applies target_with_extras "web"
           spec_with_extras "h264" []).
  - exact BuilderProps.spec_with_extras_resolved.
  - reflexivity.
  - intros o [= <-]. reflexivity.
Defined.

Lemma unit_suffix_truthy s : truthy (VStr (s ++ "k")) = true.
Proof. destruct s; reflexivity. Qed.

(** X7.  Strategy "CBR" with a value of [n] thousand, written "<n>k", sets
    bitrate, minrate and maxrate to that value and bufsize to "<2000 n>k",
    on every specification with a video section: the unit suffix is expanded
    to three zeros before doubling and a "k" is appended again. *)
Theorem cbr_sets_three_rates_and_buffer f p vd n :
  0 <= n ->
  dict_get "parameters" f = Some (VDict p) ->
  dict_get "video" p = Some (VDict vd) ->
  exists fp',
    _apply_ai_recommendations (VDict f)
      (ai_strategy "CBR" (VStr (str_of_Z n ++ "k"))) = Ok fp' /\
    video_param fp' "bitrate" = Ok (VStr (str_of_Z n ++ "k")) /\
    video_param fp' "minrate" = Ok (VStr (str_of_Z n ++ "k")) /\
    video_param fp' "maxrate" = Ok (VStr (str_of_Z n ++ "k")) /\
    video_param fp' "bufsize" = Ok (VStr (str_of_Z (n * 1000 * 2) ++ "k")).
Proof.
  intros Hn Hf Hp.
  set (v := VStr (str_of_Z n ++ "k")).
  assert (Hs : has_section (VDict f) "video" = Ok true).
  { rewrite (has_section_of_parameters f p _ Hf). unfold dict_mem. now rewrite Hp. }
  rewrite apply_ai_strategy_unfold.
  rewrite apply_bitrate_strategy_unfold
    by (first [apply unit_suffix_truthy | exact Hs | discriminate]).
  change (String.eqb "CBR" "CRF") with false.
  change (String.eqb "CBR" "CBR") with true. cbv iota.
  unfold v at 4. rewrite (RateControlProps.cbr_bufsize_counts_unit_twice n Hn).
  fold v.
  destruct (set_video_param (VDict f) "bitrate" v) as [fp1|] eqn:E1;
    [|erewrite set_video_param_ok in E1 by eauto; discriminate].
  destruct (set_video_param_inv _ _ _ _ E1) as (f0 & p0 & vd0 & _ & _ & _ & Hfp1).
  cbn [bind].
  destruct (set_video_param fp1 "minrate" v) as [fp2|] eqn:E2;
    [|subst fp1; erewrite set_video_param_ok in E2
        by (apply dict_get_set_same); discriminate].
  destruct (set_video_param_inv _ _ _ _ E2) as (f1 & p1 & vd1 & _ & _ & _ & Hfp2).
  cbn [bind].
  destruct (set_video_param fp2 "maxrate" v) as [fp3|] eqn:E3;
    [|subst fp2; erewrite set_video_param_ok in E3
        by (apply dict_get_set_same); discriminate].
  destruct (set_video_param_inv _ _ _ _ E3) as (f2 & p2 & vd2 & _ & _ & _ & Hfp3).
  cbn [bind].
  match goal with |- context [set_video_param fp3 "bufsize" ?b] =>
    destruct (set_video_param fp3 "bufsize" b) as [fp4|] eqn:E4;
      [|subst fp3; erewrite set_video_param_ok in E4
          by (apply dict_get_set_same); discriminate]
  end.
  exists fp4. split; [reflexivity|].
  repeat split.
  - rewrite (video_param_set_other _ _ _ _ _ E4) by discriminate.
    rewrite (video_param_set_other _ _ _ _ _ E3) by discriminate.
    rewrite (video_param_set_other _ _ _ _ _ E2) by discriminate.
    eapply video_param_set; eauto.
  - rewrite (video_param_set_other _ _ _ _ _ E4) by discriminate.
    rewrite (video_param_set_other _ _ _ _ _ E3) by discriminate.
    eapply video_param_set; eauto.
  - rewrite (video_param_set_other _ _ _ _ _ E4) by discriminate.
    eapply video_param_set; eauto.
  - eapply video_param_set; eauto.
Qed.

Lemma cbr_witness :
  exists fp',
    _apply_ai_recommendations spec_mp4
      (ai_strategy "CBR" (VStr (str_of_Z 5000 ++ "k"))) = Ok fp' /\
    video_param fp' "bitrate" = Ok (VStr (str_of_Z 5000 ++ "k")) /\
    video_param fp' "minrate" = Ok (VStr (str_of_Z 5000 ++ "k")) /\
    video_param fp' "maxrate" = Ok (VStr (str_of_Z 5000 ++ "k")) /\
    video_param fp' "bufsize" = Ok (VStr (str_of_Z (5000 * 1000 * 2) ++ "k")).
Proof.
  unfold spec_mp4.
  refine (cbr_sets_three_rates_and_buffer _ _ _ 5000 _ _ _);
    [lia | reflexivity | reflexivity].
Defined.

End AdviceProps.

(** ** Looking up streams *)

Module StreamProps.
Import Statements Scenarios.
Import FN.
Import ResolverProps.

Lemma matching_stream_is_truthy stream kind t :
  get stream "codec_type" VNone = Ok t -> eq_str t kind = true ->
  truthy stream = true.
Proof.
  destruct stream as [| | | | | |d]; simpl; try discriminate.
  destruct d as [|kv d]; [|reflexivity].
  simpl. intros [= <-]. discriminate.
Qed.

Lemma any_is_first kind l :
  any_stream kind l = (s <- first_stream kind l ;; Ok (truthy s)).
Proof.
  induction l as [|stream l IH]; [reflexivity|]. simpl.
  destruct (get stream "codec_type" VNone) as [t|] eqn:E; [|reflexivity].
  cbn [bind]. destruct (eq_str t kind) eqn:Et; [|exact IH].
  cbn [bind]. now rewrite (matching_stream_is_truthy _ _ _ E Et).
Qed.

Lemma resolution_is_first l :
  first_video_resolution l
  = (s <- first_stream "video" l ;;
     if truthy s then
       w <- get s "width" (VInt 0) ;;
       width <- int w ;;
       h <- get s "height" (VInt 0) ;;
       height <- int h ;;
       Ok (Some (width, height))
     else Ok None).
Proof.
  induction l as [|stream l IH]; [reflexivity|]. simpl.
  destruct (get stream "codec_type" VNone) as [t|] eqn:E; [|reflexivity].
  cbn [bind]. destruct (eq_str t "video") eqn:Et; [|exact IH].
  cbn [bind]. now rewrite (matching_stream_is_truthy _ _ _ E Et).
Qed.

(** X8.  The three ways the code looks for a stream agree: [any(...)] over
    the streams is true exactly when [next(..., None)] finds a stream (which
    is then truthy, so the guard after it never skips), and the resolution
    reported is the width and height of that same first video stream. *)
Theorem stream_lookups_agree kind md :
  has_stream kind md = (s <- find_stream kind md ;; Ok (truthy s))
  /\
  _get_resolution md
  = (s <- find_stream "video" md ;;
     if truthy s then
       w <- get s "width" (VInt 0) ;;
       width <- int w ;;
       h <- get s "height" (VInt 0) ;;
       height <- int h ;;
       Ok (Some (width, height))
     else Ok None).
Proof.
  unfold has_stream, find_stream, _get_resolution.
  destruct (get md "streams" (VList [])) as [streams|]; [|split; reflexivity].
  cbn [bind]. destruct (iter streams) as [l|]; [|split; reflexivity].
  cbn [bind]. split; [apply any_is_first | apply resolution_is_first].
Qed.

End StreamProps.

(** ** Unset entries of the video section *)

Module CommandProps.
Import Statements Scenarios.
Import DictFacts.
Import FN.
Import ResolverProps.

Section WithRepr.

Variable repr : value -> string.

Lemma video_param_args_format f f' codec key v :
  dict_get "format" f' = dict_get "format" f ->
  video_param_args repr (VDict f') codec key v
  = video_param_args repr (VDict f) codec key v.
Proof.
  intro H. unfold video_param_args. cbn [getitem]. now rewrite H.
Qed.

Lemma fold_video_set entries f f' codec : forall acc,
  dict_get "format" f' = dict_get "format" f ->
  fold_left (add_video_param repr (VDict f') codec) (filter has_value entries) acc
  = fold_left (add_video_param repr (VDict f) codec) entries acc.
Proof.
  intros acc H. revert acc.
  induction entries as [|[k v] entries IH]; intro acc; [reflexivity|].
  cbn [filter]. unfold has_value at 1. cbn [snd].
  destruct v; cbn [is_none negb fold_left];
    try (rewrite IH; f_equal; unfold add_video_param; cbn [fst snd];
         now rewrite (video_param_args_format f f' codec k _ H)).
  rewrite IH. f_equal. unfold add_video_param, video_param_args.
  cbn [fst snd is_none bind]. destruct acc as [cmd|]; [|reflexivity].
  cbn [bind]. now rewrite app_nil_r.
Qed.

(** X9.  An entry of the video section whose value is [None] adds nothing
    to the command: removing such entries from the section leaves the video
    arguments as they are (the broadcast and archive presets use [None] for
    the options a codec does not take). *)
Theorem unset_video_entries_emit_nothing f p vd sm cmd :
  dict_get "parameters" f = Some (VDict p) ->
  dict_get "video" p = Some (VDict vd) ->
  add_video repr
    (VDict (dict_set "parameters"
              (VDict (dict_set "video" (VDict (filter has_value vd)) p)) f))
    sm cmd
  = add_video repr (VDict f) sm cmd.
Proof.
  intros Hf Hp. unfold add_video, has_section.
  destruct (has_stream "video" sm) as [[|]|]; try reflexivity.
  cbn [bind getitem]. rewrite dict_get_set_same, Hf. cbn [bind contains getitem].
  rewrite dict_mem_set. cbn [orb]. rewrite dict_get_set_same.
  unfold dict_mem. rewrite Hp.
  change (String.eqb "video" "video") with true. cbn [orb bind].
  rewrite dict_get_set_other by discriminate.
  destruct (dict_get "codec" f) as [codec|]; [|reflexivity].
  cbn [bind items]. apply fold_video_set.
  now rewrite dict_get_set_other by discriminate.
Qed.

End WithRepr.

Lemma spec_prores_broadcast_resolved :
  _prepare_format_parameters (VDict [("format", VStr "MOV")]) "broadcast"
  = Ok (VDict spec_prores_broadcast_fields).
Proof. reflexivity. Qed.

Lemma unset_video_entries_witness :
  add_video no_repr
    (VDict (dict_set "parameters"
              (VDict (dict_set "video"
                        (VDict (filter has_value
                                  [("profile", VStr "3"); ("level", VNone);
                                   ("preset", VNone); ("pix_fmt", VStr "yuv422p10le")]))
                        [("video", VDict [("profile", VStr "3"); ("level", VNone);
                                          ("preset", VNone);
                                          ("pix_fmt", VStr "yuv422p10le")]);
                         ("audio", VDict [("codec", VStr "pcm_s24le");
                                          ("sample_rate", VStr "48000")])]))
              spec_prores_broadcast_fields))
    source_av []
  = add_video no_repr (VDict spec_prores_broadcast_fields) source_av [].
Proof.
  apply unset_video_entries_emit_nothing; reflexivity.
Defined.

End CommandProps.

(** ** The builder on well-formed input *)

Module TotalityProps.
Import Statements Scenarios.
Import DictFacts.
Import FN.
Import ResolverProps.
Import BuilderProps.

Section WithRepr.

Variable repr : value -> string.

Lemma video_codec_args_strings c :
  exists l, video_codec_args (VStr c) = map VStr l.
Proof.
  unfold video_codec_args.
  repeat match goal with
         | |- context [if ?b then _ else _] => destruct b
         end;
    eexists [_; _]; reflexivity.
Qed.

Lemma video_param_args_strings f fmt codec k v :
  dict_get "format" f = Some fmt ->
  exists l, video_param_args repr (VDict f) codec k v = Ok (map VStr l).
Proof.
  intro Hf. unfold video_param_args. cbn [getitem]. rewrite Hf. cbn [bind].
  repeat match goal with
         | |- context [if ?b then _ else _] => destruct b
         end;
    first [exists []; reflexivity | eexists [_; _]; reflexivity].
Qed.

Lemma fold_video_strings f fmt codec entries :
  dict_get "format" f = Some fmt -> forall A,
  exists L, fold_left (add_video_param repr (VDict f) codec) entries (Ok (map VStr A))
            = Ok (map VStr L).
Proof.
  intro Hf. induction entries as [|[k v] entries IH]; intro A.
  - exists A. reflexivity.
  - cbn [fold_left]. unfold add_video_param at 2. cbn [bind fst snd].
    destruct (video_param_args_strings f fmt codec k v Hf) as [l ->].
    cbn [bind]. rewrite <- map_app. apply IH.
Qed.

Lemma audio_param_args_strings k v :
  exists l, audio_param_args repr k v = map VStr l.
Proof.
  unfold audio_param_args.
  repeat match goal with
         | |- context [if ?b then _ else _] => destruct b
         end;
    first [exists []; reflexivity | eexists [_; _]; reflexivity].
Qed.

Lemma fold_audio_strings entries : forall A,
  exists L, fold_left (add_audio_param repr) entries (map VStr A) = map VStr L.
Proof.
  induction entries as [|[k v] entries IH]; intro A.
  - exists A. reflexivity.
  - cbn [fold_left]. unfold add_audio_param at 2. cbn [fst snd].
    destruct (audio_param_args_strings k v) as [l ->].
    rewrite <- map_app. apply IH.
Qed.

Lemma buildable_video fp sm :
  buildable fp -> is_ok (has_stream "video" sm) = true ->
  exists V, add_video repr fp sm [] = Ok (map VStr V).
Proof.
  intros (f & fmt & c & p & -> & Hfmt & Hc & Hp & Hv & _) Hs.
  unfold add_video, has_section.
  destruct (has_stream "video" sm) as [[|]|]; try discriminate; cbn [bind];
    [|exists []; reflexivity].
  cbn [getitem]. rewrite Hp, Hc. cbn [bind contains getitem]. unfold dict_mem.
  destruct (dict_get "video" p) as [s|] eqn:E; cbn [bind]; [|exists []; reflexivity].
  specialize (Hv s eq_refl). destruct s; try discriminate. cbn [items bind].
  destruct (video_codec_args_strings c) as [l ->]. cbn [app].
  apply (fold_video_strings f (VStr fmt) (VStr c) d Hfmt).
Qed.

Lemma buildable_audio fp sm :
  buildable fp -> is_ok (has_stream "audio" sm) = true ->
  exists A, add_audio repr fp sm [] = Ok (map VStr A).
Proof.
  intros (f & fmt & c & p & -> & Hfmt & Hc & Hp & _ & Ha & _) Hs.
  unfold add_audio, has_section.
  destruct (has_stream "audio" sm) as [[|]|]; try discriminate; cbn [bind];
    [|exists []; reflexivity].
  cbn [getitem]. rewrite Hp. cbn [bind contains getitem]. unfold dict_mem.
  destruct (dict_get "audio" p) as [s|] eqn:E; cbn [bind]; [|exists []; reflexivity].
  destruct (Ha s eq_refl) as (a & -> & Hcodec). cbn [contains bind getitem items].
  unfold dict_mem.
  destruct (dict_get "codec" a) as [x|] eqn:Ex; cbn [bind].
  - destruct (Hcodec x eq_refl) as [n ->]. cbn [app].
    destruct (fold_audio_strings a ["-c:a"; n]) as [L HL]. exists L.
    now rewrite <- HL.
  - destruct (fold_audio_strings a []) as [L HL]. exists L. now rewrite <- HL.
Qed.

Lemma buildable_extras fp :
  buildable fp -> exists E, extra_flags repr fp = Ok E.
Proof.
  intros (f & fmt & c & p & -> & Hfmt & Hc & Hp & _ & _ & Ho).
  unfold extra_flags, has_section. cbn [getitem]. rewrite Hp.
  cbn [bind contains getitem]. unfold dict_mem.
  destruct (dict_get "ffmpeg_options" p) as [o|] eqn:E; cbn [bind]; [|eauto].
  specialize (Ho o eq_refl). destruct (iter o); [|discriminate]. cbn [bind]. eauto.
Qed.

Lemma buildable_command src out fp sm :
  buildable fp ->
  is_ok (has_stream "video" sm) = true ->
  is_ok (has_stream "audio" sm) = true ->
  exists body fmt,
    getitem fp "format" = Ok (VStr fmt) /\
    build_ffmpeg_cmd repr src out fp sm
    = Ok (["ffmpeg"; "-y"; "-i"; src] ++ body ++ format_flag fmt ++ [out]).
Proof.
  intros B Hv Ha.
  destruct (buildable_video fp sm B Hv) as [V HV].
  destruct (buildable_audio fp sm B Ha) as [A HA].
  destruct (buildable_extras fp B) as [E HE].
  destruct B as (f & fmt & c & p & -> & Hfmt & Hc & Hp & _).
  exists (V ++ A ++ E), fmt. split; [cbn [getitem]; now rewrite Hfmt|].
  unfold build_ffmpeg_cmd.
  rewrite add_video_shift, HV. cbn [bind].
  rewrite add_audio_shift, HA. cbn [bind].
  rewrite add_ffmpeg_options_shift, HE. cbn [bind].
  unfold add_output_format, format_flag. cbn [getitem]. rewrite Hfmt.
  cbn [bind truthy].
  change [VStr "ffmpeg"; VStr "-y"; VStr "-i"; VStr src]
    with (map VStr ["ffmpeg"; "-y"; "-i"; src]).
  destruct (String.eqb fmt ""); cbn [negb bind].
  - change [VStr out] with (map VStr [out]).
    rewrite <- !map_app, all_strings_map. cbn [app].
    now rewrite <- !app_assoc.
  - change [VStr "-f"; VStr fmt] with (map VStr ["-f"; fmt]).
    change [VStr out] with (map VStr [out]).
    rewrite <- !map_app, all_strings_map. now rewrite <- !app_assoc.
Qed.


(** X10.  The command builder is total on well-formed input: for a
    specification that is [buildable] and a source whose streams can be
    read, it returns a command that starts with "ffmpeg -y -i <source>" and
    ends with the container flag and the output path. *)
Theorem buildable_spec_always_yields_a_command src out fp sm :
  buildable fp ->
  is_ok (has_stream "video" sm) = true ->
  is_ok (has_stream "audio" sm) = true ->
  exists body fmt,
    getitem fp "format" = Ok (VStr fmt) /\
    build_ffmpeg_cmd repr src out fp sm
    = Ok (["ffmpeg"; "-y"; "-i"; src] ++ body ++ format_flag fmt ++ [out]).
Proof. exact (buildable_command src out fp sm). Qed.



End WithRepr.

Lemma buildable_spec_witness :
  exists body fmt,
    getitem spec_with_extras "format" = Ok (VStr fmt) /\
    build_ffmpeg_cmd no_repr "in.mov" "out.mp4" spec_with_extras source_av
    = Ok (["ffmpeg"; "-y"; "-i"; "in.mov"] ++ body ++ format_flag fmt ++ ["out.mp4"]).
Proof.
  apply buildable_spec_always_yields_a_command; [|reflexivity|reflexivity].
  eexists _, _, _, _. split; [reflexivity|].
  split; [reflexivity|]. split; [reflexivity|]. split; [reflexivity|].
  split; [intros s [= <-]; reflexivity|].
  split.
  - intros s [= <-]. eexists. split; [reflexivity|].
    intros x [= <-]. eauto.
  - intros o [= <-]. reflexivity.
Defined.


End TotalityProps.

(** ** The verdict of the validator *)

Module VerdictProps.
Import Statements Scenarios.
Import FN.
Import ResolverProps.

Lemma keeps_justified_lift {A} (r : result A) : keeps_justified (lift r).
Proof. intros v H. exact H. Qed.

Lemma keeps_justified_ret {A} (a : A) : keeps_justified (vret a).
Proof. intros v H. exact H. Qed.

Lemma keeps_justified_note msg : keeps_justified (note msg).
Proof.
  intros v H Hp. simpl in *. rewrite existsb_app, (H Hp). reflexivity.
Qed.

Lemma keeps_justified_fail msg :
  fatal_issue msg = true -> keeps_justified (fail msg).
Proof.
  intros Hm v H Hp. simpl. rewrite existsb_app. simpl. rewrite Hm.
  now rewrite orb_true_r.
Qed.

Lemma keeps_justified_bind {A B} (m : VM A) (k : A -> VM B) :
  keeps_justified m -> (forall a, keeps_justified (k a)) ->
  keeps_justified (vbind m k).
Proof.
  intros Hm Hk v H. unfold vbind. specialize (Hm v H).
  destruct (m v) as [v' [a|e]]; simpl in *; [apply Hk|]; exact Hm.
Qed.

Lemma keeps_justified_if {A} (b : bool) (m1 m2 : VM A) :
  keeps_justified m1 -> keeps_justified m2 ->
  keeps_justified (if b then m1 else m2).
Proof. destruct b; auto. Qed.

Ltac justify :=
  repeat first
    [ apply keeps_justified_bind; [|intro]
    | apply keeps_justified_if
    | apply keeps_justified_lift
    | apply keeps_justified_ret
    | apply keeps_justified_note
    | apply keeps_justified_fail; reflexivity ].

Section WithFormats.

Variable format_f : nat -> Q -> string.
Variable format_pct : nat -> Q -> string.

Lemma validate_checks_keeps_justified sm om tf :
  keeps_justified (validate_checks format_f format_pct sm om tf).
Proof.
  unfold validate_checks, check_format, check_video_codec, check_audio_codec,
    check_resolution, check_size, check_duration.
  justify.
Qed.

(** X12.  A failed verdict is always explained: when [_validate_output]
    returns [passed = False], its issue list holds a container mismatch, a
    codec mismatch, the zero-size issue or a validation error.  In
    particular an empty issue list goes with a passed verdict. *)
Theorem failed_verdict_names_a_fatal_issue sm om tf :
  passed (_validate_output format_f format_pct sm om tf) = false ->
  existsb fatal_issue (issues (_validate_output format_f format_pct sm om tf)) = true.
Proof.
  unfold _validate_output.
  pose proof (validate_checks_keeps_justified sm om tf
                {| passed := true; issues := [] |}) as H.
  destruct (validate_checks format_f format_pct sm om tf _) as [v [u|e]];
    simpl in H.
  - apply H. discriminate.
  - intros _. simpl. rewrite existsb_app. simpl.
    replace (fatal_issue ("Validation error: " ++ exn_str e)) with true
      by reflexivity.
    now rewrite orb_true_r.
Qed.

End WithFormats.

Lemma failed_verdict_witness :
  passed (_validate_output fixed percent source_probe empty_output_probe spec_mp4) = false /\
  existsb fatal_issue
    (issues (_validate_output fixed percent source_probe empty_output_probe spec_mp4)) = true.
Proof.
  assert (H : passed (_validate_output fixed percent source_probe
                        empty_output_probe spec_mp4) = false)
    by (vm_compute; reflexivity).
  split; [exact H|].
  exact (failed_verdict_names_a_fatal_issue fixed percent _ _ _ H).
Defined.

End VerdictProps.

(** ** The thresholds of the resolution and size checks *)

Module ThresholdProps.
Import Statements Scenarios.
Import FN.
Import ResolverProps.

Lemma reduction_over_ten_percent op sp :
  0 < sp ->
  Qgt_bool (100 - (inject_Z op / inject_Z sp * 100)) 10 = (10 * op <? 9 * sp).
Proof.
  intro H. destruct sp as [|p|p]; try lia.
  unfold Qgt_bool, Qle_bool, Qminus, Qplus, Qopp, Qdiv, Qmult, Qinv, inject_Z.
  cbn [Qnum Qden].
  rewrite !Pos.mul_1_l, !Pos.mul_1_r.
  destruct (Z.leb_spec ((100 * Z.pos p + - (op * 1 * 100) * 1) * 1) (10 * Z.pos p));
    destruct (Z.ltb_spec (10 * op) (9 * Z.pos p)); simpl; try reflexivity; lia.
Qed.

Lemma under_one_percent os ss :
  Qlt_bool (inject_Z os) (inject_Z ss * (1 # 100)) = (100 * os <? ss).
Proof.
  unfold Qlt_bool, Qle_bool, Qmult, inject_Z. cbn [Qnum Qden].
  destruct (Z.leb_spec (ss * 1 * 1) (os * Z.pos (1 * 100)));
    destruct (Z.ltb_spec (100 * os) ss); simpl; try reflexivity; lia.
Qed.

Lemma resolution_of_found md w h :
  _get_resolution md = Ok (Some (w, h)) ->
  exists s,
    find_stream "video" md = Ok s /\ truthy s = true /\
    (x <- get s "width" (VInt 0) ;; int x) = Ok w /\
    (x <- get s "height" (VInt 0) ;; int x) = Ok h.
Proof.
  unfold _get_resolution, find_stream.
  destruct (get md "streams" (VList [])) as [streams|]; [|discriminate].
  cbn [bind]. destruct (iter streams) as [l|]; [|discriminate]. cbn [bind].
  rewrite StreamProps.resolution_is_first.
  destruct (first_stream "video" l) as [s|]; [|discriminate]. cbn [bind].
  destruct (truthy s) eqn:T; [|discriminate].
  intro H. exists s. split; [reflexivity|]. split; [exact T|].
  destruct (get s "width" (VInt 0)) as [x|]; [|discriminate]. cbn [bind] in *.
  destruct (int x) as [w'|]; [|discriminate]. cbn [bind] in *.
  destruct (get s "height" (VInt 0)) as [y|]; [|discriminate]. cbn [bind] in *.
  destruct (int y) as [h'|]; [|discriminate]. cbn [bind] in *.
  injection H as -> ->. split; reflexivity.
Qed.

Section WithFormats.

Variable format_f : nat -> Q -> string.
Variable format_pct : nat -> Q -> string.

(** X13.  The resolution check, in integers: for a source of positive
    width and height, the issue is recorded exactly when ten times the
    output's pixel count is below nine times the source's (a reduction of
    more than ten percent, in exact arithmetic), and it never changes the
    verdict. *)
Theorem resolution_issue_below_nine_tenths sm om sw sh ow oh v :
  _get_resolution sm = Ok (Some (sw, sh)) ->
  _get_resolution om = Ok (Some (ow, oh)) ->
  0 < sw -> 0 < sh ->
  check_resolution format_f true sm om v
  = if 10 * (ow * oh) <? 9 * (sw * sh)
    then note ("Resolution reduced by "
               ++ format_f 1 (100 - (inject_Z (ow * oh) / inject_Z (sw * sh) * 100))%Q
               ++ "% (" ++ str_of_Z sw ++ "x" ++ str_of_Z sh ++ " -> "
               ++ str_of_Z ow ++ "x" ++ str_of_Z oh ++ ")") v
    else (v, Ok tt).
Proof.
  intros Hs Ho Hw Hh.
  destruct (resolution_of_found _ _ _ Hs) as (ss & Fs & Ts & Ws & Hs').
  destruct (resolution_of_found _ _ _ Ho) as (os & Fo & To & Wo & Ho').
  unfold check_resolution, vbind, lift.
  rewrite Fs, Fo, Ts, To. cbn [andb]. rewrite Ws, Hs', Wo, Ho'.
  destruct (Z.ltb_spec 0 sw); [|lia]. destruct (Z.ltb_spec 0 sh); [|lia].
  cbn [andb]. rewrite reduction_over_ten_percent by nia.
  destruct (10 * (ow * oh) <? 9 * (sw * sh)); reflexivity.
Qed.

(** X14.  The size check, in integers: a size of zero or less fails the
    validation; otherwise a note is recorded exactly when the source size is
    positive and a hundred times the output size is below it (an output
    under one percent of the source), and the verdict is left as it is. *)
Theorem size_check_thresholds sm om ss os v :
  (x <- format_field sm "size" (VInt 0) ;; int x) = Ok ss ->
  (x <- format_field om "size" (VInt 0) ;; int x) = Ok os ->
  check_size format_pct sm om v
  = if os <=? 0 then fail zero_size_issue v
    else if ((0 <? ss) && (100 * os <? ss))%bool
    then note ("Output file is suspiciously small (" ++ str_of_Z os ++ " bytes, "
               ++ format_pct 1 (inject_Z os / inject_Z ss) ++ " of source)") v
    else (v, Ok tt).
Proof.
  intros Hs Ho. unfold check_size, vbind, lift. rewrite Hs, Ho.
  rewrite under_one_percent.
  destruct (os <=? 0); [reflexivity|].
  destruct ((0 <? ss) && (100 * os <? ss))%bool; reflexivity.
Qed.

End WithFormats.

Lemma resolution_issue_witness :
  check_resolution fixed true source_probe downscaled_output_probe fresh
  = if 10 * (1280 * 720) <? 9 * (1920 * 1080)
    then note ("Resolution reduced by "
               ++ fixed 1 (100 - (inject_Z (1280 * 720) / inject_Z (1920 * 1080) * 100))%Q
               ++ "% (" ++ str_of_Z 1920 ++ "x" ++ str_of_Z 1080 ++ " -> "
               ++ str_of_Z 1280 ++ "x" ++ str_of_Z 720 ++ ")") fresh
    else (fresh, Ok tt).
Proof.
  apply resolution_issue_below_nine_tenths; [reflexivity | reflexivity | lia | lia].
Defined.

Lemma size_check_witness :
  check_size percent source_probe downscaled_output_probe fresh
  = if 400000 <=? 0 then fail zero_size_issue fresh
    else if ((0 <? 1000000) && (100 * 400000 <? 1000000))%bool
    then note ("Output file is suspiciously small (" ++ str_of_Z 400000 ++ " bytes, "
               ++ percent 1 (inject_Z 400000 / inject_Z 1000000) ++ " of source)") fresh
    else (fresh, Ok tt).
Proof.
  apply size_check_thresholds; reflexivity.
Defined.

End ThresholdProps.

(** ** Quality metrics and transformations *)

Module SummaryProps.
Import Statements Scenarios.
Import FN.
Import ResolverProps.

Lemma Qmin_le_l a b : (Qmin a b <= a)%Q.
Proof.
  unfold Qmin. destruct (Qle_bool a b) eqn:E; [apply Qle_refl|].
  apply Qlt_le_weak, Qnot_le_lt. intro H. apply Qle_bool_iff in H. congruence.
Qed.

Lemma scaled_share_le_100 x : (Qmin 1 x * 100 <= 100)%Q.
Proof.
  setoid_replace (100 : Q) with (1 * 100)%Q at 2 by reflexivity.
  apply Qmult_le_compat_r; [apply Qmin_le_l | discriminate].
Qed.

Lemma video_estimates_bounded sv ov m name q :
  video_metrics sv ov = Ok m -> In (name, q) m -> is_estimate name = true ->
  (q <= 100)%Q.
Proof.
  unfold video_metrics. intros H Hin Hn.
  destruct (truthy sv && truthy ov)%bool; [|injection H as <-; destruct Hin].
  bind_inv H. bind_inv H. bind_inv H. bind_inv H. injection H as <-.
  destruct (0 <? a); destruct (Qgt_bool a1 0 && Qgt_bool a2 0)%bool;
    simpl in Hin;
    repeat match goal with
           | D : _ \/ _ |- _ => destruct D as [D|D]
           | D : False |- _ => destruct D
           | D : (_, _) = (_, _) |- _ => injection D as <- <-
           end;
    try discriminate Hn;
    first [apply scaled_share_le_100 | apply Qmin_le_l].
Qed.

Lemma audio_estimates_bounded sa oa m name q :
  audio_metrics sa oa = Ok m -> In (name, q) m -> is_estimate name = true ->
  (q <= 100)%Q.
Proof.
  unfold audio_metrics. intros H Hin Hn.
  destruct (truthy sa && truthy oa)%bool; [|injection H as <-; destruct Hin].
  bind_inv H. bind_inv H.
  destruct (Qgt_bool a 0 && Qgt_bool a0 0)%bool; injection H as <-;
    simpl in Hin;
    repeat match goal with
           | D : _ \/ _ |- _ => destruct D as [D|D]
           | D : False |- _ => destruct D
           | D : (_, _) = (_, _) |- _ => injection D as <- <-
           end;
    try discriminate Hn.
  apply Qmin_le_l.
Qed.

(** X15.  The three estimates among the quality metrics
    (resolution_preservation, estimated_visual_quality,
    estimated_audio_quality) never exceed 100, whatever the two
    descriptors. *)
Theorem quality_estimates_never_exceed_100 sm om metrics name q :
  _calculate_quality_metrics sm om = Ok metrics ->
  In (name, q) metrics -> is_estimate name = true ->
  (q <= 100)%Q.
Proof.
  unfold _calculate_quality_metrics. intros H Hin Hn.
  bind_inv H. bind_inv H. bind_inv H. bind_inv H. bind_inv H. bind_inv H.
  injection H as <-. apply in_app_or in Hin. destruct Hin as [Hin|Hin].
  - eapply video_estimates_bounded; eauto.
  - eapply audio_estimates_bounded; eauto.
Qed.

(** X16.  Every transformation [_parse_ffmpeg_output] reports is a line of
    the encoder's log: a stream-mapping line as it is, or an output, encoder
    or bitrate line with the surrounding white space removed. *)
Theorem transformations_come_from_marked_lines stderr_output t :
  In t (_parse_ffmpeg_output stderr_output) ->
  exists line,
    In line (split_char newline stderr_output) /\
    ((t = line /\ is_mapping_line line = true)
     \/ (t = strip line /\ is_output_line line = true)).
Proof.
  unfold _parse_ffmpeg_output. intro H. apply in_app_or in H.
  destruct H as [H|H].
  - apply filter_In in H. destruct H as [Hin Hm]. exists t. auto.
  - apply in_map_iff in H. destruct H as (line & <- & H).
    apply filter_In in H. destruct H as [Hin Hm]. exists line. auto.
Qed.

Lemma quality_estimates_witness :
  (Qmin 1 (inject_Z (1280 * 720) / inject_Z (1920 * 1080)) * 100 <= 100)%Q.
Proof.
  apply (quality_estimates_never_exceed_100 source_probe downscaled_output_probe
           [("resolution_preservation",
             (Qmin 1 (inject_Z (1280 * 720) / inject_Z (1920 * 1080)) * 100)%Q)]
           "resolution_preservation");
    [reflexivity | left; reflexivity | reflexivity].
Defined.

Lemma transformations_witness :
  exists line,
    In line (split_char newline encoder_log) /\
    (("Stream mapping:" = line /\ is_mapping_line line = true)
     \/ ("Stream mapping:" = strip line /\ is_output_line line = true)).
Proof.
  apply transformations_come_from_marked_lines. vm_compute. tauto.
Defined.

End SummaryProps.

(** ** Failures of the pipeline *)

Module FailureProps.
Import Statements Scenarios.
Import FN.
Import ResolverProps.

Section WithText.

Variable repr : value -> string.
Variable format_f : nat -> Q -> string.
Variable format_pct : nat -> Q -> string.

(** X17.  When the encoder exits with a non-zero code the job fails with a
    [RuntimeError] that carries the code and the encoder's diagnostics
    verbatim, whether or not validation was requested. *)
Theorem failed_encoding_fails_the_job w src out tf preset enable_ai validate sm fp an cmd :
  resolve w tf preset enable_ai = Ok (sm, fp, an) ->
  build_ffmpeg_cmd repr src out fp sm = Ok cmd ->
  encoder_returncode w cmd <> 0 ->
  normalize repr format_f format_pct w src out tf preset enable_ai validate
  = Raise (RuntimeError
             ("Media conversion failed: FFmpeg failed with return code "
              ++ str_of_Z (encoder_returncode w cmd) ++ ": "
              ++ encoder_stderr w cmd)).
Proof.
  intros Hr Hb Hrc. unfold normalize, _convert_media. rewrite Hr. cbn [bind fst snd].
  rewrite Hb. cbn [bind].
  destruct (Z.eqb_spec (encoder_returncode w cmd) 0); [contradiction|].
  reflexivity.
Qed.

(** X18.  When the encoder exits with code zero and there is no output
    file, the job fails with a [RuntimeError] naming the output path:
    nothing is probed or validated. *)
Theorem missing_output_fails_the_job w src out tf preset enable_ai validate sm fp an cmd :
  resolve w tf preset enable_ai = Ok (sm, fp, an) ->
  build_ffmpeg_cmd repr src out fp sm = Ok cmd ->
  encoder_returncode w cmd = 0 ->
  output_exists w = false ->
  normalize repr format_f format_pct w src out tf preset enable_ai validate
  = Raise (RuntimeError ("Conversion failed: Output file not found at " ++ out)).
Proof.
  intros Hr Hb Hrc Hout. unfold normalize, _convert_media. rewrite Hr.
  cbn [bind fst snd]. rewrite Hb. cbn [bind]. rewrite Hrc, Hout. reflexivity.
Qed.

(** X19.  With AI enabled, an error of the recommender is the error of the
    job: [normalize] does not fall back to a default here, and the encoder
    is not run. *)
Theorem recommender_failure_aborts_the_job w src out tf preset validate sm fp e :
  probe_source w = Ok sm ->
  _prepare_format_parameters tf preset = Ok fp ->
  recommend w sm fp = Raise e ->
  normalize repr format_f format_pct w src out tf preset true validate = Raise e.
Proof.
  intros Hp Hr He. unfold normalize, resolve. rewrite Hp. cbn [bind].
  rewrite Hr. cbn [bind]. rewrite He. reflexivity.
Qed.

End WithText.

Lemma recommender_failure_witness :
  normalize no_repr fixed percent run_with_failed_encoder "in.mov" "out.mp4"
            target_with_extras "web" true true
  = Raise (RuntimeError "recommender not available").
Proof.
  apply (recommender_failure_aborts_the_job no_repr fixed percent
           run_with_failed_encoder "in.mov" "out.mp4" target_with_extras "web" true
           source_probe spec_with_extras);
    reflexivity.
Defined.

Lemma failed_encoding_witness :
  normalize no_repr fixed percent run_with_failed_encoder "in.mov" "out.mp4"
            target_crf18 "web" false true
  = Raise (RuntimeError
             ("Media conversion failed: FFmpeg failed with return code "
              ++ str_of_Z (encoder_returncode run_with_failed_encoder cmd_crf18) ++ ": "
              ++ encoder_stderr run_with_failed_encoder cmd_crf18)).
Proof.
  eapply (failed_encoding_fails_the_job no_repr fixed percent run_with_failed_encoder
            "in.mov" "out.mp4" target_crf18 "web" false true);
    [reflexivity | reflexivity | discriminate].
Defined.

Lemma missing_output_witness :
  normalize no_repr fixed percent run_without_output "in.mov" "out.mp4"
            target_crf18 "web" false true
  = Raise (RuntimeError ("Conversion failed: Output file not found at " ++ "out.mp4")).
Proof.
  eapply (missing_output_fails_the_job no_repr fixed percent run_without_output
            "in.mov" "out.mp4" target_crf18 "web" false true _ _ _ cmd_crf18);
    reflexivity.
Defined.

End FailureProps.

(** ** The preset table of [src/normalizer.py] *)

Module PresetTableProps.
Import Statements Scenarios.
Import FN.
Import ResolverProps.








(** Without a preset the same call hands the builder nothing. *)
Example recommendation_without_preset :
  SN.plan SN.presets (VStr "key") (VDict [("video_codec", VStr "prores")])
          VNone (VStr "vp9") (VBool true)
  = Ok (SN.presets, VDict []).
Proof. reflexivity. Qed.

End PresetTableProps.

(** ** Frame rate, settings and command of [formatnormalizer/normalizer.py] *)

Module SettingsProps.
Import Statements Scenarios.
Import DictFacts.
Import NumberFacts.
Import FN.
Import ResolverProps.
Import FNN.



Lemma eq_str_inv v s : eq_str v s = true -> v = VStr s.
Proof.
  destruct v; simpl; try discriminate. intro H. apply String.eqb_eq in H.
  now subst.
Qed.

Ltac literal_update :=
  first
    [ erewrite dict_get_update_present;
      [reflexivity | repeat constructor; simpl; intuition discriminate | reflexivity]
    | rewrite dict_get_update_absent by (simpl; intuition discriminate) ].

Section WithPresets.

Variable PRESETS : dict.

Lemma settings_layers preset_name output_format quality settings :
  _get_preset_settings PRESETS preset_name output_format quality = Ok settings ->
  exists d1 d2 d3,
    settings = VDict d3 /\
    ((eq_str output_format "mp4" = true /\
      d2 = dict_update d1 [("video_codec", VStr "libx264"); ("audio_codec", VStr "aac")])
     \/ (eq_str output_format "webm" = true /\
         d2 = dict_update d1 [("video_codec", VStr "libvpx-vp9");
                              ("audio_codec", VStr "libopus")])
     \/ (eq_str output_format "mp4" = false /\ eq_str output_format "webm" = false)) /\
    ((eq_str quality "low" = true /\
      d3 = dict_update d2 [("crf", VInt 28); ("audio_bitrate", VStr "96k");
                           ("preset", VStr "faster")])
     \/ (eq_str quality "high" = true /\
         d3 = dict_update d2 [("crf", VInt 18); ("audio_bitrate", VStr "192k");
                              ("preset", VStr "slow")])
     \/ (eq_str quality "low" = false /\ eq_str quality "high" = false /\ d3 = d2)).
Proof.
  unfold _get_preset_settings. intro H.
  bind_inv H. bind_inv H. bind_inv H.
  assert (exists d1, a0 = VDict d1) as [d1 ->].
  { destruct a as [name|].
    - bind_inv E0.
      match type of E0 with
      | match ?x with _ => _ end = _ => destruct x; try discriminate
      end.
      injection E0 as <-. eauto.
    - injection E0 as <-. eauto. }
  assert (exists d2, a1 = VDict d2 /\
            ((eq_str output_format "mp4" = true /\
              d2 = dict_update d1 [("video_codec", VStr "libx264");
                                   ("audio_codec", VStr "aac")])
             \/ (eq_str output_format "webm" = true /\
                 d2 = dict_update d1 [("video_codec", VStr "libvpx-vp9");
                                      ("audio_codec", VStr "libopus")])
             \/ (eq_str output_format "mp4" = false /\
                 eq_str output_format "webm" = false))) as (d2 & -> & Hfmt).
  { destruct (eq_str output_format "mp4") eqn:E2.
    - injection E1 as <-. eauto.
    - destruct (eq_str output_format "webm") eqn:E3.
      + injection E1 as <-. eexists. split; [reflexivity|]. right. left. auto.
      + destruct (eq_str output_format "wav");
          [|destruct (eq_str output_format "mp3")];
          injection E1 as <-; eexists; (split; [reflexivity|]); right; right; auto. }
  exists d1, d2.
  destruct (eq_str quality "low") eqn:Q1.
  - injection H as <-. eexists. split; [reflexivity|]. split; [exact Hfmt|]. auto.
  - destruct (eq_str quality "high") eqn:Q2; injection H as <-;
      eexists; (split; [reflexivity|]); (split; [exact Hfmt|]); auto.
Qed.

(** X23.  In [_get_preset_settings] the later layers win over the preset
    table, whatever the table holds: the output formats "mp4" and "webm" fix
    both codecs, and the qualities "low" and "high" fix the CRF, the audio
    bitrate and the encoder preset. *)
Theorem format_and_quality_override_the_preset
  preset_name output_format quality settings :
  _get_preset_settings PRESETS preset_name output_format quality = Ok settings ->
  (eq_str output_format "mp4" = true ->
   getitem settings "video_codec" = Ok (VStr "libx264") /\
   getitem settings "audio_codec" = Ok (VStr "aac")) /\
  (eq_str output_format "webm" = true ->
   getitem settings "video_codec" = Ok (VStr "libvpx-vp9") /\
   getitem settings "audio_codec" = Ok (VStr "libopus")) /\
  (eq_str quality "low" = true ->
   getitem settings "crf" = Ok (VInt 28) /\
   getitem settings "audio_bitrate" = Ok (VStr "96k") /\
   getitem settings "preset" = Ok (VStr "faster")) /\
  (eq_str quality "high" = true ->
   getitem settings "crf" = Ok (VInt 18) /\
   getitem settings "audio_bitrate" = Ok (VStr "192k") /\
   getitem settings "preset" = Ok (VStr "slow")).
Proof.
  intro H. destruct (settings_layers _ _ _ _ H) as (d1 & d2 & d3 & -> & Hf & Hq).
  cbn [getitem].
  assert (Hcodec : forall k, k = "video_codec" \/ k = "audio_codec" ->
                              dict_get k d3 = dict_get k d2).
  { intros k Hk.
    destruct Hq as [[_ ->]|[[_ ->]|(_ & _ & ->)]]; [| |reflexivity];
      destruct Hk as [->| ->]; now literal_update. }
  repeat split.
  - rewrite Hcodec by auto.
    destruct Hf as [[_ ->]|[[E _]|[E _]]]; [|apply eq_str_inv in E|]; try congruence;
      [|apply eq_str_inv in H0; subst; discriminate].
    now literal_update.
  - rewrite Hcodec by auto.
    destruct Hf as [[_ ->]|[[E _]|[E _]]]; [|apply eq_str_inv in E|]; try congruence;
      [|apply eq_str_inv in H0; subst; discriminate].
    now literal_update.
  - rewrite Hcodec by auto.
    destruct Hf as [[E _]|[[_ ->]|[_ E]]]; [apply eq_str_inv in E| |]; try congruence;
      [apply eq_str_inv in H0; subst; discriminate|].
    now literal_update.
  - rewrite Hcodec by auto.
    destruct Hf as [[E _]|[[_ ->]|[_ E]]]; [apply eq_str_inv in E| |]; try congruence;
      [apply eq_str_inv in H0; subst; discriminate|].
    now literal_update.
  - destruct Hq as [[_ ->]|[[E _]|(E & _)]]; [|apply eq_str_inv in E|]; try congruence;
      [|apply eq_str_inv in H0; subst; discriminate].
    now literal_update.
  - destruct Hq as [[_ ->]|[[E _]|(E & _)]]; [|apply eq_str_inv in E|]; try congruence;
      [|apply eq_str_inv in H0; subst; discriminate].
    now literal_update.
  - destruct Hq as [[_ ->]|[[E _]|(E & _)]]; [|apply eq_str_inv in E|]; try congruence;
      [|apply eq_str_inv in H0; subst; discriminate].
    now literal_update.
  - destruct Hq as [[E _]|[[_ ->]|(_ & E & _)]]; [apply eq_str_inv in E| |]; try congruence;
      [apply eq_str_inv in H0; subst; discriminate|].
    now literal_update.
  - destruct Hq as [[E _]|[[_ ->]|(_ & E & _)]]; [apply eq_str_inv in E| |]; try congruence;
      [apply eq_str_inv in H0; subst; discriminate|].
    now literal_update.
  - destruct Hq as [[E _]|[[_ ->]|(_ & E & _)]]; [apply eq_str_inv in E| |]; try congruence;
      [apply eq_str_inv in H0; subst; discriminate|].
    now literal_update.
Qed.

Variable repr : value -> string.

(** X24.  For output format "mp4" and quality "high" the command is fixed
    up to the scale filter, for every preset table and preset name: libx264
    with preset slow and CRF 18, aac at 192k, the metadata mapping when
    requested, the scale filter when the settings have one, then the output
    path. *)
Theorem mp4_high_command_is_fixed preset_name settings input output preserve :
  _get_preset_settings PRESETS preset_name (VStr "mp4") (VStr "high") = Ok settings ->
  exists tail,
    _build_ffmpeg_command repr input output settings preserve
    = Ok (map VStr ["ffmpeg"; "-i"; input; "-c:v"; "libx264"; "-preset"; "slow";
                    "-crf"; "18"; "-c:a"; "aac"; "-b:a"; "192k"]
          ++ (if preserve then [VStr "-map_metadata"; VStr "0"] else [])
          ++ tail ++ [VStr output]) /\
    match tail with
    | [] => contains "scale" settings = Ok false
    | _ => exists s, getitem settings "scale" = Ok s /\
                     tail = [VStr "-vf"; VStr ("scale=" ++ str repr s)]
    end.
Proof.
  intro H. destruct (settings_layers _ _ _ _ H) as (d1 & d2 & d3 & -> & Hf & Hq).
  destruct Hf as [[_ ->]|[[E _]|[E _]]]; try discriminate E.
  destruct Hq as [[E _]|[[_ ->]|(_ & E & _)]]; try discriminate E.
  set (d3 := dict_update _ _).
  assert (Hvc : dict_get "video_codec" d3 = Some (VStr "libx264"))
    by (subst d3; literal_update; now literal_update).
  assert (Hac : dict_get "audio_codec" d3 = Some (VStr "aac"))
    by (subst d3; literal_update; now literal_update).
  assert (Hp : dict_get "preset" d3 = Some (VStr "slow"))
    by (subst d3; now literal_update).
  assert (Hcrf : dict_get "crf" d3 = Some (VInt 18))
    by (subst d3; now literal_update).
  assert (Hab : dict_get "audio_bitrate" d3 = Some (VStr "192k"))
    by (subst d3; now literal_update).
  clearbody d3.
  unfold _build_ffmpeg_command. cbn [contains getitem get]. unfold dict_mem.
  rewrite Hvc, Hac, Hp, Hcrf, Hab. cbn [bind eq_str].
  change (String.eqb "libx264" "libx264") with true. cbv iota. cbn [bind].
  change (in_strs (VStr "aac") ["aac"; "libmp3lame"; "libopus"]) with true.
  cbv iota. cbn [bind].
  destruct (dict_get "scale" d3) as [s|]; cbn [bind].
  - exists [VStr "-vf"; VStr ("scale=" ++ str repr s)].
    split; [|eauto]. destruct preserve; reflexivity.
  - exists []. split; [|reflexivity]. destruct preserve; reflexivity.
Qed.

End WithPresets.

Lemma format_and_quality_witness :
  (getitem settings_web_mp4_high "video_codec" = Ok (VStr "libx264") /\
   getitem settings_web_mp4_high "audio_codec" = Ok (VStr "aac")) /\
  (getitem settings_web_mp4_high "crf" = Ok (VInt 18) /\
   getitem settings_web_mp4_high "audio_bitrate" = Ok (VStr "192k") /\
   getitem settings_web_mp4_high "preset" = Ok (VStr "slow")).
Proof.
  destruct (format_and_quality_override_the_preset
              sample_presets (VStr "web") (VStr "mp4") (VStr "high")
              settings_web_mp4_high eq_refl) as (Hmp4 & _ & _ & Hhigh).
  split; [apply Hmp4 | apply Hhigh]; reflexivity.
Defined.

Lemma mp4_high_command_witness :
  exists tail,
    _build_ffmpeg_command no_repr "in.mov" "out.mp4" settings_web_mp4_high true
    = Ok (map VStr ["ffmpeg"; "-i"; "in.mov"; "-c:v"; "libx264"; "-preset"; "slow";
                    "-crf"; "18"; "-c:a"; "aac"; "-b:a"; "192k"]
          ++ [VStr "-map_metadata"; VStr "0"]
          ++ tail ++ [VStr "out.mp4"]) /\
    match tail with
    | [] => contains "scale" settings_web_mp4_high = Ok false
    | _ => exists s, getitem settings_web_mp4_high "scale" = Ok s /\
                     tail = [VStr "-vf"; VStr ("scale=" ++ str no_repr s)]
    end.
Proof.
  apply (mp4_high_command_is_fixed sample_presets no_repr (VStr "web")).
  reflexivity.
Defined.

End SettingsProps.
